(** * pybacktest: trade ledger, signal loop and round-trip pairing

    A shallow embedding of [pybacktest/trade.py], of the per-bar loop of
    [pybacktest/strategy.py] and of the trade pairing of
    [pybacktest/performance.py], with the properties of the specification
    stated over it.  Further parts cover the trade statistics and the
    drawdown of [performance.py], the weights and the combined signal of
    [MultiSignalStrategy] and [CompositeSignal], [PortfolioStrategy.run],
    and [Backtest.run] and [Backtest.run_portfolio].

    Numbers.  Python's [float] and [int] quantities (cash, prices, share
    counts, rates) are embedded as exact rationals [Q]; decimal literals
    such as [0.0003] are the rationals they denote.  Arithmetic results are
    therefore compared with [==] ([Qeq]); rounding error, infinities and NaN
    are outside the model.  Dates are day ordinals in [Z].

    Effects.  A method that mutates the [TradeManager] is a function from
    the state before the call to a [Py.result] carrying the returned value
    and the state after it; a raised exception leaves the state as it was,
    as every [raise] of the source happens before the first assignment. *)

From Stdlib Require Import QArith Qround Qabs Lqa ZArith Lia Sorted.
From stdpp Require Import gmap strings list fin_maps.

Local Open Scope Q_scope.

(** ** Python primitives used by the source *)

Module Py.

Inductive exn : Type :=
| ValueError
| ZeroDivisionError.

Inductive result (A : Type) : Type :=
| Raise (e : exn)
| Return (a : A).

Arguments Raise {A} e.
Arguments Return {A} a.

Definition bind {A B : Type} (m : result A) (k : A -> result B) : result B :=
  match m with
  | Raise e => Raise e
  | Return a => k a
  end.

(** [a < b], [a <= b] and [a == b] on numbers. *)
Definition lt (a b : Q) : bool := negb (Qle_bool b a).
Definition le (a b : Q) : bool := Qle_bool a b.
Definition eq (a b : Q) : bool := Qeq_bool a b.

(** [max(a, b)] keeps its first argument unless the second is strictly
    greater; [min(a, b)] keeps it unless the second is strictly smaller. *)
Definition max (a b : Q) : Q := if lt a b then b else a.
Definition min (a b : Q) : Q := if lt b a then b else a.

(** [int(x)] truncates toward zero.  On a float that is infinite or NaN
    Python's [int] raises; no rational is either, so the function is total
    here (see [in_float_range] below). *)
Definition int (x : Q) : Z := Z.quot (Qnum x) (Z.pos (Qden x)).

(** [a / b] raises [ZeroDivisionError] on a zero divisor. *)
Definition div (a b : Q) : result Q :=
  if eq b 0 then Raise ZeroDivisionError else Return (a / b).

(** A bound well inside the range of a binary64 float.  The source hands
    float quotients to [int], which raises OverflowError on an infinite
    argument; a quotient whose exact value is within this bound is finite
    as a float.  [int] above is total, so the properties that say which
    exceptions a call raises, or that it raises none, take the quotients
    to be [in_float_range]. *)
Definition float_bound : Q := inject_Z (2 ^ 1000).
Definition in_float_range (x : Q) : Prop := Qabs x <= float_bound.

End Py.

Notation "x <- m ;; k" := (Py.bind m (fun x => k))
  (at level 100, m at next level, right associativity).

(** ** Data model *)

Inductive TradeType : Type :=
| BUY
| SELL
| INIT
| DIVIDEND.

Definition TradeType_eqb (a b : TradeType) : bool :=
  match a, b with
  | BUY, BUY | SELL, SELL | INIT, INIT | DIVIDEND, DIVIDEND => true
  | _, _ => false
  end.

Module TradeRecord.

Record t : Type := mk {
  date : Z;
  symbol : string;
  trade_type : TradeType;
  price : Q;
  shares : Q;
  commission : Q;
  slippage : Q;
  total_cost : Q;
  cash_change : Q;
  cash_balance : Q
}.

End TradeRecord.

Module Position.

Record t : Type := mk {
  symbol : string;
  shares : Q;
  avg_price : Q;
  cost_basis : Q
}.

(** [Position(symbol, shares=0, avg_price=0.0)] *)
Definition new (symbol : string) (shares avg_price : Q) : t :=
  mk symbol shares avg_price (shares * avg_price).

(** [add(shares, price)].  The average is the exact quotient; the source
    rounds the sum and the quotient to binary64. *)
Definition add (self : t) (shares price : Q) : t :=
  if Py.le shares 0 then self
  else
    let total_cost := self.(cost_basis) + shares * price in
    let total_shares := self.(Position.shares) + shares in
    mk self.(symbol) total_shares
       (if Py.lt 0 total_shares then total_cost / total_shares else 0)
       total_cost.

(** Returns the position after the call and the returned share count. *)
Definition remove (self : t) (shares : Q) : t * Q :=
  if Py.le shares 0 then (self, 0)
  else
    let actual_shares := Py.min shares self.(Position.shares) in
    let shares' := self.(Position.shares) - actual_shares in
    if Py.eq shares' 0
    then (mk self.(symbol) shares' 0 0, actual_shares)
    else (mk self.(symbol) shares' self.(avg_price)
             (shares' * self.(avg_price)), actual_shares).

Definition market_value (self : t) (current_price : Q) : Q :=
  self.(shares) * current_price.

Definition profit_loss (self : t) (current_price : Q) : Q :=
  self.(shares) * (current_price - self.(avg_price)).

Definition profit_loss_percent (self : t) (current_price : Q) : Q :=
  if Py.eq self.(avg_price) 0 || Py.eq self.(shares) 0 then 0
  else (current_price - self.(avg_price)) / self.(avg_price) * 100.

(** A position as the ledger keeps it: it is not short, its average price
    is not negative, its cost basis is its shares at the average price, and
    an empty position has a zero average price. *)
Definition wf (p : t) : Prop :=
  0 <= p.(shares)
  /\ 0 <= p.(avg_price)
  /\ p.(cost_basis) == p.(shares) * p.(avg_price)
  /\ (p.(shares) == 0 -> p.(avg_price) == 0).

End Position.

Module TradeCost.

Record t : Type := mk {
  commission_rate : Q;
  min_commission : Q;
  slippage_rate : Q
}.

(** [TradeCost()] with its default arguments. *)
Definition default : t := mk (3 # 10000) 5 (1 # 10000).

(** Returns [(commission, slippage, total_cost)]. *)
Definition calculate (self : t) (price shares : Q) : Q * Q * Q :=
  let commission :=
    Py.max (price * shares * self.(commission_rate)) self.(min_commission) in
  let slippage := price * shares * self.(slippage_rate) in
  let total_cost := commission + slippage in
  (commission, slippage, total_cost).

End TradeCost.

(** One entry of [daily_portfolio_value]. *)
Module Snapshot.

Record t : Type := mk {
  date : Z;
  cash : Q;
  positions_value : gmap string Q;
  total_value : Q
}.

End Snapshot.

(** ** TradeManager *)

Module TradeManager.

Record t : Type := mk {
  initial_cash : Q;
  cash : Q;
  trade_cost : TradeCost.t;
  positions : gmap string Position.t;
  trade_history : list TradeRecord.t;
  daily_portfolio_value : list Snapshot.t
}.

(** [TradeManager.__init__(initial_cash, trade_cost=None)] *)
Definition init (initial_cash : Q) (trade_cost : option TradeCost.t) : t :=
  mk initial_cash initial_cash
     (match trade_cost with Some tc => tc | None => TradeCost.default end)
     ∅ [] [].

(** The share count [buy] derives from [amount] when [shares is None]. *)
Definition buy_shares_of_amount (price amount : Q) (allow_partial : bool) : Q :=
  let max_shares := amount / price in
  let shares := inject_Z (Py.int (max_shares / 100) * 100) in
  if Py.eq shares 0 && allow_partial && Py.le 1 max_shares
  then 100
  else shares.

(** The share count [buy] works with before it looks at the cash:
    [shares] when given, else the count derived from [amount]; [None]
    when both are missing and [buy] raises. *)
Definition requested_shares (price : Q) (shares amount : option Q)
    (allow_partial : bool) : option Q :=
  match shares, amount with
  | None, None => None
  | None, Some a => Some (buy_shares_of_amount price a allow_partial)
  | Some s, _ => Some s
  end.

(** [int((cash / (price * (1 + commission_rate + slippage_rate))) / 100) * 100].
    The quotient is the exact one; the source rounds it to binary64, which
    at a lot boundary can give the next lot. *)
Definition max_affordable (self : t) (price : Q) : Py.result Q :=
  q <- Py.div self.(cash)
         (price * (1 + self.(trade_cost).(TradeCost.commission_rate)
                     + self.(trade_cost).(TradeCost.slippage_rate))) ;;
  Py.Return (inject_Z (Py.int (q / 100) * 100)).

(** The tail of [buy], from [self.cash -= total_spend] to the append:
    the record created and the manager after it. *)
Definition commit_buy (self : t) (date : Z) (symbol : string)
    (price shares commission slippage total_cost total_spend : Q)
  : TradeRecord.t * t :=
  let cash' := self.(cash) - total_spend in
  let position :=
    match self.(positions) !! symbol with
    | Some p => p
    | None => Position.new symbol 0 0
    end in
  let positions' :=
    <[symbol := Position.add position shares price]> self.(positions) in
  let trade_record :=
    TradeRecord.mk date symbol BUY price shares commission slippage
      total_cost (- total_spend) cash' in
  (trade_record,
   mk self.(initial_cash) cash' self.(trade_cost) positions'
      (self.(trade_history) ++ [trade_record])
      self.(daily_portfolio_value)).

(** [commit_buy] on the costs [calculate] gives for [shares]: what a
    committed buy of [shares] records and leaves behind. *)
Definition priced_buy (self : t) (date : Z) (symbol : string)
    (price shares : Q) : TradeRecord.t * t :=
  let '(commission, slippage, total_cost) :=
    TradeCost.calculate self.(trade_cost) price shares in
  commit_buy self date symbol price shares commission slippage total_cost
    (price * shares + total_cost).

Definition buy (self : t) (date : Z) (symbol : string) (price : Q)
    (shares amount : option Q) (allow_partial : bool)
  : Py.result (option TradeRecord.t * t) :=
  if Py.le price 0 then Py.Raise Py.ValueError
  else
    match requested_shares price shares amount allow_partial with
    | None => Py.Raise Py.ValueError
    | Some shares =>
      let '(commission, slippage, total_cost) :=
        TradeCost.calculate self.(trade_cost) price shares in
      let total_spend := price * shares + total_cost in
      sized <-
        (if Py.lt self.(cash) total_spend then
           if negb allow_partial then Py.Return None
           else
             max_shares <- max_affordable self price ;;
             if Py.eq max_shares 0 then Py.Return None
             else
               let shares := max_shares in
               let '(commission, slippage, total_cost) :=
                 TradeCost.calculate self.(trade_cost) price shares in
               let total_spend := price * shares + total_cost in
               Py.Return
                 (Some (shares, commission, slippage, total_cost, total_spend))
         else
           Py.Return
             (Some (shares, commission, slippage, total_cost, total_spend))) ;;
      match sized with
      | None => Py.Return (None, self)
      | Some (shares, commission, slippage, total_cost, total_spend) =>
        let '(trade_record, self') :=
          commit_buy self date symbol price shares commission slippage
            total_cost total_spend in
        Py.Return (Some trade_record, self')
      end
    end.

Definition sell (self : t) (date : Z) (symbol : string) (price : Q)
    (shares amount percent : option Q)
  : Py.result (option TradeRecord.t * t) :=
  if Py.le price 0 then Py.Raise Py.ValueError
  else
    match self.(positions) !! symbol with
    | None => Py.Return (None, self)
    | Some position =>
      if Py.eq position.(Position.shares) 0 then Py.Return (None, self)
      else
        shares <-
          match shares, amount, percent with
          | None, None, None => Py.Return position.(Position.shares)
          | None, Some amount, _ =>
            let shares :=
              Py.min position.(Position.shares)
                     (inject_Z (Py.int (amount / price / 100) * 100)) in
            Py.Return
              (if Py.eq shares 0 && Py.le price amount
               then Py.min position.(Position.shares) 100
               else shares)
          | None, None, Some percent =>
            if negb (Py.le 0 percent && Py.le percent 1)
            then Py.Raise Py.ValueError
            else
              let shares :=
                inject_Z
                  (Py.int (position.(Position.shares) * percent / 100) * 100) in
              Py.Return
                (if Py.eq shares 0 && Py.lt 0 percent
                 then Py.min position.(Position.shares) 100
                 else shares)
          | Some s, _, _ => Py.Return s
          end ;;
        let shares := Py.min shares position.(Position.shares) in
        let '(commission, slippage, total_cost) :=
          TradeCost.calculate self.(trade_cost) price shares in
        let total_income := price * shares - total_cost in
        let cash' := self.(cash) + total_income in
        let positions' :=
          <[symbol := fst (Position.remove position shares)]>
            self.(positions) in
        let trade_record :=
          TradeRecord.mk date symbol SELL price shares commission slippage
            total_cost total_income cash' in
        Py.Return
          (Some trade_record,
           mk self.(initial_cash) cash' self.(trade_cost) positions'
              (self.(trade_history) ++ [trade_record])
              self.(daily_portfolio_value))
    end.

(** The sizing rule as the specification words it, with the
    [allow_partial] switch of the code: [floor(amount/price/100) * 100],
    and one lot of 100 when that is zero, partial fills are allowed and
    [amount/price >= 1]. *)
Definition lot_size_rule (price amount : Q) (allow_partial : bool) : Q :=
  let lots := Qfloor (amount / price / 100) in
  if (lots =? 0)%Z && allow_partial && Qle_bool 1 (amount / price)
  then 100
  else inject_Z (lots * 100).

(** [positions.get(symbol, Position(symbol))] *)
Definition get_position (self : t) (symbol : string) : Position.t :=
  match self.(positions) !! symbol with
  | Some p => p
  | None => Position.new symbol 0 0
  end.

(** The values are summed here in key order, in the source in insertion
    order of [positions]; the two sums are the same rational. *)
Definition update_portfolio_value (self : t) (date : Z)
    (price_dict : gmap string Q) : t :=
  let positions_value : gmap string Q :=
    map_imap
      (fun symbol position =>
         if Py.lt 0 position.(Position.shares)
         then Position.market_value position <$> price_dict !! symbol
         else None)
      self.(positions) in
  let portfolio_value :=
    map_fold (fun _ market_value acc => acc + market_value)
             self.(cash) positions_value in
  mk self.(initial_cash) self.(cash) self.(trade_cost) self.(positions)
     self.(trade_history)
     (self.(daily_portfolio_value)
        ++ [Snapshot.mk date self.(cash) positions_value portfolio_value]).

(** The INIT record [reset] appends; [now] is the reading of
    [datetime.now()]. *)
Definition init_record (self : t) (now : Z) : TradeRecord.t :=
  TradeRecord.mk now "" INIT 0 0 0 0 0 self.(initial_cash) self.(initial_cash).

Definition reset (self : t) (now : Z) : t :=
  mk self.(initial_cash) self.(initial_cash) self.(trade_cost) ∅
     [init_record self now] [].

(** The share count [sell] derives from its directives on a held
    position (lines 307-321), before it is clamped to the holding; it raises
    on a [percent] outside [0, 1]. *)
Definition sell_size (price : Q) (position : Position.t)
    (shares amount percent : option Q) : Py.result Q :=
  match shares, amount, percent with
  | None, None, None => Py.Return position.(Position.shares)
  | None, Some amount, _ =>
    let shares :=
      Py.min position.(Position.shares)
             (inject_Z (Py.int (amount / price / 100) * 100)) in
    Py.Return
      (if Py.eq shares 0 && Py.le price amount
       then Py.min position.(Position.shares) 100
       else shares)
  | None, None, Some percent =>
    if negb (Py.le 0 percent && Py.le percent 1)
    then Py.Raise Py.ValueError
    else
      let shares :=
        inject_Z
          (Py.int (position.(Position.shares) * percent / 100) * 100) in
      Py.Return
        (if Py.eq shares 0 && Py.lt 0 percent
         then Py.min position.(Position.shares) 100
         else shares)
  | Some s, _, _ => Py.Return s
  end.

(** The numbers a call works with are finite floats within range: the
    price, the cash, the three numbers of the cost model. *)
Definition numbers_in_range (self : t) (price : Q) : Prop :=
  Py.in_float_range price
  /\ Py.in_float_range self.(cash)
  /\ Py.in_float_range self.(trade_cost).(TradeCost.commission_rate)
  /\ Py.in_float_range self.(trade_cost).(TradeCost.min_commission)
  /\ Py.in_float_range self.(trade_cost).(TradeCost.slippage_rate).

(** So are the numbers [buy] converts with [int]: [cash / price], which
    bounds the quotient of the re-sized lot when no rate is negative, and
    [amount / price] when the count is derived from an amount; and so is a
    share count that is given. *)
Definition buy_in_range (self : t) (price : Q) (shares amount : option Q)
  : Prop :=
  numbers_in_range self price
  /\ Py.in_float_range (self.(cash) / price)
  /\ match shares, amount with
     | Some n, _ => Py.in_float_range n
     | None, Some a => Py.in_float_range a /\ Py.in_float_range (a / price)
     | None, None => True
     end.

(** The same for [sell]: [amount / price] when the count is derived from
    an amount, and a share count that is given. *)
Definition sell_in_range (self : t) (price : Q) (shares amount : option Q)
  : Prop :=
  numbers_in_range self price
  /\ match shares, amount with
     | Some n, _ => Py.in_float_range n
     | None, Some a => Py.in_float_range a /\ Py.in_float_range (a / price)
     | None, None => True
     end.

(** The tail of [sell], from the cost calculation to the append, for the
    share count already clamped to the holding: the record created and the
    manager after it. *)
Definition priced_sell (self : t) (date : Z) (symbol : string)
    (price : Q) (position : Position.t) (shares : Q) : TradeRecord.t * t :=
  let '(commission, slippage, total_cost) :=
    TradeCost.calculate self.(trade_cost) price shares in
  let total_income := price * shares - total_cost in
  let cash' := self.(cash) + total_income in
  let positions' :=
    <[symbol := fst (Position.remove position shares)]> self.(positions) in
  let trade_record :=
    TradeRecord.mk date symbol SELL price shares commission slippage
      total_cost total_income cash' in
  (trade_record,
   mk self.(initial_cash) cash' self.(trade_cost) positions'
      (self.(trade_history) ++ [trade_record])
      self.(daily_portfolio_value)).

(** Every position is filed under its own symbol and is well formed. *)
Definition positions_wf (self : t) : Prop :=
  forall k p,
    self.(positions) !! k = Some p ->
    p.(Position.symbol) = k /\ Position.wf p.

(** The sum of the [cash_change] fields of a list of records. *)
Definition sum_cash_change (records : list TradeRecord.t) : Q :=
  fold_right (fun r acc => r.(TradeRecord.cash_change) + acc) 0 records.

(** The sum of the values of a [positions_value] mapping. *)
Definition sum_values (values : gmap string Q) : Q :=
  map_fold (fun _ v acc => acc + v) 0 values.

End TradeManager.

(** ** SignalStrategy.run: the per-bar loop

    [MultiSignalStrategy.run] repeats the same loop body over its
    thresholded signal column. *)

Module SignalStrategy.

(** A row of the signal frame: the index, [close] and [signal]. *)
Record Bar : Type := mkBar {
  bar_date : Z;
  close : Q;
  signal : Q
}.

(** A call the loop makes on the trade manager, with its arguments;
    [buy] is called with the default [allow_partial=True], [sell] with
    [shares] only. *)
Inductive Call : Type :=
| CallBuy (date : Z) (symbol : string) (price : Q) (shares amount : option Q)
| CallSell (date : Z) (symbol : string) (price : Q) (shares : Q).

(** The columns the loop writes for one bar. *)
Record Row : Type := mkRow {
  row_position : Q;
  row_portfolio_value : Q;
  row_trade_type : option TradeType;
  row_shares : Q;
  row_cash : Q
}.

Section Run.

Variable symbol : string.
Variables position_size position_pct : option Q.

(** The [if row['signal'] == 1: ... elif row['signal'] == -1: ...]
    branching of the loop body: the call it leads to, if any. *)
Definition bar_call (tm : TradeManager.t) (bar : Bar) : option Call :=
  let current_price := bar.(close) in
  let current_date := bar.(bar_date) in
  let position := TradeManager.get_position tm symbol in
  if Py.eq bar.(signal) 1 then
    let '(shares, amount) :=
      match position_size, position_pct with
      | Some n, _ => (Some n, None)
      | None, Some pct => (None, Some (tm.(TradeManager.cash) * pct))
      | None, None => (None, Some (tm.(TradeManager.cash) * (9 # 10)))
      end in
    Some (CallBuy current_date symbol current_price shares amount)
  else if Py.eq bar.(signal) (-1) then
    if Py.lt 0 position.(Position.shares)
    then Some (CallSell current_date symbol current_price
                        position.(Position.shares))
    else None
  else None.

Definition invoke (tm : TradeManager.t) (c : Call)
  : Py.result (option TradeRecord.t * TradeManager.t) :=
  match c with
  | CallBuy date sym price shares amount =>
    TradeManager.buy tm date sym price shares amount true
  | CallSell date sym price shares =>
    TradeManager.sell tm date sym price (Some shares) None None
  end.

(** One iteration; [cash0] is the value the [cash] column was filled
    with before the loop. *)
Definition step (cash0 : Q) (tm : TradeManager.t) (bar : Bar)
  : Py.result (Row * TradeManager.t) :=
  let position := TradeManager.get_position tm symbol in
  let portfolio_value :=
    if Py.lt 0 position.(Position.shares)
    then tm.(TradeManager.cash)
         + Position.market_value position bar.(close)
    else tm.(TradeManager.cash) in
  called <-
    match bar_call tm bar with
    | Some c => invoke tm c
    | None => Py.Return (None, tm)
    end ;;
  let '(trade_record, tm') := called in
  let row :=
    match trade_record with
    | Some r =>
      mkRow position.(Position.shares) portfolio_value
            (Some r.(TradeRecord.trade_type)) r.(TradeRecord.shares)
            r.(TradeRecord.cash_balance)
    | None =>
      mkRow position.(Position.shares) portfolio_value None 0 cash0
    end in
  Py.Return
    (row,
     TradeManager.update_portfolio_value tm' bar.(bar_date)
       {[ symbol := bar.(close) ]}).

(** What happened at one bar: the state the bar found and the call the
    loop made there. *)
Record Event : Type := mkEvent {
  ev_bar : Bar;
  ev_before : TradeManager.t;
  ev_call : option Call
}.

(** The loop over the rows in order.  Returns the events of the bars
    reached and, unless a call raised, the rows and the final state. *)
Fixpoint loop (cash0 : Q) (tm : TradeManager.t) (bars : list Bar)
  : list Event * Py.result (list Row * TradeManager.t) :=
  match bars with
  | [] => ([], Py.Return ([], tm))
  | bar :: bars' =>
    let ev := mkEvent bar tm (bar_call tm bar) in
    match step cash0 tm bar with
    | Py.Raise e => ([ev], Py.Raise e)
    | Py.Return (row, tm') =>
      let '(evs, r) := loop cash0 tm' bars' in
      (ev :: evs,
       rest <- r ;; Py.Return (row :: fst rest, snd rest))
    end
  end.

(** [run(data, trade_manager, initial_cash, ...)]; [now] is the clock
    reading a reset would take. *)
Definition run (trade_manager : TradeManager.t) (initial_cash : option Q)
    (now : Z) (bars : list Bar)
  : list Event * Py.result (list Row * TradeManager.t) :=
  let tm :=
    match initial_cash with
    | Some _ => TradeManager.reset trade_manager now
    | None => trade_manager
    end in
  loop tm.(TradeManager.cash) tm bars.

End Run.

(** At the bar of an event: a buy is called exactly on signal 1; the
    sell of the whole holding is called exactly on signal -1 with a
    positive holding; and no other call is made. *)
Definition call_rule (symbol : string) (ev : Event) : Prop :=
  let bar := ev.(ev_bar) in
  let held :=
    (TradeManager.get_position ev.(ev_before) symbol)
      .(Position.shares) in
  ((exists shares amount,
       ev.(ev_call)
       = Some (CallBuy bar.(bar_date) symbol
                 bar.(close) shares amount))
   <-> bar.(signal) == 1)
  /\ (ev.(ev_call)
      = Some (CallSell bar.(bar_date) symbol
                bar.(close) held)
      <-> bar.(signal) == -1 /\ 0 < held)
  /\ (ev.(ev_call) = None
      \/ (exists shares amount,
             ev.(ev_call)
             = Some (CallBuy bar.(bar_date)
                       symbol bar.(close) shares amount))
      \/ ev.(ev_call)
         = Some (CallSell bar.(bar_date)
                   symbol bar.(close) held)).

(** The sizing directive the loop passes to [buy], as [(shares, amount)]:
    the configured share count, or the configured fraction of the current
    cash, or by default 90% of the current cash. *)
Definition sizing (position_size position_pct : option Q)
    (tm : TradeManager.t) : option Q * option Q :=
  match position_size, position_pct with
  | Some n, _ => (Some n, None)
  | None, Some pct => (None, Some (tm.(TradeManager.cash) * pct))
  | None, None => (None, Some (tm.(TradeManager.cash) * (9 # 10)))
  end.

(** The manager the loop holds at the end of a bar whose call gave
    [called]: what the call left, with the snapshot of the bar appended;
    none when the call raised. *)
Definition settled (symbol : string) (bar : Bar)
    (called : Py.result (option TradeRecord.t * TradeManager.t))
  : option TradeManager.t :=
  match called with
  | Py.Return (_, tm) =>
    Some (TradeManager.update_portfolio_value tm bar.(bar_date)
            {[ symbol := bar.(close) ]})
  | Py.Raise _ => None
  end.

(** The manager after the [i]-th bar reached by a run: the one the next
    bar finds or, after the last bar, the one the run returns; none when
    the run raised there. *)
Definition next_manager
    (trace : list Event * Py.result (list Row * TradeManager.t)) (i : nat)
  : option TradeManager.t :=
  match fst trace !! S i with
  | Some ev => Some ev.(ev_before)
  | None =>
    match snd trace with
    | Py.Return (_, tm) => Some tm
    | Py.Raise _ => None
    end
  end.

(** The numbers the loop body works with at a bar are finite floats
    within range: the close, the cash and the cost model, the quotient
    [cash / close], the configured share count, and with a configured
    fraction the amount [cash * pct] and its quotient by the close. *)
Definition sizing_in_range (position_size position_pct : option Q)
    (tm : TradeManager.t) (bar : Bar) : Prop :=
  TradeManager.numbers_in_range tm bar.(close)
  /\ Py.in_float_range (tm.(TradeManager.cash) / bar.(close))
  /\ match position_size, position_pct with
     | Some n, _ => Py.in_float_range n
     | None, Some pct =>
       Py.in_float_range pct
       /\ Py.in_float_range (tm.(TradeManager.cash) * pct)
       /\ Py.in_float_range (tm.(TradeManager.cash) * pct / bar.(close))
     | None, None => True
     end.

(** What a call of the loop leaves: the manager unchanged, or with one
    record of the strategy's symbol, dated and priced by the bar,
    appended. *)
Definition call_effect (symbol : string) (tm tm1 : TradeManager.t)
    (bar : Bar) (o : option TradeRecord.t) : Prop :=
  match o with
  | None => tm1 = tm
  | Some r =>
    tm1.(TradeManager.trade_history) = tm.(TradeManager.trade_history) ++ [r]
    /\ r.(TradeRecord.symbol) = symbol
    /\ (r.(TradeRecord.trade_type) = BUY \/ r.(TradeRecord.trade_type) = SELL)
    /\ r.(TradeRecord.date) = bar.(bar_date)
    /\ r.(TradeRecord.price) = bar.(close)
    /\ tm1.(TradeManager.trade_cost) = tm.(TradeManager.trade_cost)
    /\ tm1.(TradeManager.initial_cash) = tm.(TradeManager.initial_cash)
    /\ tm1.(TradeManager.daily_portfolio_value)
       = tm.(TradeManager.daily_portfolio_value)
  end.

(** A record the loop can have appended while walking [bars]. *)
Definition loop_record (symbol : string) (bars : list Bar)
    (r : TradeRecord.t) : Prop :=
  r.(TradeRecord.symbol) = symbol
  /\ (r.(TradeRecord.trade_type) = BUY \/ r.(TradeRecord.trade_type) = SELL)
  /\ exists bar,
       bar ∈ bars
       /\ r.(TradeRecord.date) = bar.(bar_date)
       /\ r.(TradeRecord.price) = bar.(close).

(** The cost model cannot make [buy] divide by zero. *)
Definition divisor_ok (tm : TradeManager.t) : Prop :=
  ~ 1 + tm.(TradeManager.trade_cost).(TradeCost.commission_rate)
      + tm.(TradeManager.trade_cost).(TradeCost.slippage_rate) == 0.

End SignalStrategy.

(** ** MultiSignalStrategy and CompositeSignal: weights and combined signal

    [MultiSignalStrategy.__init__] and [generate_signals] repeat, line for
    line, [CompositeSignal.__init__] and [generate] of [signal.py]; the
    definitions below embed both.  The signal columns of the generators are
    inputs here. *)

Module MultiSignalStrategy.

(** [self.weights] as [__init__] leaves it for [n] generators. *)
Definition init_weights (n : nat) (weights : option (list Q))
  : Py.result (list Q) :=
  match weights with
  | None =>
    w <- Py.div 1 (inject_Z (Z.of_nat n)) ;;
    Py.Return (repeat w n)
  | Some weights =>
    if negb (length weights =? n)%nat
    then Py.Raise Py.ValueError
    else Py.Return weights
  end.

(** The weighted sum of one row: the [signal] column starts at 0 and
    receives [signal_i * weights[i]] for each generator in order.  The two
    lists have one entry per generator. *)
Definition weighted (signals weights : list Q) : Q :=
  fold_left (fun acc sw => acc + fst sw * snd sw) (zip signals weights) 0.

(** [signal_threshold]: 0, overwritten by 1 above 0.5 and then by -1
    below -0.5. *)
Definition threshold (signal : Q) : Q :=
  let signal_threshold := 0 in
  let signal_threshold :=
    if Py.lt (1 # 2) signal then 1 else signal_threshold in
  if Py.lt signal (- (1 # 2)) then -1 else signal_threshold.

(** The final [signal] column; a row holds the generators' signals at one
    date. *)
Definition generate_signals (weights : list Q) (rows : list (list Q))
  : list Q :=
  map (fun signals => threshold (weighted signals weights)) rows.

End MultiSignalStrategy.

(** ** PortfolioStrategy.run over signal strategies

    The strategies of the dict are signal strategies, each with the
    [symbol] it trades; the frames of [data_dict] are the rows with the
    strategy's signal column. *)

Module PortfolioStrategy.

(** An item of the [strategies] dict: the key and the [symbol] attribute
    of the strategy stored under it. *)
Record Child : Type := mkChild {
  key : string;
  child_symbol : string
}.

(** The [position_pct] argument: [None], a dict, or one number. *)
Inductive PositionPct : Type :=
| PctNone
| PctDict (d : gmap string Q)
| PctScalar (q : Q).

(** [1.0 / len(self.strategies)] *)
Definition equal_share (strategies : list Child) : Py.result Q :=
  Py.div 1 (inject_Z (Z.of_nat (length strategies))).

(** [position_pct_dict] (lines 349-356); the comprehension evaluates the
    share once per strategy, so not at all over an empty dict. *)
Definition position_pct_dict (strategies : list Child)
    (position_pct : PositionPct) : Py.result (gmap string Q) :=
  match position_pct with
  | PctNone =>
    match strategies with
    | [] => Py.Return ∅
    | _ =>
      share <- equal_share strategies ;;
      Py.Return (list_to_map (map (fun c => (c.(key), share)) strategies))
    end
  | PctDict d => Py.Return d
  | PctScalar q =>
    Py.Return (list_to_map (map (fun c => (c.(key), q)) strategies))
  end.

(** The frames of the strategies in dict order; [None] when the check of
    lines 344-346 finds a key missing from [data_dict]. *)
Definition jobs_of (strategies : list Child)
    (data_dict : gmap string (list SignalStrategy.Bar))
  : option (list (Child * list SignalStrategy.Bar)) :=
  mapM (fun c => (fun data => (c, data)) <$> data_dict !! c.(key)) strategies.

(** The loop of lines 360-373: each strategy runs over its whole frame on
    the shared trade manager before the next one starts. *)
Fixpoint run_each (strategies : list Child) (position_pct_dict : gmap string Q)
    (now : Z) (jobs : list (Child * list SignalStrategy.Bar))
    (tm : TradeManager.t)
  : Py.result (list (string * list SignalStrategy.Row) * TradeManager.t) :=
  match jobs with
  | [] => Py.Return ([], tm)
  | (c, data) :: jobs' =>
    share <- equal_share strategies ;;
    let symbol_position_pct :=
      default share (position_pct_dict !! c.(key)) in
    ran <- snd (SignalStrategy.run c.(child_symbol) None
                  (Some symbol_position_pct) tm None now data) ;;
    rest <- run_each strategies position_pct_dict now jobs' (snd ran) ;;
    Py.Return ((c.(key), fst ran) :: fst rest, snd rest)
  end.

Definition run (strategies : list Child)
    (data_dict : gmap string (list SignalStrategy.Bar))
    (trade_manager : TradeManager.t) (initial_cash : option Q)
    (position_pct : PositionPct) (now : Z)
  : Py.result (list (string * list SignalStrategy.Row) * TradeManager.t) :=
  let tm :=
    match initial_cash with
    | Some _ => TradeManager.reset trade_manager now
    | None => trade_manager
    end in
  match jobs_of strategies data_dict with
  | None => Py.Raise Py.ValueError
  | Some jobs =>
    pct <- position_pct_dict strategies position_pct ;;
    run_each strategies pct now jobs tm
  end.

(** A record a strategy of symbol [symbol] can have appended: a BUY or a
    SELL of that symbol, dated and priced as a bar of its frame. *)
Definition own_record (job : Child * list SignalStrategy.Bar)
    (r : TradeRecord.t) : Prop :=
  SignalStrategy.loop_record (fst job).(child_symbol) (snd job) r.

End PortfolioStrategy.

(** ** Backtest.run with a signal strategy

    [bars] stands for the rows [data_handler.get_data] returns with the
    strategy's signal column; loading them is outside the model. *)

Module Backtest.

(** [trade_manager.initial_cash = initial_cash] *)
Definition set_initial_cash (tm : TradeManager.t) (initial_cash : Q)
  : TradeManager.t :=
  TradeManager.mk initial_cash tm.(TradeManager.cash)
    tm.(TradeManager.trade_cost) tm.(TradeManager.positions)
    tm.(TradeManager.trade_history) tm.(TradeManager.daily_portfolio_value).

(** Lines 49-60 of [Backtest.run]: the optional reset, then
    [strategy.run] without [initial_cash]. *)
Definition run (symbol : string) (position_size position_pct : option Q)
    (trade_manager : TradeManager.t) (initial_cash : option Q) (now : Z)
    (bars : list SignalStrategy.Bar)
  : list SignalStrategy.Event
    * Py.result (list SignalStrategy.Row * TradeManager.t) :=
  let tm :=
    match initial_cash with
    | Some c => TradeManager.reset (set_initial_cash trade_manager c) now
    | None => trade_manager
    end in
  SignalStrategy.run symbol position_size position_pct tm None now bars.

(** The date filter of [run_portfolio] (lines 89-97). *)
Definition in_range (start_date end_date : option Z)
    (bar : SignalStrategy.Bar) : bool :=
  match start_date with
  | Some d => (d <=? bar.(SignalStrategy.bar_date))%Z
  | None => true
  end
  && match end_date with
     | Some d => (bar.(SignalStrategy.bar_date) <=? d)%Z
     | None => true
     end.

(** Lines 85-111 of [Backtest.run_portfolio]: the frames cut to the date
    range, the optional reset, then [portfolio_strategy.run] without
    [initial_cash]. *)
Definition run_portfolio (strategies : list PortfolioStrategy.Child)
    (data_dict : gmap string (list SignalStrategy.Bar))
    (start_date end_date : option Z)
    (trade_manager : TradeManager.t) (initial_cash : option Q)
    (position_pct : PortfolioStrategy.PositionPct) (now : Z)
  : Py.result (list (string * list SignalStrategy.Row) * TradeManager.t) :=
  let filtered_data_dict :=
    List.filter (in_range start_date end_date) <$> data_dict in
  let tm :=
    match initial_cash with
    | Some c => TradeManager.reset (set_initial_cash trade_manager c) now
    | None => trade_manager
    end in
  PortfolioStrategy.run strategies filtered_data_dict tm None position_pct now.

End Backtest.

(** ** Performance: pairing BUY and SELL records *)

Module Performance.

Definition Pair : Type := (TradeRecord.t * TradeRecord.t)%type.

Definition is_type (ty : TradeType) (t : TradeRecord.t) : bool :=
  TradeType_eqb t.(TradeRecord.trade_type) ty.

(** [[t for t in trades if t.trade_type == TradeType.BUY]] and its SELL
    counterpart. *)
Definition buy_trades (trades : list TradeRecord.t) : list TradeRecord.t :=
  List.filter (is_type BUY) trades.
Definition sell_trades (trades : list TradeRecord.t) : list TradeRecord.t :=
  List.filter (is_type SELL) trades.

(** The variables of the pairing [while] loop. *)
Record Cursor : Type := mkCursor {
  buy_index : nat;
  sell_index : nat;
  paired_trades : list Pair
}.

(** One evaluation of the loop condition and body: [None] when the
    condition [buy_index < len(buy_trades) and sell_index <
    len(sell_trades)] is false. *)
Definition pair_step (buys sells : list TradeRecord.t) (c : Cursor)
  : option Cursor :=
  if (c.(buy_index) <? length buys)%nat
     && (c.(sell_index) <? length sells)%nat
  then
    match buys !! c.(buy_index), sells !! c.(sell_index) with
    | Some buy_trade, Some sell_trade =>
      if (buy_trade.(TradeRecord.date) <? sell_trade.(TradeRecord.date))%Z
      then Some (mkCursor (c.(buy_index) + 1) (c.(sell_index) + 1)
                   (c.(paired_trades) ++ [(buy_trade, sell_trade)]))
      else Some (mkCursor c.(buy_index) (c.(sell_index) + 1)
                   c.(paired_trades))
    | _, _ => None
    end
  else None.

(** The [while] loop, run for at most [fuel] iterations; [None] if the
    condition still holds when the fuel is spent. *)
Fixpoint pair_loop (fuel : nat) (buys sells : list TradeRecord.t)
    (c : Cursor) : option (list Pair) :=
  match pair_step buys sells c with
  | None => Some c.(paired_trades)
  | Some c' =>
    match fuel with
    | O => None
    | S fuel' => pair_loop fuel' buys sells c'
    end
  end.

(** The loop started as the source starts it, extending [paired]; every
    iteration advances [sell_index], so [length sells] iterations are
    enough. *)
Definition pair_into (paired : list Pair) (buys sells : list TradeRecord.t)
  : option (list Pair) :=
  pair_loop (length sells) buys sells (mkCursor 0 0 paired).

(** [paired_trades] as [Performance.calculate] computes it from the
    history (lines 78-97).  The method returns before this block on a
    history of at most one record, which has nothing to pair. *)
Definition calculate_paired_trades (trade_history : list TradeRecord.t)
  : option (list Pair) :=
  pair_into [] (buy_trades trade_history) (sell_trades trade_history).

(** [trades_by_symbol]: a dict in insertion order, as an association
    list. *)
Fixpoint group_append (groups : list (string * list TradeRecord.t))
    (symbol : string) (trade : TradeRecord.t)
  : list (string * list TradeRecord.t) :=
  match groups with
  | [] => [(symbol, [trade])]
  | (k, trades) :: groups' =>
    if String.eqb k symbol
    then (k, trades ++ [trade]) :: groups'
    else (k, trades) :: group_append groups' symbol trade
  end.

Definition trades_by_symbol (trade_history : list TradeRecord.t)
  : list (string * list TradeRecord.t) :=
  fold_left
    (fun groups trade =>
       if String.eqb trade.(TradeRecord.symbol) ""
       then groups
       else group_append groups trade.(TradeRecord.symbol) trade)
    trade_history [].

(** [paired_trades] as [Performance.calculate_portfolio] computes it from
    the history (lines 236-263): the groups are walked in insertion order
    and every group extends the same list. *)
Definition calculate_portfolio_paired_trades
    (trade_history : list TradeRecord.t) : option (list Pair) :=
  fold_left
    (fun acc group =>
       match acc with
       | None => None
       | Some paired =>
         pair_into paired (buy_trades (snd group)) (sell_trades (snd group))
       end)
    (trades_by_symbol trade_history) (Some []).

(** The pairing as the specification words it: two cursors over the BUY
    and the SELL sequence; the current BUY and the current SELL are paired
    when the SELL is dated strictly later, and then both cursors advance;
    otherwise only the SELL cursor advances. *)
Fixpoint two_cursor_pairs (buys sells : list TradeRecord.t) : list Pair :=
  match sells with
  | [] => []
  | s :: sells' =>
    match buys with
    | [] => []
    | b :: buys' =>
      if (b.(TradeRecord.date) <? s.(TradeRecord.date))%Z
      then (b, s) :: two_cursor_pairs buys' sells'
      else two_cursor_pairs buys sells'
    end
  end.

(** The symbols of a history in order of first appearance, the empty
    symbol left out. *)
Definition symbols_of (trades : list TradeRecord.t) : list string :=
  fold_left
    (fun seen t =>
       let s := t.(TradeRecord.symbol) in
       if String.eqb s "" || existsb (String.eqb s) seen
       then seen
       else seen ++ [s])
    trades [].

Definition trades_of (symbol : string) (trades : list TradeRecord.t)
  : list TradeRecord.t :=
  List.filter (fun t => String.eqb t.(TradeRecord.symbol) symbol) trades.

(** Per-symbol pairing as the specification words it. *)
Definition per_symbol_pairs (trade_history : list TradeRecord.t)
  : list Pair :=
  flat_map
    (fun symbol =>
       two_cursor_pairs (buy_trades (trades_of symbol trade_history))
                        (sell_trades (trades_of symbol trade_history)))
    (symbols_of trade_history).

(** *** Trade statistics (lines 99-141 of [calculate], repeated in
    [calculate_portfolio]) *)

(** [float('inf')] beside the finite values. *)
Inductive Ext : Type :=
| Finite (q : Q)
| Infinity.

(** The counters of the statistics loop. *)
Record Tally : Type := mkTally {
  winning_trades : nat;
  losing_trades : nat;
  break_even_trades : nat;
  total_profit : Q;
  total_loss : Q;
  max_profit : Q;
  max_loss : Q;
  total_holding_days : Z
}.

(** [profit] of one paired trade. *)
Definition profit_of (pair : Pair) : Q :=
  let '(buy, sell) := pair in
  let buy_value :=
    buy.(TradeRecord.price) * buy.(TradeRecord.shares)
    + buy.(TradeRecord.total_cost) in
  let sell_value :=
    sell.(TradeRecord.price) * sell.(TradeRecord.shares)
    - sell.(TradeRecord.total_cost) in
  sell_value - buy_value.

(** [(sell.date - buy.date).days] *)
Definition holding_days_of (pair : Pair) : Z :=
  ((snd pair).(TradeRecord.date) - (fst pair).(TradeRecord.date))%Z.

(** One iteration of [for buy, sell in paired_trades]. *)
Definition tally_step (acc : Tally) (pair : Pair) : Tally :=
  let profit := profit_of pair in
  let days := (acc.(total_holding_days) + holding_days_of pair)%Z in
  if Py.lt 0 profit then
    mkTally (acc.(winning_trades) + 1) acc.(losing_trades)
      acc.(break_even_trades) (acc.(total_profit) + profit) acc.(total_loss)
      (Py.max acc.(max_profit) profit) acc.(max_loss) days
  else if Py.lt profit 0 then
    mkTally acc.(winning_trades) (acc.(losing_trades) + 1)
      acc.(break_even_trades) acc.(total_profit)
      (acc.(total_loss) + Qabs profit) acc.(max_profit)
      (Py.max acc.(max_loss) (Qabs profit)) days
  else
    mkTally acc.(winning_trades) acc.(losing_trades)
      (acc.(break_even_trades) + 1) acc.(total_profit) acc.(total_loss)
      acc.(max_profit) acc.(max_loss) days.

Definition tally (paired_trades : list Pair) : Tally :=
  fold_left tally_step paired_trades (mkTally 0 0 0 0 0 0 0 0).

Definition count (n : nat) : Q := inject_Z (Z.of_nat n).

(** The derived figures, each guarded against an empty denominator. *)
Definition win_rate (paired_trades : list Pair) : Q :=
  let total_trades := length paired_trades in
  if (0 <? total_trades)%nat
  then count (tally paired_trades).(winning_trades) / count total_trades * 100
  else 0.

Definition profit_factor (paired_trades : list Pair) : Ext :=
  let t := tally paired_trades in
  if Py.lt 0 t.(total_loss) then Finite (t.(total_profit) / t.(total_loss))
  else if Py.lt 0 t.(total_profit) then Infinity
  else Finite 0.

(** The averages are exact quotients of exact sums; the source rounds
    each addition and the quotient to binary64. *)
Definition avg_profit (paired_trades : list Pair) : Q :=
  let t := tally paired_trades in
  if (0 <? t.(winning_trades))%nat
  then t.(total_profit) / count t.(winning_trades)
  else 0.

Definition avg_loss (paired_trades : list Pair) : Q :=
  let t := tally paired_trades in
  if (0 <? t.(losing_trades))%nat
  then t.(total_loss) / count t.(losing_trades)
  else 0.

Definition avg_holding_days (paired_trades : list Pair) : Q :=
  let total_trades := length paired_trades in
  if (0 <? total_trades)%nat
  then inject_Z (tally paired_trades).(total_holding_days) / count total_trades
  else 0.

(** What the counters satisfy after [n] pairs. *)
Definition tally_ok (n : nat) (t : Tally) : Prop :=
  (t.(winning_trades) + t.(losing_trades) + t.(break_even_trades))%nat = n
  /\ 0 <= t.(max_profit)
  /\ t.(max_profit) <= t.(total_profit)
  /\ t.(total_profit) <= count t.(winning_trades) * t.(max_profit)
  /\ ((0 < t.(winning_trades))%nat -> 0 < t.(total_profit))
  /\ 0 <= t.(max_loss)
  /\ t.(max_loss) <= t.(total_loss)
  /\ t.(total_loss) <= count t.(losing_trades) * t.(max_loss)
  /\ ((0 < t.(losing_trades))%nat -> 0 < t.(total_loss)).

(** *** Drawdown (lines 69-71 of [calculate], 220-222 of
    [calculate_portfolio]) *)

(** [Series.cummax()]: the running maximum. *)
Fixpoint cummax_from (peak : Q) (values : list Q) : list Q :=
  match values with
  | [] => []
  | value :: values' =>
    let peak' := Py.max peak value in
    peak' :: cummax_from peak' values'
  end.

Definition cummax (values : list Q) : list Q :=
  match values with
  | [] => []
  | value :: values' => value :: cummax_from value values'
  end.

(** [(value - peak) / peak * 100], row by row. *)
Definition drawdown (values : list Q) : list Q :=
  zip_with (fun value peak => (value - peak) / peak * 100)
           values (cummax values).

(** [Series.min()]; [None] stands for the NaN of an empty column. *)
Definition series_min (xs : list Q) : option Q :=
  match xs with
  | [] => None
  | x :: xs' => Some (fold_left Py.min xs' x)
  end.

Definition max_drawdown (values : list Q) : option Q :=
  series_min (drawdown values).

(** Every BUY and SELL record of the history carries the symbol [s]. *)
Definition one_symbol (s : string) (trade_history : list TradeRecord.t)
  : Prop :=
  Forall
    (fun t => is_type BUY t = true \/ is_type SELL t = true ->
              t.(TradeRecord.symbol) = s)
    trade_history.

End Performance.

(** ** Sequences of calls on one manager *)

Module Session.

Inductive Op : Type :=
| Buy (date : Z) (symbol : string) (price : Q) (shares amount : option Q)
      (allow_partial : bool)
| Sell (date : Z) (symbol : string) (price : Q)
       (shares amount percent : option Q).

Definition call (tm : TradeManager.t) (op : Op)
  : Py.result (option TradeRecord.t * TradeManager.t) :=
  match op with
  | Buy date symbol price shares amount allow_partial =>
    TradeManager.buy tm date symbol price shares amount allow_partial
  | Sell date symbol price shares amount percent =>
    TradeManager.sell tm date symbol price shares amount percent
  end.

(** The manager after a call; a raised exception leaves it as it was. *)
Definition after (tm : TradeManager.t) (op : Op) : TradeManager.t :=
  match call tm op with
  | Py.Return (_, tm') => tm'
  | Py.Raise _ => tm
  end.

(** The managers after each call of a sequence, in order. *)
Fixpoint states (tm : TradeManager.t) (ops : list Op)
  : list TradeManager.t :=
  match ops with
  | [] => []
  | op :: ops' => after tm op :: states (after tm op) ops'
  end.

(** The calls of a sequence in order, each with the manager it finds. *)
Fixpoint steps (tm : TradeManager.t) (ops : list Op)
  : list (TradeManager.t * Op) :=
  match ops with
  | [] => []
  | op :: ops' => (tm, op) :: steps (after tm op) ops'
  end.

(** The two committed calls whose cash update no check stands before.
    A buy with [allow_partial] whose requested order failed the cash check
    is re-sized to the affordable lot and re-priced (lines 248-254), and
    that spend is not compared with the cash again.  A sell never looks at
    the cash (lines 326-333): it adds [price * shares - total_cost]
    whatever its sign.  [r] is the record the call returned. *)
Definition unchecked (tm : TradeManager.t) (op : Op) (r : TradeRecord.t)
  : Prop :=
  match op with
  | Buy date symbol price shares amount allow_partial =>
    allow_partial = true
    /\ (exists requested,
          TradeManager.requested_shares price shares amount allow_partial
          = Some requested
          /\ tm.(TradeManager.cash)
             < price * requested
               + snd (TradeCost.calculate tm.(TradeManager.trade_cost)
                        price requested))
    /\ TradeManager.max_affordable tm price
       = Py.Return r.(TradeRecord.shares)
    /\ tm.(TradeManager.cash)
       < price * r.(TradeRecord.shares) + r.(TradeRecord.total_cost)
  | Sell date symbol price shares amount percent =>
    price * r.(TradeRecord.shares) < r.(TradeRecord.total_cost)
  end.

End Session.

(** ** Concrete cost models and accounts used below *)

Module Examples.

(** Both rates zero, the default minimum commission kept. *)
Definition zero_rate_cost : TradeCost.t := TradeCost.mk 0 5 0.

(** No cost at all. *)
Definition free_cost : TradeCost.t := TradeCost.mk 0 0 0.

(** An account that started with 11000 under [free_cost] and bought 1000
    shares of X at 10: 1000 in cash, 1000 shares held. *)
Definition holding_free : TradeManager.t :=
  snd (TradeManager.priced_buy
         (TradeManager.init 11000 (Some free_cost)) 0 "X" 10 1000).

(** An account that started with 100000 under the default cost model and
    bought 100 shares of X at 10. *)
Definition holding_default : TradeManager.t :=
  snd (TradeManager.priced_buy (TradeManager.init 100000 None) 0 "X" 10 100).

(** A BUY of X on day 0 and a SELL of X on day 10, as [holding_default]
    would record them. *)
Definition buy_day0 : TradeRecord.t :=
  TradeRecord.mk 0 "X" BUY 10 100 5 (1 # 10) (51 # 10) (- (10051 # 10))
    (989949 # 10).
Definition sell_day10 : TradeRecord.t :=
  TradeRecord.mk 10 "X" SELL 12 100 5 (12 # 100) (512 # 100) (119488 # 100)
    (10018978 # 100).

(** The history of an account that buys X, buys Y and sells Y, and the
    history of one whose calls are not made in date order. *)
Definition two_symbols : TradeManager.t :=
  Session.after
    (Session.after
       (Session.after (TradeManager.init 100000 None)
          (Session.Buy 0 "X" 10 (Some 100) None true))
       (Session.Buy 1 "Y" 20 (Some 100) None true))
    (Session.Sell 2 "Y" 22 None None None).

Definition out_of_order : TradeManager.t :=
  Session.after
    (Session.after
       (Session.after (TradeManager.init 100000 None)
          (Session.Buy 5 "X" 10 (Some 100) None true))
       (Session.Buy 1 "X" 10 (Some 100) None true))
    (Session.Sell 3 "X" 12 (Some 100) None None).

End Examples.

(** * Properties *)

(** ** Comparisons and truncation *)

Section PyFacts.

Implicit Types a b x : Q.

Lemma le_true a b : Py.le a b = true <-> a <= b.
Proof. apply Qle_bool_iff. Qed.

Lemma le_false a b : Py.le a b = false <-> b < a.
Proof.
  unfold Py.le. split; intro H.
  - apply Qnot_le_lt. intro Hle. apply Qle_bool_iff in Hle. congruence.
  - destruct (Qle_bool a b) eqn:E; [|reflexivity].
    apply Qle_bool_iff in E. lra.
Qed.

Lemma lt_true a b : Py.lt a b = true <-> a < b.
Proof. unfold Py.lt. rewrite negb_true_iff. apply (le_false b a). Qed.

Lemma lt_false a b : Py.lt a b = false <-> b <= a.
Proof. unfold Py.lt. rewrite negb_false_iff. apply (le_true b a). Qed.

Lemma eq_true a b : Py.eq a b = true <-> a == b.
Proof. apply Qeq_bool_iff. Qed.

Lemma eq_false a b : Py.eq a b = false <-> ~ a == b.
Proof.
  unfold Py.eq. split; intro H.
  - intro E. apply Qeq_bool_iff in E. congruence.
  - destruct (Qeq_bool a b) eqn:E; [|reflexivity].
    apply Qeq_bool_iff in E. contradiction.
Qed.

Lemma max_eq_r a b : a <= b -> Py.max a b == b.
Proof.
  intro H. unfold Py.max. destruct (Py.lt a b) eqn:E; [reflexivity|].
  apply lt_false in E. lra.
Qed.

Lemma max_eq_l a b : b <= a -> Py.max a b = a.
Proof.
  intro H. unfold Py.max. destruct (Py.lt a b) eqn:E; [|reflexivity].
  apply lt_true in E. lra.
Qed.

Lemma min_eq_l a b : a <= b -> Py.min a b = a.
Proof.
  intro H. unfold Py.min. destruct (Py.lt b a) eqn:E; [|reflexivity].
  apply lt_true in E. lra.
Qed.

Lemma min_eq_r a b : b <= a -> Py.min a b == b.
Proof.
  intro H. unfold Py.min. destruct (Py.lt b a) eqn:E; [reflexivity|].
  apply lt_false in E. lra.
Qed.

(** On a non-negative number truncation is the floor. *)
Lemma int_floor x : 0 <= x -> Py.int x = Qfloor x.
Proof.
  destruct x as [n d]. unfold Qle, Py.int, Qfloor. simpl. intro H.
  apply Z.quot_div_nonneg; lia.
Qed.

(** A number whose floor is zero truncates to zero. *)
Lemma int_floor_zero x : Qfloor x = 0%Z -> Py.int x = 0%Z.
Proof.
  intro H. rewrite int_floor; [exact H|].
  pose proof (Qlt_floor x) as Hlt. pose proof (Qfloor_le x) as Hle.
  rewrite H in Hle. exact Hle.
Qed.

(** A lot count [k * 100] is zero only for [k = 0]. *)
Lemma lot_zero (k : Z) : inject_Z (k * 100) == 0 -> k = 0%Z.
Proof. unfold Qeq. simpl. lia. Qed.

End PyFacts.

(** ** The cost model *)

(** C2, as the code has it: for every cost model with [min_commission >= 0]
    and every price, [calculate] at [shares = 0] returns the minimum
    commission as commission and as total cost, and a zero slippage; the
    three are all zero exactly when [min_commission] is zero. *)
Theorem calculate_zero_shares (tc : TradeCost.t) (price : Q) :
  0 <= tc.(TradeCost.min_commission) ->
  match TradeCost.calculate tc price 0 with
  | (commission, slippage, total_cost) =>
    commission == tc.(TradeCost.min_commission)
    /\ slippage == 0
    /\ total_cost == tc.(TradeCost.min_commission)
    /\ ((commission == 0 /\ slippage == 0 /\ total_cost == 0)
        <-> tc.(TradeCost.min_commission) == 0)
  end.
Proof.
  intro Hmin. unfold TradeCost.calculate.
  set (c := Py.max _ _).
  assert (Hc : c == tc.(TradeCost.min_commission)).
  { subst c. apply max_eq_r. lra. }
  assert (Hs : price * 0 * tc.(TradeCost.slippage_rate) == 0) by lra.
  repeat split; try lra.
Qed.

Lemma calculate_zero_shares_witness :
  match TradeCost.calculate TradeCost.default 100 0 with
  | (commission, slippage, total_cost) =>
    commission == 5
    /\ slippage == 0
    /\ total_cost == 5
    /\ ((commission == 0 /\ slippage == 0 /\ total_cost == 0) <-> 5 == 0)
  end.
Proof. apply (calculate_zero_shares TradeCost.default 100). discriminate. Defined.

(** C2 as stated fails: the default cost model has non-negative
    parameters, the price is positive, and at [shares = 0] the commission
    and the total cost are 5, not 0. *)
Lemma calculate_zero_shares_not_free :
  0 <= TradeCost.default.(TradeCost.commission_rate)
  /\ 0 <= TradeCost.default.(TradeCost.min_commission)
  /\ 0 <= TradeCost.default.(TradeCost.slippage_rate)
  /\ 0 < 100
  /\ fst (fst (TradeCost.calculate TradeCost.default 100 0)) == 5
  /\ snd (TradeCost.calculate TradeCost.default 100 0) == 5
  /\ ~ fst (fst (TradeCost.calculate TradeCost.default 100 0)) == 0
  /\ ~ snd (TradeCost.calculate TradeCost.default 100 0) == 0.
Proof. vm_compute. repeat split; discriminate. Qed.

(** ** Construction and reset *)

(** C3: a newly constructed manager has an empty [trade_history], so no
    INIT record is its first entry; after [reset] the first entry is an INIT
    record whose [cash_change] is [initial_cash]. *)
Theorem init_record_only_after_reset :
  (forall (initial_cash : Q) (trade_cost : option TradeCost.t),
      (TradeManager.init initial_cash trade_cost).(TradeManager.trade_history)
      = [])
  /\ (forall (tm : TradeManager.t) (now : Z),
         exists r,
           head (TradeManager.reset tm now).(TradeManager.trade_history)
           = Some r
           /\ r.(TradeRecord.trade_type) = INIT
           /\ r.(TradeRecord.cash_change) = tm.(TradeManager.initial_cash)).
Proof.
  split.
  - intros. reflexivity.
  - intros tm now. exists (TradeManager.init_record tm now).
    repeat split.
Qed.

(** C6: a [reset] right after a [reset] gives the state a single [reset]
    taken at the same clock reading gives: cash is [initial_cash], there are
    no positions, and the history is the one INIT record. *)
Theorem reset_idempotent (tm : TradeManager.t) (now0 now1 : Z) :
  let once := TradeManager.reset tm now1 in
  let twice := TradeManager.reset (TradeManager.reset tm now0) now1 in
  twice = once
  /\ twice.(TradeManager.cash) = tm.(TradeManager.initial_cash)
  /\ twice.(TradeManager.positions) = ∅
  /\ twice.(TradeManager.daily_portfolio_value) = []
  /\ twice.(TradeManager.trade_history) = [TradeManager.init_record tm now1]
  /\ (TradeManager.init_record tm now1).(TradeRecord.trade_type) = INIT
  /\ (TradeManager.init_record tm now1).(TradeRecord.cash_change)
     = tm.(TradeManager.initial_cash).
Proof. repeat split. Qed.

(** ** Buying *)

(** The reduced fill is not checked against the cash again: with 1001 in
    cash and the default cost model, a request for 200 shares at 10 is cut
    down to the 100 shares the rate-only estimate allows, re-priced with the
    minimum commission, and committed; the cash ends at -4.1. *)
Lemma buy_reprice_overdraws :
  exists r tm',
    TradeManager.buy (TradeManager.init 1001 None) 0 "X" 10 (Some 200) None true
    = Py.Return (Some r, tm')
    /\ 0 <= (TradeManager.init 1001 None).(TradeManager.cash)
    /\ r.(TradeRecord.shares) == 100
    /\ r.(TradeRecord.total_cost) == 51 # 10
    /\ tm'.(TradeManager.cash) == - (41 # 10)
    /\ tm'.(TradeManager.cash) < 0.
Proof.
  eexists. eexists. split.
  - vm_compute. reflexivity.
  - vm_compute. repeat split; discriminate.
Qed.

(** C5: when the spend for the requested shares exceeds the cash and the
    largest affordable lot, [floor(cash / (price * (1 + commission_rate +
    slippage_rate)) / 100) * 100], is zero, [buy] returns [None] and the
    manager is exactly as before. *)
Theorem buy_rejected_when_unaffordable
    (tm : TradeManager.t) (date : Z) (symbol : string) (price : Q)
    (shares amount : option Q) (allow_partial : bool) (n : Q) :
  0 < price ->
  TradeManager.requested_shares price shares amount allow_partial = Some n ->
  tm.(TradeManager.cash)
  < price * n + snd (TradeCost.calculate tm.(TradeManager.trade_cost) price n) ->
  ~ price * (1 + tm.(TradeManager.trade_cost).(TradeCost.commission_rate)
               + tm.(TradeManager.trade_cost).(TradeCost.slippage_rate)) == 0 ->
  inject_Z
    (Qfloor
       (tm.(TradeManager.cash)
        / (price * (1 + tm.(TradeManager.trade_cost).(TradeCost.commission_rate)
                      + tm.(TradeManager.trade_cost).(TradeCost.slippage_rate)))
        / 100) * 100) == 0 ->
  TradeManager.buy tm date symbol price shares amount allow_partial
  = Py.Return (None, tm).
Proof.
  intros Hprice Hreq Hspend Hden Hlot.
  unfold TradeManager.buy.
  assert (E1 : Py.le price 0 = false) by (apply le_false; exact Hprice).
  rewrite E1, Hreq.
  destruct (TradeCost.calculate _ price n) as [[commission slippage] total_cost].
  simpl in Hspend.
  apply lt_true in Hspend. rewrite Hspend.
  destruct allow_partial; [|reflexivity].
  simpl. unfold TradeManager.max_affordable, Py.div.
  apply eq_false in Hden. rewrite Hden. simpl.
  assert (Hz : Qfloor
                 (tm.(TradeManager.cash)
                  / (price * (1 + tm.(TradeManager.trade_cost).(TradeCost.commission_rate)
                                + tm.(TradeManager.trade_cost).(TradeCost.slippage_rate)))
                  / 100) = 0%Z).
  { apply lot_zero. exact Hlot. }
  rewrite (int_floor_zero _ Hz). reflexivity.
Qed.

Lemma buy_rejected_when_unaffordable_witness :
  TradeManager.buy (TradeManager.init 500 None) 0 "X" 10 (Some 200) None true
  = Py.Return (None, TradeManager.init 500 None).
Proof.
  apply (buy_rejected_when_unaffordable
           (TradeManager.init 500 None) 0 "X" 10 (Some 200) None true 200).
  - reflexivity.
  - reflexivity.
  - vm_compute. reflexivity.
  - vm_compute. discriminate.
  - vm_compute. reflexivity.
Defined.

(** When the cash covers the spend for the requested share count, [buy]
    commits a buy of that count. *)
Lemma buy_commits
    (tm : TradeManager.t) (date : Z) (symbol : string) (price : Q)
    (shares amount : option Q) (allow_partial : bool) (n : Q) :
  0 < price ->
  TradeManager.requested_shares price shares amount allow_partial = Some n ->
  price * n + snd (TradeCost.calculate tm.(TradeManager.trade_cost) price n)
  <= tm.(TradeManager.cash) ->
  TradeManager.buy tm date symbol price shares amount allow_partial
  = Py.Return
      (Some (fst (TradeManager.priced_buy tm date symbol price n)),
       snd (TradeManager.priced_buy tm date symbol price n)).
Proof.
  intros Hprice Hreq Hcash. unfold TradeManager.buy, TradeManager.priced_buy.
  assert (E1 : Py.le price 0 = false) by (apply le_false; exact Hprice).
  rewrite E1, Hreq.
  destruct (TradeCost.calculate _ price n) as [[commission slippage] total_cost].
  cbn [snd] in Hcash. apply lt_false in Hcash. rewrite Hcash. reflexivity.
Qed.

(** When it does not, and the division by the unit price with rates is
    defined, [buy] with [allow_partial] commits a buy of the largest
    affordable lot, or nothing if that lot is zero. *)
Lemma buy_short_of_cash
    (tm : TradeManager.t) (date : Z) (symbol : string) (price : Q)
    (shares amount : option Q) (n m : Q) :
  0 < price ->
  TradeManager.requested_shares price shares amount true = Some n ->
  tm.(TradeManager.cash)
  < price * n + snd (TradeCost.calculate tm.(TradeManager.trade_cost) price n) ->
  TradeManager.max_affordable tm price = Py.Return m ->
  TradeManager.buy tm date symbol price shares amount true
  = if Py.eq m 0
    then Py.Return (None, tm)
    else Py.Return
           (Some (fst (TradeManager.priced_buy tm date symbol price m)),
            snd (TradeManager.priced_buy tm date symbol price m)).
Proof.
  intros Hprice Hreq Hcash Hmax.
  unfold TradeManager.buy, TradeManager.priced_buy.
  assert (E1 : Py.le price 0 = false) by (apply le_false; exact Hprice).
  rewrite E1, Hreq.
  destruct (TradeCost.calculate _ price n) as [[commission slippage] total_cost].
  cbn [snd] in Hcash. apply lt_true in Hcash. rewrite Hcash.
  cbn [negb]. rewrite Hmax. cbn [Py.bind].
  destruct (Py.eq m 0); [reflexivity|].
  destruct (TradeCost.calculate _ price m) as [[c s] t]. reflexivity.
Qed.

(** What [sell] returns and leaves behind for an explicit share count on
    a held symbol. *)
Lemma sell_commits
    (tm : TradeManager.t) (date : Z) (symbol : string) (price s : Q)
    (amount percent : option Q) (position : Position.t) :
  0 < price ->
  tm.(TradeManager.positions) !! symbol = Some position ->
  ~ position.(Position.shares) == 0 ->
  let n := Py.min s position.(Position.shares) in
  let cost := TradeCost.calculate tm.(TradeManager.trade_cost) price n in
  let total_income := price * n - snd cost in
  let r :=
    TradeRecord.mk date symbol SELL price n (fst (fst cost)) (snd (fst cost))
      (snd cost) total_income (tm.(TradeManager.cash) + total_income) in
  TradeManager.sell tm date symbol price (Some s) amount percent
  = Py.Return
      (Some r,
       TradeManager.mk tm.(TradeManager.initial_cash)
         (tm.(TradeManager.cash) + total_income) tm.(TradeManager.trade_cost)
         (<[symbol := fst (Position.remove position n)]>
            tm.(TradeManager.positions))
         (tm.(TradeManager.trade_history) ++ [r])
         tm.(TradeManager.daily_portfolio_value)).
Proof.
  intros Hprice Hpos Hheld. unfold TradeManager.sell.
  assert (E1 : Py.le price 0 = false) by (apply le_false; exact Hprice).
  apply eq_false in Hheld.
  rewrite E1, Hpos, Hheld. cbn [Py.bind].
  destruct (TradeCost.calculate _ price _) as [[commission slippage] total_cost].
  reflexivity.
Qed.

(** The example accounts are states [buy] reaches from a new manager. *)
Lemma example_accounts_reached :
  (exists r,
      TradeManager.buy (TradeManager.init 11000 (Some Examples.free_cost))
        0 "X" 10 (Some 1000) None true
      = Py.Return (Some r, Examples.holding_free))
  /\ (exists r,
         TradeManager.buy (TradeManager.init 100000 None) 0 "X" 10 (Some 100)
           None true
         = Py.Return (Some r, Examples.holding_default)).
Proof.
  split; eexists.
  - rewrite (buy_commits _ 0 "X" 10 (Some 1000) None true 1000);
      [reflexivity|reflexivity|reflexivity|vm_compute; discriminate].
  - rewrite (buy_commits _ 0 "X" 10 (Some 100) None true 100);
      [reflexivity|reflexivity|reflexivity|vm_compute; discriminate].
Qed.

(** ** Selling nothing *)

(** C10: on a held symbol, with a positive price and a positive minimum
    commission, a [sell] whose explicit share count is zero is committed: it
    returns and appends a SELL record of zero shares whose [cash_change] is
    [- min_commission], the cash drops by [min_commission], and the
    positions are as before. *)
Theorem sell_zero_shares_charges_minimum
    (tm : TradeManager.t) (date : Z) (symbol : string) (price s : Q)
    (amount percent : option Q) (position : Position.t) :
  tm.(TradeManager.positions) !! symbol = Some position ->
  0 < position.(Position.shares) ->
  0 < price ->
  0 < tm.(TradeManager.trade_cost).(TradeCost.min_commission) ->
  s == 0 ->
  exists r tm',
    TradeManager.sell tm date symbol price (Some s) amount percent
    = Py.Return (Some r, tm')
    /\ r.(TradeRecord.trade_type) = SELL
    /\ r.(TradeRecord.shares) == 0
    /\ r.(TradeRecord.commission)
       == tm.(TradeManager.trade_cost).(TradeCost.min_commission)
    /\ r.(TradeRecord.cash_change)
       == - tm.(TradeManager.trade_cost).(TradeCost.min_commission)
    /\ tm'.(TradeManager.cash)
       == tm.(TradeManager.cash)
          - tm.(TradeManager.trade_cost).(TradeCost.min_commission)
    /\ tm'.(TradeManager.trade_history) = tm.(TradeManager.trade_history) ++ [r]
    /\ tm'.(TradeManager.positions) = tm.(TradeManager.positions).
Proof.
  intros Hpos Hheld Hprice Hmin Hs.
  assert (Hne : ~ position.(Position.shares) == 0) by lra.
  rewrite (sell_commits tm date symbol price s amount percent position
             Hprice Hpos Hne).
  assert (Hn : Py.min s position.(Position.shares) = s)
    by (apply min_eq_l; lra).
  rewrite Hn.
  assert (Hc : Py.max (price * s * tm.(TradeManager.trade_cost).(TradeCost.commission_rate))
                      tm.(TradeManager.trade_cost).(TradeCost.min_commission)
               == tm.(TradeManager.trade_cost).(TradeCost.min_commission)).
  { apply max_eq_r. rewrite Hs. lra. }
  eexists. eexists. split; [reflexivity|].
  unfold TradeCost.calculate. cbn [fst snd TradeRecord.trade_type
    TradeRecord.shares TradeRecord.commission TradeRecord.cash_change
    TradeManager.cash TradeManager.trade_history TradeManager.positions].
  repeat split.
  - exact Hs.
  - exact Hc.
  - rewrite Hc, Hs. lra.
  - rewrite Hc, Hs. lra.
  - unfold Position.remove.
    assert (E : Py.le s 0 = true) by (apply le_true; lra).
    rewrite E. cbn [fst]. apply insert_id. exact Hpos.
Qed.

Lemma sell_zero_shares_charges_minimum_witness :
  exists r tm',
    TradeManager.sell Examples.holding_default 1 "X" 10 (Some 0) None None
    = Py.Return (Some r, tm')
    /\ r.(TradeRecord.trade_type) = SELL
    /\ r.(TradeRecord.shares) == 0
    /\ r.(TradeRecord.commission) == 5
    /\ r.(TradeRecord.cash_change) == - 5
    /\ tm'.(TradeManager.cash) == Examples.holding_default.(TradeManager.cash) - 5
    /\ tm'.(TradeManager.trade_history)
       = Examples.holding_default.(TradeManager.trade_history) ++ [r]
    /\ tm'.(TradeManager.positions)
       = Examples.holding_default.(TradeManager.positions).
Proof.
  apply (sell_zero_shares_charges_minimum Examples.holding_default 1 "X" 10 0
           None None (TradeManager.get_position Examples.holding_default "X")).
  - vm_compute. reflexivity.
  - vm_compute. reflexivity.
  - reflexivity.
  - reflexivity.
  - reflexivity.
Defined.

(** ** Sizing a buy from an amount *)

Lemma lot_eq_zero (k : Z) : Py.eq (inject_Z (k * 100)) 0 = (k =? 0)%Z.
Proof.
  destruct (Z.eqb_spec k 0) as [->|Hk].
  - reflexivity.
  - apply eq_false. intro H. apply lot_zero in H. contradiction.
Qed.

Lemma lots_nonneg (price amount : Q) :
  0 < price -> 0 <= amount -> 0 <= amount / price / 100.
Proof.
  intros Hp Ha. unfold Qdiv.
  apply Qmult_le_0_compat; [apply Qmult_le_0_compat|].
  - exact Ha.
  - apply Qinv_le_0_compat. lra.
  - discriminate.
Qed.

Lemma buy_shares_of_amount_rule (price amount : Q) (allow_partial : bool) :
  0 < price -> 0 <= amount ->
  TradeManager.buy_shares_of_amount price amount allow_partial
  = TradeManager.lot_size_rule price amount allow_partial.
Proof.
  intros Hp Ha.
  unfold TradeManager.buy_shares_of_amount, TradeManager.lot_size_rule.
  rewrite (int_floor _ (lots_nonneg price amount Hp Ha)).
  rewrite lot_eq_zero. reflexivity.
Qed.

(** C4, as the code has it: for a positive price and an amount that is
    not negative, the share count [buy] takes from the amount is
    [floor(amount/price/100) * 100], except that it is exactly 100 when that
    is zero, [allow_partial] is set and [amount/price >= 1]; and when the
    cash covers the spend for that count, the committed record carries it. *)
Theorem buy_amount_lot_sizing
    (tm : TradeManager.t) (date : Z) (symbol : string) (price amount : Q)
    (allow_partial : bool) :
  0 < price ->
  0 <= amount ->
  let lots := Qfloor (amount / price / 100) in
  let n := TradeManager.lot_size_rule price amount allow_partial in
  TradeManager.requested_shares price None (Some amount) allow_partial = Some n
  /\ (lots = 0%Z -> allow_partial = true -> 1 <= amount / price -> n = 100)
  /\ (lots <> 0%Z -> n = inject_Z (lots * 100))
  /\ (allow_partial = false -> n = inject_Z (lots * 100))
  /\ (price * n + snd (TradeCost.calculate tm.(TradeManager.trade_cost) price n)
      <= tm.(TradeManager.cash) ->
      exists r tm',
        TradeManager.buy tm date symbol price None (Some amount) allow_partial
        = Py.Return (Some r, tm')
        /\ r.(TradeRecord.shares) = n).
Proof.
  intros Hp Ha lots n.
  assert (Hreq : TradeManager.requested_shares price None (Some amount)
                   allow_partial = Some n).
  { unfold TradeManager.requested_shares.
    rewrite (buy_shares_of_amount_rule price amount allow_partial Hp Ha).
    reflexivity. }
  split; [exact Hreq|].
  subst n. unfold TradeManager.lot_size_rule. fold lots.
  repeat split.
  - intros Hl Hap Hone. rewrite Hl, Hap.
    apply Qle_bool_iff in Hone. rewrite Hone. reflexivity.
  - intros Hl. apply Z.eqb_neq in Hl. rewrite Hl. reflexivity.
  - intros Hap. rewrite Hap, andb_false_r. reflexivity.
  - intros Hcash.
    rewrite (buy_commits tm date symbol price None (Some amount) allow_partial
               _ Hp Hreq Hcash).
    eexists. eexists. split; [reflexivity|].
    unfold TradeManager.priced_buy.
    destruct (TradeCost.calculate _ price _) as [[c s] t]. reflexivity.
Qed.

Lemma buy_amount_lot_sizing_witness :
  TradeManager.requested_shares 50 None (Some 10000) true = Some 200
  /\ exists r tm',
       TradeManager.buy (TradeManager.init 100000 None) 0 "X" 50 None
         (Some 10000) true
       = Py.Return (Some r, tm')
       /\ r.(TradeRecord.shares) = 200.
Proof.
  destruct (buy_amount_lot_sizing (TradeManager.init 100000 None) 0 "X" 50
              10000 true)
    as (Hreq & _ & _ & _ & Hbuy).
  - reflexivity.
  - discriminate.
  - split; [exact Hreq|]. apply Hbuy. vm_compute. discriminate.
Defined.

(** C4 as stated fails twice.  Without [allow_partial], an amount worth
    50 shares commits a record of 0 shares, not the 100 the fallback
    promises; and a negative amount is truncated toward zero, not floored:
    -1500 at 10 gives -100 shares where the floor gives -200. *)
Lemma buy_amount_not_always_floor_or_100 :
  (exists r tm',
      TradeManager.buy (TradeManager.init 100000 None) 0 "X" 10 None (Some 500)
        false
      = Py.Return (Some r, tm')
      /\ Qfloor (500 / 10 / 100) = 0%Z
      /\ 1 <= 500 / 10
      /\ r.(TradeRecord.shares) == 0
      /\ ~ r.(TradeRecord.shares) == 100)
  /\ (exists r tm',
         TradeManager.buy (TradeManager.init 100000 None) 0 "X" 10 None
           (Some (-1500)) true
         = Py.Return (Some r, tm')
         /\ inject_Z (Qfloor (-1500 / 10 / 100) * 100) == -200
         /\ r.(TradeRecord.shares) == -100
         /\ ~ r.(TradeRecord.shares)
              == inject_Z (Qfloor (-1500 / 10 / 100) * 100)).
Proof.
  split.
  - eexists. eexists. split; [vm_compute; reflexivity|].
    vm_compute. repeat split; discriminate.
  - eexists. eexists. split; [vm_compute; reflexivity|].
    vm_compute. repeat split; discriminate.
Qed.

(** ** Buying and selling back *)

Section ZeroCost.

Variable tc : TradeCost.t.
Hypothesis commission_rate_zero : tc.(TradeCost.commission_rate) == 0.
Hypothesis min_commission_zero : tc.(TradeCost.min_commission) == 0.
Hypothesis slippage_rate_zero : tc.(TradeCost.slippage_rate) == 0.

Lemma zero_cost_calculate (price shares : Q) :
  snd (TradeCost.calculate tc price shares) == 0.
Proof.
  unfold TradeCost.calculate. cbn [snd].
  assert (Hc : Py.max (price * shares * tc.(TradeCost.commission_rate))
                      tc.(TradeCost.min_commission) == 0).
  { rewrite max_eq_r; [exact min_commission_zero|].
    rewrite commission_rate_zero, min_commission_zero. lra. }
  rewrite Hc, slippage_rate_zero. lra.
Qed.

End ZeroCost.

Section PricedBuy.

Variables (tm : TradeManager.t) (date : Z) (symbol : string) (price n : Q).

Lemma priced_buy_cash :
  (snd (TradeManager.priced_buy tm date symbol price n)).(TradeManager.cash)
  = tm.(TradeManager.cash)
    - (price * n
       + snd (TradeCost.calculate tm.(TradeManager.trade_cost) price n)).
Proof.
  unfold TradeManager.priced_buy.
  destruct (TradeCost.calculate _ price n) as [[c s] t]. reflexivity.
Qed.

Lemma priced_buy_positions :
  (snd (TradeManager.priced_buy tm date symbol price n)).(TradeManager.positions)
  = <[symbol := Position.add (TradeManager.get_position tm symbol) n price]>
      tm.(TradeManager.positions).
Proof.
  unfold TradeManager.priced_buy.
  destruct (TradeCost.calculate _ price n) as [[c s] t]. reflexivity.
Qed.

Lemma priced_buy_trade_cost :
  (snd (TradeManager.priced_buy tm date symbol price n)).(TradeManager.trade_cost)
  = tm.(TradeManager.trade_cost).
Proof.
  unfold TradeManager.priced_buy.
  destruct (TradeCost.calculate _ price n) as [[c s] t]. reflexivity.
Qed.

Lemma priced_buy_shares :
  (fst (TradeManager.priced_buy tm date symbol price n)).(TradeRecord.shares)
  = n.
Proof.
  unfold TradeManager.priced_buy.
  destruct (TradeCost.calculate _ price n) as [[c s] t]. reflexivity.
Qed.

End PricedBuy.

Lemma add_shares (p : Position.t) (n price : Q) :
  0 < n ->
  (Position.add p n price).(Position.shares) = p.(Position.shares) + n.
Proof.
  intro Hn. unfold Position.add.
  assert (E : Py.le n 0 = false) by (apply le_false; exact Hn).
  rewrite E. reflexivity.
Qed.

(** The cash after selling [s] shares of a held symbol right after a
    committed buy of [n] shares, both at [price]. *)
Lemma sell_after_priced_buy
    (tm : TradeManager.t) (d1 d2 : Z) (symbol : string) (price n s : Q) :
  0 < price -> 0 < n ->
  0 <= (TradeManager.get_position tm symbol).(Position.shares) ->
  let tm1 := snd (TradeManager.priced_buy tm d1 symbol price n) in
  let held := (TradeManager.get_position tm symbol).(Position.shares) + n in
  exists r2 tm2,
    TradeManager.sell tm1 d2 symbol price (Some s) None None
    = Py.Return (Some r2, tm2)
    /\ r2.(TradeRecord.shares) = Py.min s held
    /\ tm2.(TradeManager.cash)
       = tm1.(TradeManager.cash)
         + (price * Py.min s held
            - snd (TradeCost.calculate tm.(TradeManager.trade_cost) price
                     (Py.min s held))).
Proof.
  intros Hp Hn Hheld tm1 held.
  assert (Hlook : tm1.(TradeManager.positions) !! symbol
                  = Some (Position.add (TradeManager.get_position tm symbol)
                            n price)).
  { subst tm1. rewrite priced_buy_positions. apply lookup_insert_eq. }
  assert (Hne : ~ (Position.add (TradeManager.get_position tm symbol) n price).(Position.shares) == 0).
  { rewrite add_shares by exact Hn. lra. }
  rewrite (sell_commits tm1 d2 symbol price s None None _ Hp Hlook Hne).
  rewrite add_shares by exact Hn. fold held.
  eexists. eexists. split; [reflexivity|].
  subst tm1. rewrite priced_buy_trade_cost. split; reflexivity.
Qed.

Lemma get_position_shares (tm : TradeManager.t) (symbol : string) (P : Q -> Prop) :
  (forall p, tm.(TradeManager.positions) !! symbol = Some p ->
             P p.(Position.shares)) ->
  P (0 : Q) ->
  P (TradeManager.get_position tm symbol).(Position.shares).
Proof.
  intros Hsome Hnone. unfold TradeManager.get_position.
  destruct (tm.(TradeManager.positions) !! symbol) as [p|] eqn:E.
  - apply Hsome. reflexivity.
  - exact Hnone.
Qed.

(** The lot count of a non-negative quotient is non-negative and at most
    the quotient. *)
Lemma lot_bounds (q : Q) :
  0 <= q ->
  0 <= inject_Z (Py.int (q / 100) * 100)
  /\ inject_Z (Py.int (q / 100) * 100) <= q.
Proof.
  intro Hq.
  assert (H100 : 0 <= q / 100).
  { change (q / 100) with (q * (1 # 100)). lra. }
  rewrite (int_floor _ H100).
  pose proof (Qfloor_le (q / 100)) as Hle.
  change (q / 100) with (q * (1 # 100)) in Hle at 2.
  assert (Hk : (0 <= Qfloor (q / 100))%Z).
  { rewrite <- (Qfloor_Z 0). apply Qfloor_resp_le. exact H100. }
  rewrite inject_Z_mult.
  assert (Hk' : 0 <= inject_Z (Qfloor (q / 100))).
  { change 0 with (inject_Z 0). rewrite <- Zle_Qle. exact Hk. }
  change (inject_Z 100) with 100.
  split; lra.
Qed.

(** C7, as the code has it: under a cost model whose two rates and
    minimum commission are all zero, for a positive price and [N > 0], on an
    account whose cash covers [price * N] (and whose holding is not
    negative), or whose cash is not negative and which holds no share of the
    symbol, buying [N] shares and then selling [N] shares at the same price
    leaves the cash as it was; when the cash covers [price * N] both trades
    are committed for [N] shares. *)
Theorem buy_then_sell_restores_cash
    (tm : TradeManager.t) (d1 d2 : Z) (symbol : string) (price N : Q) :
  0 < price ->
  0 < N ->
  tm.(TradeManager.trade_cost).(TradeCost.commission_rate) == 0 ->
  tm.(TradeManager.trade_cost).(TradeCost.min_commission) == 0 ->
  tm.(TradeManager.trade_cost).(TradeCost.slippage_rate) == 0 ->
  (price * N <= tm.(TradeManager.cash)
   /\ forall p, tm.(TradeManager.positions) !! symbol = Some p ->
                0 <= p.(Position.shares))
  \/ (0 <= tm.(TradeManager.cash)
      /\ forall p, tm.(TradeManager.positions) !! symbol = Some p ->
                   p.(Position.shares) == 0) ->
  exists o1 tm1 o2 tm2,
    TradeManager.buy tm d1 symbol price (Some N) None true = Py.Return (o1, tm1)
    /\ TradeManager.sell tm1 d2 symbol price (Some N) None None
       = Py.Return (o2, tm2)
    /\ tm2.(TradeManager.cash) == tm.(TradeManager.cash)
    /\ (price * N <= tm.(TradeManager.cash) ->
        exists r1 r2,
          o1 = Some r1 /\ o2 = Some r2
          /\ r1.(TradeRecord.shares) = N /\ r2.(TradeRecord.shares) = N).
Proof.
  intros Hp HN Hcr Hmc Hsr Hacc.
  pose proof (zero_cost_calculate _ Hcr Hmc Hsr price) as Hfree.
  assert (Hreq : TradeManager.requested_shares price (Some N) None true = Some N)
    by reflexivity.
  destruct (Qlt_le_dec tm.(TradeManager.cash) (price * N)) as [Hshort|Hfull].
  - (* the cash does not cover N shares *)
    destruct Hacc as [[Hfull _]|[Hcash Hnone]]; [lra|].
    set (d := price * (1 + tm.(TradeManager.trade_cost).(TradeCost.commission_rate)
                         + tm.(TradeManager.trade_cost).(TradeCost.slippage_rate))).
    assert (Hd : d == price).
    { subst d. rewrite Hcr, Hsr. ring. }
    assert (Hdne : Py.eq d 0 = false) by (apply eq_false; lra).
    set (q := tm.(TradeManager.cash) / d).
    assert (Hqd : q * price == tm.(TradeManager.cash)).
    { transitivity (d * q); [rewrite Hd; ring|].
      subst q. apply Qmult_div_r. lra. }
    assert (Hq0 : 0 <= q).
    { subst q. unfold Qdiv. apply Qmult_le_0_compat; [exact Hcash|].
      apply Qinv_le_0_compat. lra. }
    destruct (lot_bounds q Hq0) as [Hm0 Hmq].
    set (m := inject_Z (Py.int (q / 100) * 100)) in *.
    assert (Hmax : TradeManager.max_affordable tm price = Py.Return m).
    { unfold TradeManager.max_affordable, Py.div. fold d. rewrite Hdne.
      reflexivity. }
    assert (HmN : m < N).
    { assert (m * price <= q * price) by (apply Qmult_le_compat_r; lra).
      assert (m * price < N * price) by lra.
      apply (Qmult_lt_r _ _ price Hp). assumption. }
    assert (Hspend : tm.(TradeManager.cash)
                     < price * N
                       + snd (TradeCost.calculate tm.(TradeManager.trade_cost)
                                price N)).
    { rewrite (Hfree N). lra. }
    rewrite (buy_short_of_cash tm d1 symbol price (Some N) None N m
               Hp Hreq Hspend Hmax).
    destruct (Py.eq m 0) eqn:Em.
    + exists None, tm, None, tm. repeat split; try lra.
      unfold TradeManager.sell.
      assert (E1 : Py.le price 0 = false) by (apply le_false; exact Hp).
      rewrite E1.
      destruct (tm.(TradeManager.positions) !! symbol) as [p|] eqn:Hl;
        [|reflexivity].
      assert (E2 : Py.eq p.(Position.shares) 0 = true)
        by (apply eq_true, Hnone; reflexivity).
      rewrite E2. reflexivity.
    + apply eq_false in Em.
      assert (Hmpos : 0 < m) by lra.
      assert (Hheld : (TradeManager.get_position tm symbol).(Position.shares)
                      == 0).
      { apply get_position_shares; [exact Hnone|reflexivity]. }
      destruct (sell_after_priced_buy tm d1 d2 symbol price m N Hp Hmpos)
        as (r2 & tm2 & Hsell & _ & Hcash2); [lra|].
      eexists. eexists. exists (Some r2), tm2.
      split; [reflexivity|]. split; [exact Hsell|]. split; [|lra].
      rewrite Hcash2, priced_buy_cash.
      assert (Hmin : Py.min N ((TradeManager.get_position tm symbol).(Position.shares) + m)
                     = (TradeManager.get_position tm symbol).(Position.shares) + m).
      { unfold Py.min.
        assert (E : Py.lt ((TradeManager.get_position tm symbol).(Position.shares) + m) N = true)
          by (apply lt_true; lra).
        rewrite E. reflexivity. }
      rewrite Hmin, !Hfree, Hheld. ring.
  - (* the cash covers N shares *)
    assert (Hheld : 0 <= (TradeManager.get_position tm symbol).(Position.shares)).
    { apply get_position_shares; [|lra].
      intros p Hl. destruct Hacc as [[_ H]|[_ H]]; rewrite ?(H p Hl); [auto|lra]. }
    assert (Hspend : price * N
                     + snd (TradeCost.calculate tm.(TradeManager.trade_cost)
                              price N)
                     <= tm.(TradeManager.cash)).
    { rewrite (Hfree N). lra. }
    rewrite (buy_commits tm d1 symbol price (Some N) None true N Hp Hreq Hspend).
    destruct (sell_after_priced_buy tm d1 d2 symbol price N N Hp HN Hheld)
      as (r2 & tm2 & Hsell & Hr2 & Hcash2).
    rewrite (min_eq_l N) in Hr2, Hcash2 by lra.
    eexists. eexists. exists (Some r2), tm2.
    split; [reflexivity|]. split; [exact Hsell|]. split.
    + rewrite Hcash2, priced_buy_cash, !Hfree. ring.
    + intros _. eexists. exists r2.
      split; [reflexivity|]. split; [reflexivity|].
      split; [apply priced_buy_shares|exact Hr2].
Qed.

Lemma buy_then_sell_restores_cash_witness :
  exists o1 tm1 o2 tm2,
    TradeManager.buy (TradeManager.init 100000 (Some Examples.free_cost))
      0 "X" 10 (Some 100) None true
    = Py.Return (o1, tm1)
    /\ TradeManager.sell tm1 1 "X" 10 (Some 100) None None = Py.Return (o2, tm2)
    /\ tm2.(TradeManager.cash) == 100000
    /\ (10 * 100 <= 100000 ->
        exists r1 r2,
          o1 = Some r1 /\ o2 = Some r2
          /\ r1.(TradeRecord.shares) = 100 /\ r2.(TradeRecord.shares) = 100).
Proof.
  apply (buy_then_sell_restores_cash
           (TradeManager.init 100000 (Some Examples.free_cost)) 0 1 "X" 10 100).
  - reflexivity.
  - reflexivity.
  - reflexivity.
  - reflexivity.
  - reflexivity.
  - left. split.
    + vm_compute. discriminate.
    + intros p Hl. vm_compute in Hl. discriminate Hl.
Defined.

(** C7 as stated fails twice.  With both rates zero and the minimum
    commission of 5, buying and selling back 100 shares at 10 takes the cash
    from 100000 to 99990.  With no cost at all, an account with 1000 in cash
    that already holds 1000 shares gets 100 of the 200 shares it asks for,
    then sells 200, and its cash goes from 1000 to 2000. *)
Lemma buy_then_sell_changes_cash :
  (Examples.zero_rate_cost.(TradeCost.commission_rate) == 0
   /\ Examples.zero_rate_cost.(TradeCost.slippage_rate) == 0
   /\ exists r1 tm1 r2 tm2,
        TradeManager.buy
          (TradeManager.init 100000 (Some Examples.zero_rate_cost))
          0 "X" 10 (Some 100) None true
        = Py.Return (Some r1, tm1)
        /\ TradeManager.sell tm1 0 "X" 10 (Some 100) None None
           = Py.Return (Some r2, tm2)
        /\ r1.(TradeRecord.shares) == 100
        /\ r2.(TradeRecord.shares) == 100
        /\ tm2.(TradeManager.cash) == 99990
        /\ ~ tm2.(TradeManager.cash) == 100000)
  /\ (Examples.holding_free.(TradeManager.cash) == 1000
      /\ exists r1 tm1 r2 tm2,
           TradeManager.buy Examples.holding_free 1 "X" 10 (Some 200) None true
           = Py.Return (Some r1, tm1)
           /\ TradeManager.sell tm1 1 "X" 10 (Some 200) None None
              = Py.Return (Some r2, tm2)
           /\ r1.(TradeRecord.shares) == 100
           /\ r2.(TradeRecord.shares) == 200
           /\ tm2.(TradeManager.cash) == 2000
           /\ ~ tm2.(TradeManager.cash) == 1000).
Proof.
  split.
  - split; [reflexivity|]. split; [reflexivity|].
    eexists. eexists. eexists. eexists.
    split; [vm_compute; reflexivity|].
    split; [vm_compute; reflexivity|].
    vm_compute. repeat split; discriminate.
  - split; [vm_compute; reflexivity|].
    eexists. eexists. eexists. eexists.
    split; [vm_compute; reflexivity|].
    split; [vm_compute; reflexivity|].
    vm_compute. repeat split; discriminate.
Qed.

(** ** The pairing loop and the grouping by symbol *)

Section Pairing.

Import Performance.

Implicit Types buys sells : list TradeRecord.t.

Lemma two_cursor_pairs_nil_l sells : two_cursor_pairs [] sells = [].
Proof. destruct sells; reflexivity. Qed.

Lemma two_cursor_pairs_nil_r buys : two_cursor_pairs buys [] = [].
Proof. reflexivity. Qed.

(** From any cursor position, with fuel for the SELL records left, the
    loop ends and adds the pairs of the two remaining suffixes. *)
Lemma pair_loop_drop (fuel : nat) buys sells (bi si : nat) (acc : list Pair) :
  (length sells - si <= fuel)%nat ->
  pair_loop fuel buys sells (mkCursor bi si acc)
  = Some (acc ++ two_cursor_pairs (drop bi buys) (drop si sells)).
Proof.
  revert bi si acc.
  induction fuel as [|fuel IH]; intros bi si acc Hfuel.
  - assert (Hsi : (length sells <= si)%nat) by lia.
    cbn [pair_loop]. unfold pair_step. cbn [buy_index sell_index paired_trades].
    assert (E : (si <? length sells)%nat = false) by (apply Nat.ltb_ge; lia).
    rewrite E, andb_false_r.
    rewrite (drop_ge sells si) by lia.
    rewrite two_cursor_pairs_nil_r, app_nil_r. reflexivity.
  - cbn [pair_loop]. unfold pair_step.
    cbn [buy_index sell_index paired_trades].
    destruct (bi <? length buys)%nat eqn:Eb; cycle 1.
    { apply Nat.ltb_ge in Eb. cbn [andb].
      rewrite (drop_ge buys bi) by lia.
      rewrite two_cursor_pairs_nil_l, app_nil_r. reflexivity. }
    destruct (si <? length sells)%nat eqn:Es; cycle 1.
    { apply Nat.ltb_ge in Es. cbn [andb].
      rewrite (drop_ge sells si) by lia.
      rewrite two_cursor_pairs_nil_r, app_nil_r. reflexivity. }
    apply Nat.ltb_lt in Eb, Es. cbn [andb].
    destruct (lookup_lt_is_Some_2 buys bi Eb) as [b Hb].
    destruct (lookup_lt_is_Some_2 sells si Es) as [s Hs].
    rewrite Hb, Hs.
    rewrite (drop_S sells s si Hs).
    rewrite (drop_S buys b bi Hb).
    cbn [two_cursor_pairs].
    destruct (b.(TradeRecord.date) <? s.(TradeRecord.date))%Z.
    + rewrite IH by lia.
      rewrite <- app_assoc. cbn [app].
      replace (bi + 1)%nat with (S bi) by lia.
      replace (si + 1)%nat with (S si) by lia. reflexivity.
    + rewrite IH by lia.
      rewrite (drop_S buys b bi Hb).
      replace (si + 1)%nat with (S si) by lia. reflexivity.
Qed.

Lemma pair_into_spec (acc : list Pair) buys sells :
  pair_into acc buys sells = Some (acc ++ two_cursor_pairs buys sells).
Proof.
  unfold pair_into. rewrite pair_loop_drop by lia. reflexivity.
Qed.

End Pairing.

Section Grouping.

Import Performance.

Implicit Types (h : list TradeRecord.t) (t : TradeRecord.t) (s k : string).

Lemma symbols_of_snoc h t :
  symbols_of (h ++ [t])
  = if String.eqb t.(TradeRecord.symbol) ""
       || existsb (String.eqb t.(TradeRecord.symbol)) (symbols_of h)
    then symbols_of h
    else symbols_of h ++ [t.(TradeRecord.symbol)].
Proof. unfold symbols_of. rewrite fold_left_app. reflexivity. Qed.

Lemma trades_by_symbol_snoc h t :
  trades_by_symbol (h ++ [t])
  = if String.eqb t.(TradeRecord.symbol) ""
    then trades_by_symbol h
    else group_append (trades_by_symbol h) t.(TradeRecord.symbol) t.
Proof. unfold trades_by_symbol. rewrite fold_left_app. reflexivity. Qed.

Lemma trades_of_snoc s h t :
  trades_of s (h ++ [t])
  = trades_of s h ++ (if String.eqb t.(TradeRecord.symbol) s then [t] else []).
Proof. unfold trades_of. rewrite List.filter_app. reflexivity. Qed.

Lemma existsb_eqb_elem s (l : list string) :
  existsb (String.eqb s) l = true <-> s ∈ l.
Proof.
  induction l as [|k l IH]; cbn [existsb].
  - split; [discriminate|]. intro H. inversion H.
  - rewrite orb_true_iff, IH, elem_of_cons, String.eqb_eq. reflexivity.
Qed.

Lemma existsb_eqb_not_elem s (l : list string) :
  existsb (String.eqb s) l = false <-> s ∉ l.
Proof.
  rewrite <- existsb_eqb_elem. destruct (existsb _ l); split; congruence.
Qed.

(** The symbols collected are distinct and not empty, and a symbol not
    collected has no trade. *)
Lemma symbols_of_inv h :
  NoDup (symbols_of h)
  /\ ("" ∉ symbols_of h)
  /\ (forall s, s ∉ symbols_of h -> s <> "" -> trades_of s h = []).
Proof.
  induction h as [|t h (Hnd & Hne & Hno)] using rev_ind.
  - split; [constructor|]. split; [intro H; inversion H|]. reflexivity.
  - rewrite symbols_of_snoc.
    destruct (String.eqb t.(TradeRecord.symbol) "") eqn:E0; cbn [orb].
    + apply String.eqb_eq in E0.
      split; [exact Hnd|]. split; [exact Hne|].
      intros s Hs Hs0. rewrite trades_of_snoc, (Hno s Hs Hs0).
      assert (E : String.eqb t.(TradeRecord.symbol) s = false)
        by (apply String.eqb_neq; congruence).
      rewrite E. reflexivity.
    + apply String.eqb_neq in E0.
      destruct (existsb _ (symbols_of h)) eqn:Ex.
      * apply existsb_eqb_elem in Ex.
        split; [exact Hnd|]. split; [exact Hne|].
        intros s Hs Hs0. rewrite trades_of_snoc, (Hno s Hs Hs0).
        assert (E : String.eqb t.(TradeRecord.symbol) s = false).
        { apply String.eqb_neq. intros <-. contradiction. }
        rewrite E. reflexivity.
      * apply existsb_eqb_not_elem in Ex.
        split; [|split].
        -- apply NoDup_app. split; [exact Hnd|]. split.
           ++ intros x Hx Hx'. apply list_elem_of_singleton in Hx'.
              subst x. contradiction.
           ++ apply NoDup_singleton.
        -- rewrite elem_of_app, list_elem_of_singleton.
           intros [H|H]; [contradiction|]. congruence.
        -- intros s Hs Hs0.
           rewrite elem_of_app, list_elem_of_singleton in Hs.
           rewrite trades_of_snoc, Hno; [|tauto|exact Hs0].
           assert (E : String.eqb t.(TradeRecord.symbol) s = false).
           { apply String.eqb_neq. intros <-. tauto. }
           rewrite E. reflexivity.
Qed.

Lemma group_append_known (f : string -> list TradeRecord.t)
    (syms : list string) s t :
  NoDup syms -> s ∈ syms ->
  group_append (map (fun k => (k, f k)) syms) s t
  = map (fun k => (k, if String.eqb k s then f k ++ [t] else f k)) syms.
Proof.
  induction syms as [|k syms IH]; intros Hnd Hin.
  - inversion Hin.
  - apply NoDup_cons in Hnd as [Hk Hnd]. cbn [map group_append].
    destruct (String.eqb k s) eqn:E.
    + apply String.eqb_eq in E. subst k. f_equal.
      apply map_ext_in. intros k Hin'.
      assert (E : String.eqb k s = false).
      { apply String.eqb_neq. intros ->. apply Hk.
        apply list_elem_of_In. exact Hin'. }
      rewrite E. reflexivity.
    + f_equal. apply IH; [exact Hnd|].
      apply elem_of_cons in Hin as [->|Hin]; [|exact Hin].
      rewrite String.eqb_refl in E. discriminate E.
Qed.

Lemma group_append_new (f : string -> list TradeRecord.t)
    (syms : list string) s t :
  s ∉ syms ->
  group_append (map (fun k => (k, f k)) syms) s t
  = map (fun k => (k, f k)) syms ++ [(s, [t])].
Proof.
  induction syms as [|k syms IH]; intros Hin.
  - reflexivity.
  - apply not_elem_of_cons in Hin as [Hk Hin]. cbn [map group_append].
    assert (E : String.eqb k s = false)
      by (apply String.eqb_neq; congruence).
    rewrite E, IH by exact Hin. reflexivity.
Qed.

(** [trades_by_symbol] holds, for each symbol in order of first
    appearance, that symbol's trades in history order. *)
Lemma trades_by_symbol_spec h :
  trades_by_symbol h = map (fun s => (s, trades_of s h)) (symbols_of h).
Proof.
  induction h as [|t h IH] using rev_ind; [reflexivity|].
  destruct (symbols_of_inv h) as (Hnd & Hne & Hno).
  rewrite trades_by_symbol_snoc, symbols_of_snoc, IH.
  destruct (String.eqb t.(TradeRecord.symbol) "") eqn:E0; cbn [orb].
  - apply String.eqb_eq in E0. apply map_ext_in. intros k Hk.
    rewrite trades_of_snoc.
    assert (E : String.eqb t.(TradeRecord.symbol) k = false).
    { apply String.eqb_neq. rewrite E0. intros <-. apply Hne.
      apply list_elem_of_In. exact Hk. }
    rewrite E, app_nil_r. reflexivity.
  - apply String.eqb_neq in E0.
    destruct (existsb _ (symbols_of h)) eqn:Ex.
    + apply existsb_eqb_elem in Ex.
      rewrite (group_append_known (fun s => trades_of s h)) by assumption.
      apply map_ext_in. intros k Hk. rewrite trades_of_snoc.
      rewrite (String.eqb_sym k).
      destruct (String.eqb _ k); [reflexivity|].
      rewrite app_nil_r. reflexivity.
    + apply existsb_eqb_not_elem in Ex.
      rewrite (group_append_new (fun s => trades_of s h)) by assumption.
      rewrite map_app. cbn [map]. f_equal.
      * apply map_ext_in. intros k Hk. rewrite trades_of_snoc.
        assert (E : String.eqb t.(TradeRecord.symbol) k = false).
        { apply String.eqb_neq. intros <-. apply Ex.
          apply list_elem_of_In. exact Hk. }
        rewrite E, app_nil_r. reflexivity.
      * rewrite trades_of_snoc, (Hno _ Ex E0), String.eqb_refl. reflexivity.
Qed.

Lemma fold_pair_into (groups : list (string * list TradeRecord.t))
    (acc : list Pair) :
  fold_left
    (fun acc group =>
       match acc with
       | None => None
       | Some paired =>
         pair_into paired (buy_trades (snd group)) (sell_trades (snd group))
       end)
    groups (Some acc)
  = Some (acc ++ flat_map
                   (fun group =>
                      two_cursor_pairs (buy_trades (snd group))
                                       (sell_trades (snd group)))
                   groups).
Proof.
  revert acc. induction groups as [|g groups IH]; intro acc.
  - cbn. rewrite app_nil_r. reflexivity.
  - cbn [fold_left flat_map]. rewrite pair_into_spec, IH, app_assoc.
    reflexivity.
Qed.

Lemma calculate_portfolio_pairs h :
  calculate_portfolio_paired_trades h = Some (per_symbol_pairs h).
Proof.
  unfold calculate_portfolio_paired_trades, per_symbol_pairs.
  rewrite fold_pair_into, trades_by_symbol_spec. cbn [app]. f_equal.
  induction (symbols_of h) as [|s syms IH]; [reflexivity|].
  cbn [map flat_map snd]. rewrite IH. reflexivity.
Qed.

End Grouping.

Section SingleSymbol.

Import Performance.

Variable s : string.

Lemma typed_trades_of (ty : TradeType) (k : string)
    (h : list TradeRecord.t) :
  ty = BUY \/ ty = SELL ->
  one_symbol s h ->
  List.filter (is_type ty) (trades_of k h)
  = if String.eqb k s then List.filter (is_type ty) h else [].
Proof.
  intros Hty Hone. unfold trades_of.
  induction Hone as [|t h Ht _ IH].
  - destruct (String.eqb k s); reflexivity.
  - cbn [List.filter].
    destruct (String.eqb t.(TradeRecord.symbol) k) eqn:Ek;
      cbn [List.filter]; destruct (is_type ty t) eqn:Et.
    + assert (Hs : t.(TradeRecord.symbol) = s)
        by (apply Ht; destruct Hty; subst ty; auto).
      apply String.eqb_eq in Ek. rewrite Hs in Ek. subst k.
      rewrite String.eqb_refl in *. f_equal. exact IH.
    + exact IH.
    + assert (Hs : t.(TradeRecord.symbol) = s)
        by (apply Ht; destruct Hty; subst ty; auto).
      rewrite Hs, String.eqb_sym in Ek. rewrite Ek in *. exact IH.
    + exact IH.
Qed.

Lemma flat_map_one (F : string -> list Pair) (syms : list string) :
  NoDup syms ->
  (forall k, k <> s -> F k = []) ->
  flat_map F syms = if existsb (String.eqb s) syms then F s else [].
Proof.
  intros Hnd Hother. induction syms as [|k syms IH]; [reflexivity|].
  apply NoDup_cons in Hnd as [Hk Hnd]. cbn [flat_map existsb].
  rewrite (IH Hnd). destruct (String.eqb s k) eqn:E.
  - apply String.eqb_eq in E. subst k.
    apply existsb_eqb_not_elem in Hk. rewrite Hk, app_nil_r. reflexivity.
  - apply String.eqb_neq in E. rewrite (Hother k) by congruence.
    reflexivity.
Qed.

(** On a history whose BUY and SELL records all carry one symbol, the
    pairing over the whole history is the per-symbol pairing. *)
Lemma calculate_pairs_one_symbol (trade_history : list TradeRecord.t) :
  s <> "" ->
  one_symbol s trade_history ->
  calculate_paired_trades trade_history
  = calculate_portfolio_paired_trades trade_history.
Proof.
  intros symbol_not_empty Hone.
  rewrite calculate_portfolio_pairs.
  unfold calculate_paired_trades. rewrite pair_into_spec. cbn [app].
  f_equal. unfold per_symbol_pairs.
  destruct (symbols_of_inv trade_history) as (Hnd & Hne & Hno).
  rewrite (flat_map_one _ _ Hnd).
  - destruct (existsb _ (symbols_of trade_history)) eqn:Ex.
    + unfold buy_trades, sell_trades.
      rewrite !typed_trades_of by auto.
      rewrite String.eqb_refl. reflexivity.
    + apply existsb_eqb_not_elem in Ex.
      pose proof (typed_trades_of BUY s trade_history (or_introl eq_refl) Hone)
        as Hb.
      rewrite (Hno s Ex symbol_not_empty), String.eqb_refl in Hb.
      unfold buy_trades. rewrite <- Hb. cbn [List.filter].
      apply two_cursor_pairs_nil_l.
  - intros k Hk. unfold buy_trades.
    rewrite typed_trades_of by auto.
    assert (E : String.eqb k s = false) by (apply String.eqb_neq; exact Hk).
    rewrite E. apply two_cursor_pairs_nil_l.
Qed.

End SingleSymbol.

(** ** Round-trip reconstruction *)

(** C8: the pairs [calculate_portfolio] collects are, symbol by symbol in
    order of first appearance, the two-cursor pairing of that symbol's BUY
    records and SELL records taken in history order; [calculate] runs the
    same two-cursor pairing over the BUY and SELL records of the whole
    history, which is the per-symbol pairing whenever the history trades one
    symbol.  The two-cursor pairing pairs the current BUY with the current
    SELL exactly when the SELL is dated strictly later, advancing both
    cursors, and otherwise advances the SELL cursor alone.  Both loops
    terminate. *)
Theorem round_trip_pairing (trade_history : list TradeRecord.t) :
  Performance.calculate_portfolio_paired_trades trade_history
  = Some (Performance.per_symbol_pairs trade_history)
  /\ Performance.calculate_paired_trades trade_history
     = Some (Performance.two_cursor_pairs
               (Performance.buy_trades trade_history)
               (Performance.sell_trades trade_history))
  /\ (forall b s buys sells,
         Performance.two_cursor_pairs (b :: buys) (s :: sells)
         = if (b.(TradeRecord.date) <? s.(TradeRecord.date))%Z
           then (b, s) :: Performance.two_cursor_pairs buys sells
           else Performance.two_cursor_pairs (b :: buys) sells)
  /\ (forall buys sells,
         Performance.two_cursor_pairs buys [] = []
         /\ Performance.two_cursor_pairs [] sells = [])
  /\ (forall symbol,
         symbol <> "" ->
         Performance.one_symbol symbol trade_history ->
         Performance.calculate_paired_trades trade_history
         = Some (Performance.per_symbol_pairs trade_history)).
Proof.
  split; [apply calculate_portfolio_pairs|].
  split.
  { unfold Performance.calculate_paired_trades.
    rewrite pair_into_spec. reflexivity. }
  split; [reflexivity|].
  split.
  { intros buys sells. split.
    - apply two_cursor_pairs_nil_r.
    - apply two_cursor_pairs_nil_l. }
  intros symbol Hne Hone.
  rewrite (calculate_pairs_one_symbol symbol trade_history Hne Hone).
  apply calculate_portfolio_pairs.
Qed.

Lemma round_trip_pairing_witness :
  Performance.calculate_paired_trades
    [TradeManager.init_record (TradeManager.init 100000 None) 0;
     Examples.buy_day0; Examples.sell_day10]
  = Some [(Examples.buy_day0, Examples.sell_day10)].
Proof.
  destruct (round_trip_pairing
              [TradeManager.init_record (TradeManager.init 100000 None) 0;
               Examples.buy_day0; Examples.sell_day10])
    as (_ & _ & _ & _ & Hone).
  apply (Hone "X"%string).
  - discriminate.
  - repeat constructor.
    intros [H|H]; discriminate H.
Defined.

(** C8 as stated fails for [calculate]: it walks the BUY and the SELL
    records of the whole history and never looks at the symbol.  In an
    account that buys X, buys Y and then sells Y, it pairs the BUY of X with
    the SELL of Y; [calculate_portfolio] pairs the BUY of Y with it.  And
    neither method sorts by date: when X is bought on day 5, bought again on
    day 1 and sold on day 3, the history holds the BUY of day 5 first and
    no pair is found, while the walk over the BUYs in date order would pair
    the BUY of day 1 with the SELL of day 3. *)
Lemma calculate_pairs_across_symbols :
  (exists bx by' sy,
      Examples.two_symbols.(TradeManager.trade_history) = [bx; by'; sy]
      /\ bx.(TradeRecord.symbol) = "X"
      /\ by'.(TradeRecord.symbol) = "Y"
      /\ sy.(TradeRecord.symbol) = "Y"
      /\ Performance.calculate_paired_trades [bx; by'; sy] = Some [(bx, sy)]
      /\ Performance.per_symbol_pairs [bx; by'; sy] = [(by', sy)]
      /\ Performance.calculate_portfolio_paired_trades [bx; by'; sy]
         = Some [(by', sy)])
  /\ (exists b5 b1 s3,
         Examples.out_of_order.(TradeManager.trade_history) = [b5; b1; s3]
         /\ b5.(TradeRecord.date) = 5%Z
         /\ b1.(TradeRecord.date) = 1%Z
         /\ s3.(TradeRecord.date) = 3%Z
         /\ Performance.calculate_paired_trades [b5; b1; s3] = Some []
         /\ Performance.calculate_portfolio_paired_trades [b5; b1; s3]
            = Some []
         /\ Performance.two_cursor_pairs [b1; b5] [s3] = [(b1, s3)]).
Proof.
  split.
  - eexists. eexists. eexists.
    split; [vm_compute; reflexivity|].
    repeat split; vm_compute; reflexivity.
  - eexists. eexists. eexists.
    split; [vm_compute; reflexivity|].
    repeat split; vm_compute; reflexivity.
Qed.

(** ** Which calls the loop makes *)

Section LoopCalls.

Variable symbol : string.
Variables position_size position_pct : option Q.

(** The call one bar leads to. *)
Lemma bar_call_rule (tm : TradeManager.t) (bar : SignalStrategy.Bar) :
  let held := (TradeManager.get_position tm symbol).(Position.shares) in
  let call := SignalStrategy.bar_call symbol position_size position_pct tm bar in
  ((exists shares amount,
       call = Some (SignalStrategy.CallBuy bar.(SignalStrategy.bar_date)
                      symbol bar.(SignalStrategy.close) shares amount))
   <-> bar.(SignalStrategy.signal) == 1)
  /\ (call = Some (SignalStrategy.CallSell bar.(SignalStrategy.bar_date)
                     symbol bar.(SignalStrategy.close) held)
      <-> bar.(SignalStrategy.signal) == -1 /\ 0 < held)
  /\ (call = None
      \/ (exists shares amount,
             call = Some (SignalStrategy.CallBuy
                            bar.(SignalStrategy.bar_date) symbol
                            bar.(SignalStrategy.close) shares amount))
      \/ call = Some (SignalStrategy.CallSell bar.(SignalStrategy.bar_date)
                        symbol bar.(SignalStrategy.close) held)).
Proof.
  intros held call. subst call. unfold SignalStrategy.bar_call. fold held.
  destruct (Py.eq bar.(SignalStrategy.signal) 1) eqn:E1.
  - apply eq_true in E1.
    assert (Hbuy : exists shares amount,
               (let '(shares, amount) :=
                  match position_size, position_pct with
                  | Some n, _ => (Some n, None)
                  | None, Some pct => (None, Some (tm.(TradeManager.cash) * pct))
                  | None, None => (None, Some (tm.(TradeManager.cash) * (9 # 10)))
                  end in
                Some (SignalStrategy.CallBuy bar.(SignalStrategy.bar_date)
                        symbol bar.(SignalStrategy.close) shares amount))
               = Some (SignalStrategy.CallBuy bar.(SignalStrategy.bar_date)
                         symbol bar.(SignalStrategy.close) shares amount)).
    { destruct position_size, position_pct; eexists; eexists; reflexivity. }
    destruct Hbuy as (sh & am & ->).
    split; [|split].
    + split; [intros _; exact E1|intros _; eauto].
    + split; [discriminate|]. intros [Hs _]. rewrite E1 in Hs. discriminate Hs.
    + right. left. eauto.
  - apply eq_false in E1.
    destruct (Py.eq bar.(SignalStrategy.signal) (-1)) eqn:E2.
    + apply eq_true in E2.
      destruct (Py.lt 0 held) eqn:E3.
      * apply lt_true in E3. split; [|split].
        -- split; [intros (sh & am & H); discriminate H|intro; contradiction].
        -- split; [intros _; split; assumption|reflexivity].
        -- right. right. reflexivity.
      * apply lt_false in E3. split; [|split].
        -- split; [intros (sh & am & H); discriminate H|intro; contradiction].
        -- split; [discriminate|]. intros [_ Hh]. lra.
        -- left. reflexivity.
    + apply eq_false in E2. split; [|split].
      * split; [intros (sh & am & H); discriminate H|intro; contradiction].
      * split; [discriminate|]. intros [Hs _]. contradiction.
      * left. reflexivity.
Qed.

Lemma loop_call_rule (cash0 : Q) (bars : list SignalStrategy.Bar)
    (tm : TradeManager.t) :
  Forall (SignalStrategy.call_rule symbol)
    (fst (SignalStrategy.loop symbol position_size position_pct cash0 tm bars)).
Proof.
  revert tm. induction bars as [|bar bars IH]; intro tm.
  - constructor.
  - cbn [SignalStrategy.loop].
    pose proof (bar_call_rule tm bar) as Hb.
    destruct (SignalStrategy.step _ _ _ cash0 tm bar) as [e|[row tm']].
    + constructor; [exact Hb|constructor].
    + specialize (IH tm').
      destruct (SignalStrategy.loop _ _ _ cash0 tm' bars) as [evs r].
      constructor; [exact Hb|exact IH].
Qed.

(** The loop reaches the bars in order and always the first one. *)
Lemma loop_bars (cash0 : Q) (bars : list SignalStrategy.Bar)
    (tm : TradeManager.t) :
  let events :=
    fst (SignalStrategy.loop symbol position_size position_pct cash0 tm bars) in
  map SignalStrategy.ev_bar events = take (length events) bars
  /\ head (map SignalStrategy.ev_before events)
     = match bars with [] => None | _ => Some tm end.
Proof.
  revert tm. induction bars as [|bar bars IH]; intro tm.
  - split; reflexivity.
  - cbn [SignalStrategy.loop].
    destruct (SignalStrategy.step _ _ _ cash0 tm bar) as [e|[row tm']].
    + split; reflexivity.
    + specialize (IH tm'). cbv zeta in IH. destruct IH as [IH _].
      destruct (SignalStrategy.loop _ _ _ cash0 tm' bars) as [evs r].
      cbn [fst] in *. split; [|reflexivity].
      cbn [map length take]. rewrite IH. reflexivity.
Qed.

(** The manager one pass of the loop body leaves is the one the call it
    makes leaves, with the snapshot of the bar appended. *)
Lemma step_settled (cash0 : Q) (tm : TradeManager.t)
    (bar : SignalStrategy.Bar) :
  match SignalStrategy.step symbol position_size position_pct cash0 tm bar with
  | Py.Return (_, tm') => Some tm'
  | Py.Raise _ => None
  end
  = SignalStrategy.settled symbol bar
      (match SignalStrategy.bar_call symbol position_size position_pct tm bar
       with
       | Some c => SignalStrategy.invoke tm c
       | None => Py.Return (None, tm)
       end).
Proof.
  unfold SignalStrategy.step.
  destruct (match SignalStrategy.bar_call symbol position_size position_pct
                    tm bar with
            | Some c => SignalStrategy.invoke tm c
            | None => Py.Return (None, tm)
            end) as [e|[o tm1]]; reflexivity.
Qed.

(** The calls behind the three branches of the loop body. *)
Lemma step_calls (cash0 : Q) (tm : TradeManager.t)
    (bar : SignalStrategy.Bar) :
  let held := (TradeManager.get_position tm symbol).(Position.shares) in
  let next :=
    match
      SignalStrategy.step symbol position_size position_pct cash0 tm bar
    with
    | Py.Return (_, tm') => Some tm'
    | Py.Raise _ => None
    end in
  (bar.(SignalStrategy.signal) == 1 ->
   next
   = SignalStrategy.settled symbol bar
       (TradeManager.buy tm bar.(SignalStrategy.bar_date) symbol
          bar.(SignalStrategy.close)
          (fst (SignalStrategy.sizing position_size position_pct tm))
          (snd (SignalStrategy.sizing position_size position_pct tm))
          true))
  /\ (bar.(SignalStrategy.signal) == -1 -> 0 < held ->
      next
      = SignalStrategy.settled symbol bar
          (TradeManager.sell tm bar.(SignalStrategy.bar_date) symbol
             bar.(SignalStrategy.close) (Some held) None None))
  /\ (~ bar.(SignalStrategy.signal) == 1 ->
      ~ (bar.(SignalStrategy.signal) == -1 /\ 0 < held) ->
      next = SignalStrategy.settled symbol bar (Py.Return (None, tm))).
Proof.
  cbv zeta. rewrite step_settled. unfold SignalStrategy.bar_call.
  destruct (Py.eq bar.(SignalStrategy.signal) 1) eqn:E1.
  - apply eq_true in E1. split; [|split].
    + intros _. unfold SignalStrategy.sizing.
      destruct position_size, position_pct; reflexivity.
    + intros Hs _. rewrite E1 in Hs. discriminate Hs.
    + intros Hn _. contradiction.
  - apply eq_false in E1.
    destruct (Py.eq bar.(SignalStrategy.signal) (-1)) eqn:E2.
    + apply eq_true in E2.
      destruct (Py.lt 0 (TradeManager.get_position tm symbol).(Position.shares))
        eqn:E3.
      * apply lt_true in E3. split; [|split].
        -- intro; contradiction.
        -- intros _ _. reflexivity.
        -- intros _ Hn. exfalso. apply Hn. split; assumption.
      * apply lt_false in E3. split; [|split].
        -- intro; contradiction.
        -- intros _ Hh. lra.
        -- intros _ _. reflexivity.
    + apply eq_false in E2. split; [|split].
      * intro; contradiction.
      * intros Hs _. contradiction.
      * intros _ _. reflexivity.
Qed.

(** Every bar the loop reaches is passed through the loop body, and the
    manager it leaves is the one the next bar finds or, after the last bar,
    the one the loop returns. *)
Lemma loop_next (cash0 : Q) (bars : list SignalStrategy.Bar)
    (tm : TradeManager.t) (i : nat) (ev : SignalStrategy.Event) :
  fst (SignalStrategy.loop symbol position_size position_pct cash0 tm bars)
    !! i = Some ev ->
  SignalStrategy.next_manager
    (SignalStrategy.loop symbol position_size position_pct cash0 tm bars) i
  = match
      SignalStrategy.step symbol position_size position_pct cash0
        ev.(SignalStrategy.ev_before) ev.(SignalStrategy.ev_bar)
    with
    | Py.Return (_, tm') => Some tm'
    | Py.Raise _ => None
    end.
Proof.
  revert tm i. induction bars as [|bar bars IH]; intros tm i Hev.
  - destruct i; discriminate Hev.
  - cbn [SignalStrategy.loop] in *.
    destruct (SignalStrategy.step symbol position_size position_pct cash0
                tm bar) as [e|[row tm']] eqn:Hstep.
    + destruct i as [|i]; [|destruct i; discriminate Hev].
      cbn in Hev. injection Hev as <-.
      cbn [SignalStrategy.ev_before SignalStrategy.ev_bar].
      rewrite Hstep. reflexivity.
    + pose proof (loop_bars cash0 bars tm') as [_ Hhead].
      specialize (IH tm').
      destruct (SignalStrategy.loop symbol position_size position_pct cash0
                  tm' bars) as [evs r] eqn:Hloop.
      cbn [fst snd] in *.
      destruct i as [|i].
      * cbn in Hev. injection Hev as <-.
        cbn [SignalStrategy.ev_before SignalStrategy.ev_bar].
        rewrite Hstep. unfold SignalStrategy.next_manager. cbn [fst snd].
        change ((SignalStrategy.mkEvent bar tm
                   (SignalStrategy.bar_call symbol position_size position_pct
                      tm bar) :: evs) !! 1%nat)
          with (evs !! 0%nat).
        destruct bars as [|bar' bars'].
        -- cbn [SignalStrategy.loop] in Hloop. injection Hloop as <- <-.
           reflexivity.
        -- destruct evs as [|ev' evs']; [discriminate Hhead|].
           cbn in Hhead. injection Hhead as Hh. cbn. rewrite Hh. reflexivity.
      * change ((SignalStrategy.mkEvent bar tm
                   (SignalStrategy.bar_call symbol position_size position_pct
                      tm bar) :: evs) !! S i)
          with (evs !! i) in Hev.
        rewrite <- (IH i Hev).
        unfold SignalStrategy.next_manager. cbn [fst snd].
        change ((SignalStrategy.mkEvent bar tm
                   (SignalStrategy.bar_call symbol position_size position_pct
                      tm bar) :: evs) !! S (S i))
          with (evs !! S i).
        destruct (evs !! S i); [reflexivity|].
        destruct r as [e|[rows tm'']]; reflexivity.
Qed.

(** C9, as the code has it: at every bar the loop reaches, [buy] is
    invoked exactly when the signal is 1, whatever is held, with the bar's
    date and close and the configured sizing, and [sell] is invoked for the
    whole holding exactly when the signal is -1 and the holding is positive;
    no other call is made.  The manager the bar leaves is the one that call
    leaves (the manager the bar found, when no call is made) with the
    snapshot of the bar appended, and the run stops where a call raises.
    The bars are reached in order from the first. *)
Theorem run_call_rule (trade_manager : TradeManager.t)
    (initial_cash : option Q) (now : Z) (bars : list SignalStrategy.Bar) :
  let trace :=
    SignalStrategy.run symbol position_size position_pct trade_manager
      initial_cash now bars in
  let events := fst trace in
  Forall
    (fun ev =>
       let bar := ev.(SignalStrategy.ev_bar) in
       let held :=
         (TradeManager.get_position ev.(SignalStrategy.ev_before) symbol)
           .(Position.shares) in
       ((exists shares amount,
            ev.(SignalStrategy.ev_call)
            = Some (SignalStrategy.CallBuy bar.(SignalStrategy.bar_date)
                      symbol bar.(SignalStrategy.close) shares amount))
        <-> bar.(SignalStrategy.signal) == 1)
       /\ (ev.(SignalStrategy.ev_call)
           = Some (SignalStrategy.CallSell bar.(SignalStrategy.bar_date)
                     symbol bar.(SignalStrategy.close) held)
           <-> bar.(SignalStrategy.signal) == -1 /\ 0 < held)
       /\ (ev.(SignalStrategy.ev_call) = None
           \/ (exists shares amount,
                  ev.(SignalStrategy.ev_call)
                  = Some (SignalStrategy.CallBuy
                            bar.(SignalStrategy.bar_date) symbol
                            bar.(SignalStrategy.close) shares amount))
           \/ ev.(SignalStrategy.ev_call)
              = Some (SignalStrategy.CallSell bar.(SignalStrategy.bar_date)
                        symbol bar.(SignalStrategy.close) held)))
    events
  /\ map SignalStrategy.ev_bar events = take (length events) bars
  /\ (length (take 1 bars) <= length events)%nat
  /\ (forall i ev,
         events !! i = Some ev ->
         let tm := ev.(SignalStrategy.ev_before) in
         let bar := ev.(SignalStrategy.ev_bar) in
         let held := (TradeManager.get_position tm symbol).(Position.shares) in
         (bar.(SignalStrategy.signal) == 1 ->
          SignalStrategy.next_manager trace i
          = SignalStrategy.settled symbol bar
              (TradeManager.buy tm bar.(SignalStrategy.bar_date) symbol
                 bar.(SignalStrategy.close)
                 (fst (SignalStrategy.sizing position_size position_pct tm))
                 (snd (SignalStrategy.sizing position_size position_pct tm))
                 true))
         /\ (bar.(SignalStrategy.signal) == -1 -> 0 < held ->
             SignalStrategy.next_manager trace i
             = SignalStrategy.settled symbol bar
                 (TradeManager.sell tm bar.(SignalStrategy.bar_date) symbol
                    bar.(SignalStrategy.close) (Some held) None None))
         /\ (~ bar.(SignalStrategy.signal) == 1 ->
             ~ (bar.(SignalStrategy.signal) == -1 /\ 0 < held) ->
             SignalStrategy.next_manager trace i
             = SignalStrategy.settled symbol bar (Py.Return (None, tm)))).
Proof.
  cbv zeta. unfold SignalStrategy.run.
  set (tm := match initial_cash with
             | Some _ => TradeManager.reset trade_manager now
             | None => trade_manager
             end).
  split; [apply (loop_call_rule tm.(TradeManager.cash) bars tm)|].
  destruct (loop_bars tm.(TradeManager.cash) bars tm) as [Hbars Hfirst].
  split; [exact Hbars|].
  split.
  { destruct bars as [|bar bars]; [cbn; lia|].
    destruct (fst (SignalStrategy.loop _ _ _ _ tm (bar :: bars))) as [|ev evs].
    - discriminate Hfirst.
    - rewrite length_take. cbn [length]. lia. }
  intros i ev Hev.
  rewrite (loop_next tm.(TradeManager.cash) bars tm i ev Hev).
  apply (step_calls tm.(TradeManager.cash) ev.(SignalStrategy.ev_before)
           ev.(SignalStrategy.ev_bar)).
Qed.

End LoopCalls.

(** C9 as stated fails: with a fixed size of 100 shares configured and
    100 shares of X already held, a bar with signal 1 makes the loop call
    [buy] again, and the holding goes to 200. *)
Lemma buy_called_while_holding :
  (TradeManager.get_position Examples.holding_default "X").(Position.shares)
  == 100
  /\ SignalStrategy.bar_call "X" (Some 100) None Examples.holding_default
       (SignalStrategy.mkBar 1 10 1)
     = Some (SignalStrategy.CallBuy 1 "X" 10 (Some 100) None)
  /\ exists row tm',
       SignalStrategy.step "X" (Some 100) None 100000 Examples.holding_default
         (SignalStrategy.mkBar 1 10 1)
       = Py.Return (row, tm')
       /\ row.(SignalStrategy.row_trade_type) = Some BUY
       /\ (TradeManager.get_position tm' "X").(Position.shares) == 200.
Proof.
  split; [vm_compute; reflexivity|].
  split; [vm_compute; reflexivity|].
  eexists. eexists. split; [vm_compute; reflexivity|].
  split; vm_compute; reflexivity.
Qed.

(** ** Cash along a sequence of calls *)

(** C1 as stated fails: from 1006 in cash under the default cost model, a
    buy of 100 shares at 10 leaves 0.9, and a sell of one share at 4, whose
    proceeds are below the minimum commission, is committed and leaves the
    cash at -0.1004. *)
Lemma sell_below_minimum_overdraws :
  0 <= (TradeManager.init 1006 None).(TradeManager.cash)
  /\ exists r1 tm1 r2 tm2,
       TradeManager.buy (TradeManager.init 1006 None) 0 "X" 10 (Some 100) None
         true
       = Py.Return (Some r1, tm1)
       /\ tm1.(TradeManager.cash) == 9 # 10
       /\ TradeManager.sell tm1 1 "X" 4 (Some 1) None None
          = Py.Return (Some r2, tm2)
       /\ r2.(TradeRecord.shares) == 1
       /\ tm2.(TradeManager.cash) == - (1004 # 10000)
       /\ tm2.(TradeManager.cash) < 0.
Proof.
  split; [discriminate|].
  eexists. eexists. eexists. eexists.
  split; [vm_compute; reflexivity|].
  split; [vm_compute; reflexivity|].
  split; [vm_compute; reflexivity|].
  vm_compute. repeat split; discriminate.
Qed.

(** * Further properties of the ledger *)

(** ** The outcomes of [buy] and [sell] *)

Lemma min_le_r (a b : Q) : Py.min a b <= b.
Proof.
  unfold Py.min. destruct (Py.lt b a) eqn:E; [lra|].
  apply lt_false in E. exact E.
Qed.

(** [buy] raises, or returns [None] and changes nothing, or commits a
    buy at a positive price: of the requested share count when the cash
    covers its spend, else of the largest affordable lot. *)
Lemma buy_cases (tm : TradeManager.t) (date : Z) (symbol : string)
    (price : Q) (shares amount : option Q) (allow_partial : bool) :
  (exists e,
      TradeManager.buy tm date symbol price shares amount allow_partial
      = Py.Raise e)
  \/ TradeManager.buy tm date symbol price shares amount allow_partial
     = Py.Return (None, tm)
  \/ (exists n0 n,
         0 < price
         /\ TradeManager.requested_shares price shares amount allow_partial
            = Some n0
         /\ ((n = n0
              /\ price * n0
                 + snd (TradeCost.calculate tm.(TradeManager.trade_cost)
                          price n0)
                 <= tm.(TradeManager.cash))
             \/ (tm.(TradeManager.cash)
                 < price * n0
                   + snd (TradeCost.calculate tm.(TradeManager.trade_cost)
                            price n0)
                 /\ allow_partial = true
                 /\ TradeManager.max_affordable tm price = Py.Return n
                 /\ ~ n == 0))
         /\ TradeManager.buy tm date symbol price shares amount allow_partial
            = Py.Return
                (Some (fst (TradeManager.priced_buy tm date symbol price n)),
                 snd (TradeManager.priced_buy tm date symbol price n))).
Proof.
  destruct (Py.le price 0) eqn:Ep.
  { left. exists Py.ValueError. unfold TradeManager.buy. rewrite Ep.
    reflexivity. }
  apply le_false in Ep.
  destruct (TradeManager.requested_shares price shares amount allow_partial)
    as [n|] eqn:Hreq; cycle 1.
  { left. exists Py.ValueError. unfold TradeManager.buy.
    apply le_false in Ep. rewrite Ep, Hreq. reflexivity. }
  destruct (Qlt_le_dec tm.(TradeManager.cash)
              (price * n
               + snd (TradeCost.calculate tm.(TradeManager.trade_cost) price n)))
    as [Hshort|Hfull].
  - destruct allow_partial.
    + destruct (TradeManager.max_affordable tm price) as [e|m] eqn:Hmax.
      * left. exists e. unfold TradeManager.buy.
        apply le_false in Ep. rewrite Ep, Hreq.
        destruct (TradeCost.calculate _ price n) as [[c s] t].
        cbn [snd] in Hshort. apply lt_true in Hshort. rewrite Hshort.
        cbn [negb]. rewrite Hmax. reflexivity.
      * rewrite (buy_short_of_cash tm date symbol price shares amount n m
                   Ep Hreq Hshort Hmax).
        destruct (Py.eq m 0) eqn:Em; [right; left; reflexivity|].
        apply eq_false in Em.
        right. right. exists n, m. split; [exact Ep|].
        split; [reflexivity|]. split; [|reflexivity].
        right. repeat split; assumption.
    + right. left. unfold TradeManager.buy.
      apply le_false in Ep. rewrite Ep, Hreq.
      destruct (TradeCost.calculate _ price n) as [[c s] t].
      cbn [snd] in Hshort. apply lt_true in Hshort. rewrite Hshort.
      reflexivity.
  - right. right. exists n, n. split; [exact Ep|].
    split; [reflexivity|]. split; [left; split; [reflexivity|exact Hfull]|].
    apply buy_commits; assumption.
Qed.

(** [sell] raises, or returns [None] and changes nothing, or commits a
    sale, at a positive price, of a share count that does not exceed the
    holding. *)
Lemma sell_cases (tm : TradeManager.t) (date : Z) (symbol : string)
    (price : Q) (shares amount percent : option Q) :
  (exists e,
      TradeManager.sell tm date symbol price shares amount percent
      = Py.Raise e)
  \/ TradeManager.sell tm date symbol price shares amount percent
     = Py.Return (None, tm)
  \/ (exists position n,
         0 < price
         /\ tm.(TradeManager.positions) !! symbol = Some position
         /\ ~ position.(Position.shares) == 0
         /\ n <= position.(Position.shares)
         /\ TradeManager.sell tm date symbol price shares amount percent
            = Py.Return
                (Some (fst (TradeManager.priced_sell tm date symbol price
                              position n)),
                 snd (TradeManager.priced_sell tm date symbol price
                        position n))).
Proof.
  unfold TradeManager.sell, TradeManager.priced_sell.
  destruct (Py.le price 0) eqn:Ep; [left; eexists; reflexivity|].
  apply le_false in Ep.
  destruct (tm.(TradeManager.positions) !! symbol) as [position|] eqn:Hl;
    [|right; left; reflexivity].
  destruct (Py.eq position.(Position.shares) 0) eqn:Eh;
    [right; left; reflexivity|].
  apply eq_false in Eh.
  match goal with
  | |- context [Py.bind ?m _] => destruct m as [e|s]
  end; [left; eexists; reflexivity|].
  right. right. exists position, (Py.min s position.(Position.shares)).
  split; [exact Ep|]. split; [reflexivity|]. split; [exact Eh|].
  split; [apply min_le_r|].
  cbn [Py.bind].
  destruct (TradeCost.calculate _ price _) as [[c sl] t]. reflexivity.
Qed.

(** ** Positions stay well formed *)

Lemma new_wf (symbol : string) : Position.wf (Position.new symbol 0 0).
Proof.
  unfold Position.wf, Position.new. cbn.
  repeat split; try discriminate; reflexivity.
Qed.

Lemma add_symbol (p : Position.t) (n price : Q) :
  (Position.add p n price).(Position.symbol) = p.(Position.symbol).
Proof. unfold Position.add. destruct (Py.le n 0); reflexivity. Qed.

Lemma remove_symbol (p : Position.t) (n : Q) :
  (fst (Position.remove p n)).(Position.symbol) = p.(Position.symbol).
Proof.
  unfold Position.remove. destruct (Py.le n 0); [reflexivity|].
  destruct (Py.eq _ 0); reflexivity.
Qed.

Lemma add_wf (p : Position.t) (n price : Q) :
  0 < price -> Position.wf p -> Position.wf (Position.add p n price).
Proof.
  intros Hprice (Hs & Ha & Hcb & Hzero). unfold Position.add.
  destruct (Py.le n 0) eqn:En; [repeat split; assumption|].
  apply le_false in En.
  assert (Hpos : 0 < p.(Position.shares) + n) by lra.
  assert (E : Py.lt 0 (p.(Position.shares) + n) = true)
    by (apply lt_true; exact Hpos).
  unfold Position.wf. cbn [Position.shares Position.avg_price Position.cost_basis].
  rewrite E.
  assert (Hcost : 0 <= p.(Position.cost_basis) + n * price).
  { rewrite Hcb.
    pose proof (Qmult_le_0_compat _ _ Hs Ha).
    assert (0 <= n * price) by (apply Qmult_le_0_compat; lra).
    lra. }
  split; [lra|]. split; [|split].
  - apply Qle_shift_div_l; [exact Hpos|]. lra.
  - symmetry. apply Qmult_div_r. lra.
  - intro H0. lra.
Qed.

Lemma remove_wf (p : Position.t) (n : Q) :
  Position.wf p -> Position.wf (fst (Position.remove p n)).
Proof.
  intros (Hs & Ha & Hcb & Hzero). unfold Position.remove.
  destruct (Py.le n 0) eqn:En; [repeat split; assumption|].
  pose proof (min_le_r n p.(Position.shares)) as Hmin.
  destruct (Py.eq _ 0) eqn:E0; unfold Position.wf;
    cbn [fst Position.shares Position.avg_price Position.cost_basis].
  - apply eq_true in E0. repeat split; lra.
  - apply eq_false in E0. repeat split; try lra.
Qed.

Lemma get_position_wf (tm : TradeManager.t) (symbol : string) :
  TradeManager.positions_wf tm ->
  (TradeManager.get_position tm symbol).(Position.symbol) = symbol
  /\ Position.wf (TradeManager.get_position tm symbol).
Proof.
  intro Hwf. unfold TradeManager.get_position.
  destruct (tm.(TradeManager.positions) !! symbol) as [p|] eqn:Hl.
  - apply (Hwf symbol p Hl).
  - split; [reflexivity|apply new_wf].
Qed.

Lemma priced_buy_wf (tm : TradeManager.t) (date : Z) (symbol : string)
    (price n : Q) :
  0 < price ->
  TradeManager.positions_wf tm ->
  TradeManager.positions_wf (snd (TradeManager.priced_buy tm date symbol price n)).
Proof.
  intros Hprice Hwf k p. rewrite priced_buy_positions.
  destruct (get_position_wf tm symbol Hwf) as [Hsym Hp].
  destruct (decide (symbol = k)) as [<-|Hne].
  - rewrite lookup_insert_eq. intros [= <-].
    split; [rewrite add_symbol; exact Hsym|apply add_wf; assumption].
  - rewrite lookup_insert_ne by exact Hne. apply Hwf.
Qed.

Lemma priced_sell_positions (tm : TradeManager.t) (date : Z) (symbol : string)
    (price : Q) (position : Position.t) (n : Q) :
  (snd (TradeManager.priced_sell tm date symbol price position n))
    .(TradeManager.positions)
  = <[symbol := fst (Position.remove position n)]> tm.(TradeManager.positions).
Proof.
  unfold TradeManager.priced_sell.
  destruct (TradeCost.calculate _ price n) as [[c s] t]. reflexivity.
Qed.

Lemma priced_sell_wf (tm : TradeManager.t) (date : Z) (symbol : string)
    (price : Q) (position : Position.t) (n : Q) :
  tm.(TradeManager.positions) !! symbol = Some position ->
  TradeManager.positions_wf tm ->
  TradeManager.positions_wf
    (snd (TradeManager.priced_sell tm date symbol price position n)).
Proof.
  intros Hl Hwf k p. rewrite priced_sell_positions.
  destruct (Hwf symbol position Hl) as [Hsym Hp].
  destruct (decide (symbol = k)) as [<-|Hne].
  - rewrite lookup_insert_eq. intros [= <-].
    split; [rewrite remove_symbol; exact Hsym|apply remove_wf; exact Hp].
  - rewrite lookup_insert_ne by exact Hne. apply Hwf.
Qed.

Lemma after_wf (tm : TradeManager.t) (op : Session.Op) :
  TradeManager.positions_wf tm ->
  TradeManager.positions_wf (Session.after tm op).
Proof.
  intro Hwf. unfold Session.after.
  destruct op as [date symbol price shares amount allow_partial
                 |date symbol price shares amount percent];
    cbn [Session.call].
  - destruct (buy_cases tm date symbol price shares amount allow_partial)
      as [[e ->]|[->|(n0 & n & Hp & _ & _ & ->)]]; try exact Hwf.
    apply priced_buy_wf; assumption.
  - destruct (sell_cases tm date symbol price shares amount percent)
      as [[e ->]|[->|(position & n & Hp & Hl & _ & _ & ->)]]; try exact Hwf.
    apply priced_sell_wf; assumption.
Qed.

Lemma states_wf (tm : TradeManager.t) (ops : list Session.Op) :
  TradeManager.positions_wf tm ->
  Forall TradeManager.positions_wf (Session.states tm ops).
Proof.
  revert tm. induction ops as [|op ops IH]; intros tm Hwf; [constructor|].
  cbn [Session.states]. pose proof (after_wf tm op Hwf) as Hnext.
  constructor; [exact Hnext|apply IH; exact Hnext].
Qed.

(** X1.  From a new manager, and from a manager just reset, every
    sequence of [buy] and [sell] calls, whatever their arguments, keeps
    every position filed under its own symbol, with shares and average price
    not negative, a cost basis equal to shares times average price, and a
    zero average price when it holds no share. *)
Theorem positions_stay_well_formed
    (initial_cash : Q) (trade_cost : option TradeCost.t)
    (tm : TradeManager.t) (now : Z) (ops : list Session.Op) :
  Forall
    (fun s =>
       forall k p,
         s.(TradeManager.positions) !! k = Some p ->
         p.(Position.symbol) = k
         /\ 0 <= p.(Position.shares)
         /\ 0 <= p.(Position.avg_price)
         /\ p.(Position.cost_basis)
            == p.(Position.shares) * p.(Position.avg_price)
         /\ (p.(Position.shares) == 0 -> p.(Position.avg_price) == 0))
    (Session.states (TradeManager.init initial_cash trade_cost) ops
     ++ Session.states (TradeManager.reset tm now) ops).
Proof.
  apply Forall_app. split; apply states_wf; intros k p Hl;
    cbn [TradeManager.positions TradeManager.init TradeManager.reset] in Hl;
    rewrite lookup_empty in Hl; discriminate Hl.
Qed.

(** ** The history reconciles with the cash *)

Lemma sum_cash_change_app (l1 l2 : list TradeRecord.t) :
  TradeManager.sum_cash_change (l1 ++ l2)
  == TradeManager.sum_cash_change l1 + TradeManager.sum_cash_change l2.
Proof.
  unfold TradeManager.sum_cash_change.
  induction l1 as [|r l1 IH]; cbn [app fold_right]; [lra|].
  rewrite IH. lra.
Qed.

(** What a call leaves of the ledger: it appends at most one record,
    whose [cash_change] is the change of the cash and whose [cash_balance] is
    the new cash, and it touches neither [initial_cash], nor the cost model,
    nor the snapshots. *)
Lemma after_ledger (tm : TradeManager.t) (op : Session.Op) :
  exists new,
    (Session.after tm op).(TradeManager.trade_history)
    = tm.(TradeManager.trade_history) ++ new
    /\ (length new <= 1)%nat
    /\ (Session.after tm op).(TradeManager.cash)
       == tm.(TradeManager.cash) + TradeManager.sum_cash_change new
    /\ Forall (fun r => r.(TradeRecord.cash_balance)
                        = (Session.after tm op).(TradeManager.cash)) new
    /\ (new = [] -> Session.after tm op = tm)
    /\ (Session.after tm op).(TradeManager.initial_cash)
       = tm.(TradeManager.initial_cash)
    /\ (Session.after tm op).(TradeManager.trade_cost)
       = tm.(TradeManager.trade_cost)
    /\ (Session.after tm op).(TradeManager.daily_portfolio_value)
       = tm.(TradeManager.daily_portfolio_value).
Proof.
  assert (Hsame : exists new,
             tm.(TradeManager.trade_history)
             = tm.(TradeManager.trade_history) ++ new
             /\ (length new <= 1)%nat
             /\ tm.(TradeManager.cash)
                == tm.(TradeManager.cash) + TradeManager.sum_cash_change new
             /\ Forall (fun r => r.(TradeRecord.cash_balance)
                                 = tm.(TradeManager.cash)) new
             /\ (new = [] -> tm = tm)
             /\ tm.(TradeManager.initial_cash) = tm.(TradeManager.initial_cash)
             /\ tm.(TradeManager.trade_cost) = tm.(TradeManager.trade_cost)
             /\ tm.(TradeManager.daily_portfolio_value)
                = tm.(TradeManager.daily_portfolio_value)).
  { exists []. rewrite app_nil_r. cbn. repeat split; auto; lra. }
  unfold Session.after.
  destruct op as [date symbol price shares amount allow_partial
                 |date symbol price shares amount percent];
    cbn [Session.call].
  - destruct (buy_cases tm date symbol price shares amount allow_partial)
      as [[e ->]|[->|(n0 & n & Hp & _ & _ & ->)]]; try exact Hsame.
    unfold TradeManager.priced_buy.
    destruct (TradeCost.calculate _ price n) as [[c s] t].
    eexists [_]. unfold TradeManager.sum_cash_change. simpl.
    repeat split; simpl; auto; try lra. discriminate.
  - destruct (sell_cases tm date symbol price shares amount percent)
      as [[e ->]|[->|(position & n & Hp & Hl & _ & _ & ->)]]; try exact Hsame.
    unfold TradeManager.priced_sell.
    destruct (TradeCost.calculate _ price n) as [[c s] t].
    eexists [_]. unfold TradeManager.sum_cash_change. simpl.
    repeat split; simpl; auto; try lra. discriminate.
Qed.

Lemma states_ledger (tm : TradeManager.t) (ops : list Session.Op) (base : Q) :
  tm.(TradeManager.cash)
  == base + TradeManager.sum_cash_change tm.(TradeManager.trade_history) ->
  (forall r, last tm.(TradeManager.trade_history) = Some r ->
             r.(TradeRecord.cash_balance) = tm.(TradeManager.cash)) ->
  Forall
    (fun s =>
       s.(TradeManager.cash)
       == base + TradeManager.sum_cash_change s.(TradeManager.trade_history)
       /\ forall r, last s.(TradeManager.trade_history) = Some r ->
                    r.(TradeRecord.cash_balance) = s.(TradeManager.cash))
    (Session.states tm ops).
Proof.
  revert tm. induction ops as [|op ops IH]; intros tm Hsum Hlast;
    [constructor|].
  cbn [Session.states].
  destruct (after_ledger tm op)
    as (new & Hh & Hlen & Hcash & Hbal & Hnil & _).
  assert (Hsum' : (Session.after tm op).(TradeManager.cash)
                  == base + TradeManager.sum_cash_change
                              (Session.after tm op).(TradeManager.trade_history)).
  { rewrite Hh, sum_cash_change_app, Hcash, Hsum. lra. }
  assert (Hlast' : forall r,
             last (Session.after tm op).(TradeManager.trade_history) = Some r ->
             r.(TradeRecord.cash_balance)
             = (Session.after tm op).(TradeManager.cash)).
  { destruct new as [|r0 [|]]; [| |cbn in Hlen; lia].
    - rewrite (Hnil eq_refl). exact Hlast.
    - intros r Hr. rewrite Hh, last_snoc in Hr. injection Hr as <-.
      inversion Hbal. assumption. }
  constructor; [split; assumption|]. apply IH; assumption.
Qed.

(** X2.  Along every sequence of [buy] and [sell] calls the cash is the
    starting cash plus the [cash_change] of every record appended: after a
    [reset] the cash is the sum of [cash_change] over the whole history, the
    INIT record included; from a new manager it is [initial_cash] plus that
    sum.  And the last record's [cash_balance] is the current cash. *)
Theorem cash_reconciles_with_history
    (initial_cash : Q) (trade_cost : option TradeCost.t)
    (tm : TradeManager.t) (now : Z) (ops : list Session.Op) :
  Forall
    (fun s =>
       s.(TradeManager.cash)
       == TradeManager.sum_cash_change s.(TradeManager.trade_history)
       /\ forall r, last s.(TradeManager.trade_history) = Some r ->
                    r.(TradeRecord.cash_balance) = s.(TradeManager.cash))
    (Session.states (TradeManager.reset tm now) ops)
  /\ Forall
       (fun s =>
          s.(TradeManager.cash)
          == initial_cash
             + TradeManager.sum_cash_change s.(TradeManager.trade_history)
          /\ forall r, last s.(TradeManager.trade_history) = Some r ->
                       r.(TradeRecord.cash_balance) = s.(TradeManager.cash))
       (Session.states (TradeManager.init initial_cash trade_cost) ops).
Proof.
  split.
  - assert (H := states_ledger (TradeManager.reset tm now) ops 0).
    eapply Forall_impl; [apply H|].
    + cbn. lra.
    + intros r [= <-]. reflexivity.
    + cbn beta. intros s [Hs Hl]. split; [rewrite Hs; lra|exact Hl].
  - apply states_ledger.
    + cbn. lra.
    + intros r Hr. discriminate Hr.
Qed.

(** ** The history only grows *)

Lemma states_prefix (tm : TradeManager.t) (ops : list Session.Op) :
  Forall
    (fun s => tm.(TradeManager.trade_history)
              `prefix_of` s.(TradeManager.trade_history))
    (Session.states tm ops).
Proof.
  revert tm. induction ops as [|op ops IH]; intro tm; [constructor|].
  cbn [Session.states].
  destruct (after_ledger tm op) as (new & Hh & _).
  assert (Hp : tm.(TradeManager.trade_history)
               `prefix_of` (Session.after tm op).(TradeManager.trade_history))
    by (exists new; exact Hh).
  constructor; [exact Hp|].
  eapply Forall_impl; [apply IH|].
  cbn beta. intros s Hs. etransitivity; eassumption.
Qed.

(** ** What a call returns is what it records *)

Lemma sell_unfold (tm : TradeManager.t) (date : Z) (symbol : string)
    (price : Q) (shares amount percent : option Q) (position : Position.t) :
  0 < price ->
  tm.(TradeManager.positions) !! symbol = Some position ->
  ~ position.(Position.shares) == 0 ->
  TradeManager.sell tm date symbol price shares amount percent
  = (s <- TradeManager.sell_size price position shares amount percent ;;
     Py.Return
       (Some (fst (TradeManager.priced_sell tm date symbol price position
                     (Py.min s position.(Position.shares)))),
        snd (TradeManager.priced_sell tm date symbol price position
               (Py.min s position.(Position.shares))))).
Proof.
  intros Hp Hl Hh. unfold TradeManager.sell, TradeManager.priced_sell.
  apply le_false in Hp. apply eq_false in Hh. rewrite Hp, Hl, Hh.
  fold (TradeManager.sell_size price position shares amount percent).
  destruct (TradeManager.sell_size price position shares amount percent)
    as [e|s]; [reflexivity|].
  cbn [Py.bind].
  destruct (TradeCost.calculate _ price _) as [[c sl] t]. reflexivity.
Qed.

Lemma priced_buy_record (tm : TradeManager.t) (date : Z) (symbol : string)
    (price n : Q) :
  fst (TradeManager.priced_buy tm date symbol price n)
  = TradeRecord.mk date symbol BUY price n
      (fst (fst (TradeCost.calculate tm.(TradeManager.trade_cost) price n)))
      (snd (fst (TradeCost.calculate tm.(TradeManager.trade_cost) price n)))
      (snd (TradeCost.calculate tm.(TradeManager.trade_cost) price n))
      (- (price * n
          + snd (TradeCost.calculate tm.(TradeManager.trade_cost) price n)))
      (tm.(TradeManager.cash)
       - (price * n
          + snd (TradeCost.calculate tm.(TradeManager.trade_cost) price n))).
Proof.
  unfold TradeManager.priced_buy.
  destruct (TradeCost.calculate _ price n) as [[c s] t]. reflexivity.
Qed.

Lemma priced_buy_state (tm : TradeManager.t) (date : Z) (symbol : string)
    (price n : Q) :
  snd (TradeManager.priced_buy tm date symbol price n)
  = TradeManager.mk tm.(TradeManager.initial_cash)
      (tm.(TradeManager.cash)
       - (price * n
          + snd (TradeCost.calculate tm.(TradeManager.trade_cost) price n)))
      tm.(TradeManager.trade_cost)
      (<[symbol := Position.add (TradeManager.get_position tm symbol) n price]>
         tm.(TradeManager.positions))
      (tm.(TradeManager.trade_history)
         ++ [fst (TradeManager.priced_buy tm date symbol price n)])
      tm.(TradeManager.daily_portfolio_value).
Proof.
  unfold TradeManager.priced_buy.
  destruct (TradeCost.calculate _ price n) as [[c s] t]. reflexivity.
Qed.

Lemma priced_sell_record (tm : TradeManager.t) (date : Z) (symbol : string)
    (price : Q) (position : Position.t) (n : Q) :
  fst (TradeManager.priced_sell tm date symbol price position n)
  = TradeRecord.mk date symbol SELL price n
      (fst (fst (TradeCost.calculate tm.(TradeManager.trade_cost) price n)))
      (snd (fst (TradeCost.calculate tm.(TradeManager.trade_cost) price n)))
      (snd (TradeCost.calculate tm.(TradeManager.trade_cost) price n))
      (price * n
       - snd (TradeCost.calculate tm.(TradeManager.trade_cost) price n))
      (tm.(TradeManager.cash)
       + (price * n
          - snd (TradeCost.calculate tm.(TradeManager.trade_cost) price n))).
Proof.
  unfold TradeManager.priced_sell.
  destruct (TradeCost.calculate _ price n) as [[c s] t]. reflexivity.
Qed.

Lemma priced_sell_state (tm : TradeManager.t) (date : Z) (symbol : string)
    (price : Q) (position : Position.t) (n : Q) :
  snd (TradeManager.priced_sell tm date symbol price position n)
  = TradeManager.mk tm.(TradeManager.initial_cash)
      (tm.(TradeManager.cash)
       + (price * n
          - snd (TradeCost.calculate tm.(TradeManager.trade_cost) price n)))
      tm.(TradeManager.trade_cost)
      (<[symbol := fst (Position.remove position n)]>
         tm.(TradeManager.positions))
      (tm.(TradeManager.trade_history)
         ++ [fst (TradeManager.priced_sell tm date symbol price position n)])
      tm.(TradeManager.daily_portfolio_value).
Proof.
  unfold TradeManager.priced_sell.
  destruct (TradeCost.calculate _ price n) as [[c s] t]. reflexivity.
Qed.

(** What a returning [buy] or [sell] leaves behind. *)
Lemma call_outcome (tm : TradeManager.t) (op : Session.Op)
    (o : option TradeRecord.t) (tm' : TradeManager.t) :
  Session.call tm op = Py.Return (o, tm') ->
  match o with
  | None => tm' = tm
  | Some r =>
    tm'.(TradeManager.trade_history) = tm.(TradeManager.trade_history) ++ [r]
    /\ tm'.(TradeManager.cash)
       == tm.(TradeManager.cash) + r.(TradeRecord.cash_change)
    /\ r.(TradeRecord.cash_balance) = tm'.(TradeManager.cash)
    /\ (r.(TradeRecord.commission), r.(TradeRecord.slippage),
        r.(TradeRecord.total_cost))
       = TradeCost.calculate tm.(TradeManager.trade_cost)
           r.(TradeRecord.price) r.(TradeRecord.shares)
    /\ tm'.(TradeManager.initial_cash) = tm.(TradeManager.initial_cash)
    /\ tm'.(TradeManager.trade_cost) = tm.(TradeManager.trade_cost)
    /\ tm'.(TradeManager.daily_portfolio_value)
       = tm.(TradeManager.daily_portfolio_value)
    /\ match op with
       | Session.Buy date symbol price _ _ _ =>
         r.(TradeRecord.trade_type) = BUY
         /\ r.(TradeRecord.date) = date
         /\ r.(TradeRecord.symbol) = symbol
         /\ r.(TradeRecord.price) = price
         /\ r.(TradeRecord.cash_change)
            = - (price * r.(TradeRecord.shares) + r.(TradeRecord.total_cost))
       | Session.Sell date symbol price _ _ _ =>
         r.(TradeRecord.trade_type) = SELL
         /\ r.(TradeRecord.date) = date
         /\ r.(TradeRecord.symbol) = symbol
         /\ r.(TradeRecord.price) = price
         /\ r.(TradeRecord.cash_change)
            = price * r.(TradeRecord.shares) - r.(TradeRecord.total_cost)
       end
  end.
Proof.
  intro Hcall.
  destruct op as [date symbol price shares amount allow_partial
                 |date symbol price shares amount percent];
    cbn [Session.call] in Hcall.
  - destruct (buy_cases tm date symbol price shares amount allow_partial)
      as [[e He]|[Hn|(n0 & n & Hp & _ & _ & Hb)]].
    + rewrite He in Hcall. discriminate Hcall.
    + rewrite Hn in Hcall. injection Hcall as <- <-. reflexivity.
    + rewrite Hb in Hcall. injection Hcall as <- <-.
      unfold TradeCost.calculate. simpl.
      repeat split; try reflexivity; lra.
  - destruct (sell_cases tm date symbol price shares amount percent)
      as [[e He]|[Hn|(position & n & Hp & Hl & _ & _ & Hs)]].
    + rewrite He in Hcall. discriminate Hcall.
    + rewrite Hn in Hcall. injection Hcall as <- <-. reflexivity.
    + rewrite Hs in Hcall. injection Hcall as <- <-.
      unfold TradeCost.calculate. simpl.
      repeat split; try reflexivity; lra.
Qed.

(** X3.  A call is recorded whole or not at all.  When [buy] or [sell]
    returns a record, the manager has exactly that record appended; the
    record carries the call's date, symbol and price and the costs
    [calculate] gives for its share count; its [cash_change] is minus the
    spend for a buy and the proceeds less the cost for a sell; the new cash
    is the old cash plus [cash_change] and is the record's [cash_balance];
    [initial_cash], the cost model and the snapshots are untouched.  When the
    call returns [None] the manager is unchanged. *)
Theorem call_recorded_whole (tm : TradeManager.t) (op : Session.Op)
    (o : option TradeRecord.t) (tm' : TradeManager.t) :
  Session.call tm op = Py.Return (o, tm') ->
  match o with
  | None => tm' = tm
  | Some r =>
    tm'.(TradeManager.trade_history) = tm.(TradeManager.trade_history) ++ [r]
    /\ tm'.(TradeManager.cash)
       == tm.(TradeManager.cash) + r.(TradeRecord.cash_change)
    /\ r.(TradeRecord.cash_balance) = tm'.(TradeManager.cash)
    /\ (r.(TradeRecord.commission), r.(TradeRecord.slippage),
        r.(TradeRecord.total_cost))
       = TradeCost.calculate tm.(TradeManager.trade_cost)
           r.(TradeRecord.price) r.(TradeRecord.shares)
    /\ tm'.(TradeManager.initial_cash) = tm.(TradeManager.initial_cash)
    /\ tm'.(TradeManager.trade_cost) = tm.(TradeManager.trade_cost)
    /\ tm'.(TradeManager.daily_portfolio_value)
       = tm.(TradeManager.daily_portfolio_value)
    /\ match op with
       | Session.Buy date symbol price _ _ _ =>
         r.(TradeRecord.trade_type) = BUY
         /\ r.(TradeRecord.date) = date
         /\ r.(TradeRecord.symbol) = symbol
         /\ r.(TradeRecord.price) = price
         /\ r.(TradeRecord.cash_change)
            = - (price * r.(TradeRecord.shares) + r.(TradeRecord.total_cost))
       | Session.Sell date symbol price _ _ _ =>
         r.(TradeRecord.trade_type) = SELL
         /\ r.(TradeRecord.date) = date
         /\ r.(TradeRecord.symbol) = symbol
         /\ r.(TradeRecord.price) = price
         /\ r.(TradeRecord.cash_change)
            = price * r.(TradeRecord.shares) - r.(TradeRecord.total_cost)
       end
  end.
Proof.
  exact (call_outcome tm op o tm').
Qed.

Lemma call_recorded_whole_witness :
  Examples.holding_default.(TradeManager.trade_history)
  = (TradeManager.init 100000 None).(TradeManager.trade_history)
    ++ [fst (TradeManager.priced_buy (TradeManager.init 100000 None)
               0 "X" 10 100)]
  /\ Examples.holding_default.(TradeManager.cash)
     == 100000 - (10051 # 10).
Proof.
  assert (Hcall : Session.call (TradeManager.init 100000 None)
                    (Session.Buy 0 "X" 10 (Some 100) None true)
                  = Py.Return
                      (Some (fst (TradeManager.priced_buy
                                    (TradeManager.init 100000 None)
                                    0 "X" 10 100)),
                       Examples.holding_default)).
  { apply buy_commits; [reflexivity|reflexivity|vm_compute; discriminate]. }
  destruct (call_recorded_whole _ _ _ _ Hcall) as (Hh & Hc & _).
  split; [exact Hh|]. rewrite Hc. vm_compute. reflexivity.
Defined.

(** ** Where the cash can go below zero *)

(** One call from a non-negative cash: the cash after it is negative only
    if the call committed a record by one of the two unchecked updates. *)
Lemma overdraft_step (tm : TradeManager.t) (op : Session.Op) :
  0 <= tm.(TradeManager.cash) ->
  (Session.after tm op).(TradeManager.cash) < 0 ->
  exists r,
    Session.call tm op = Py.Return (Some r, Session.after tm op)
    /\ Session.unchecked tm op r.
Proof.
  intros Hcash Hneg. unfold Session.after in *.
  destruct op as [date symbol price shares amount allow_partial
                 |date symbol price shares amount percent];
    cbn [Session.call Session.unchecked] in *.
  - destruct (buy_cases tm date symbol price shares amount allow_partial)
      as [[e He]|[Hn|(n0 & n & Hp & Hreq & Hfill & Hb)]].
    + rewrite He in Hneg. lra.
    + rewrite Hn in Hneg. cbn in Hneg. lra.
    + rewrite Hb in *. cbn [snd] in Hneg. rewrite priced_buy_cash in Hneg.
      destruct Hfill as [[-> Hok]|(Hshort & Hpartial & Hmax & Hnz)]; [lra|].
      eexists. split; [reflexivity|].
      rewrite priced_buy_record.
      cbn [TradeRecord.shares TradeRecord.total_cost].
      split; [exact Hpartial|]. split; [exists n0; auto|].
      split; [exact Hmax|lra].
  - destruct (TradeManager.sell tm date symbol price shares amount percent)
      as [e|[o tm']] eqn:Hsell; [lra|].
    cbn [snd] in Hneg.
    pose proof (call_outcome tm
                  (Session.Sell date symbol price shares amount percent)
                  o tm' Hsell) as Hout.
    destruct o as [r|]; [|subst tm'; lra].
    destruct Hout as (_ & Hc & _ & _ & _ & _ & _ & _ & _ & _ & _ & Hchg).
    exists r. split; [reflexivity|].
    rewrite Hc, Hchg in Hneg. lra.
Qed.

(** C1, as the code has it: from a cash that is not negative, along
    every sequence of [buy] and [sell] calls, the cash is negative after a
    call only if that call or an earlier one, found with a cash that was
    not negative, committed a record by one of the two updates no check
    stands before: a buy with [allow_partial] whose requested order failed
    the cash check and was filled at the re-sized lot, its re-priced spend
    above the cash; or a sell whose total cost is above its proceeds.  Every
    other call keeps the cash from going negative; so does, in particular,
    every sequence of buys with [allow_partial=False]. *)
Theorem cash_negative_only_unchecked (tm0 : TradeManager.t)
    (ops : list Session.Op) :
  0 <= tm0.(TradeManager.cash) ->
  (forall i s,
      Session.states tm0 ops !! i = Some s ->
      s.(TradeManager.cash) < 0 ->
      exists j tm op r,
        (j <= i)%nat
        /\ Session.steps tm0 ops !! j = Some (tm, op)
        /\ 0 <= tm.(TradeManager.cash)
        /\ Session.call tm op = Py.Return (Some r, Session.after tm op)
        /\ (Session.after tm op).(TradeManager.cash) < 0
        /\ Session.unchecked tm op r)
  /\ (Forall
        (fun op =>
           exists date symbol price shares amount,
             op = Session.Buy date symbol price shares amount false)
        ops ->
      Forall (fun s => 0 <= s.(TradeManager.cash))
             (Session.states tm0 ops)).
Proof.
  intro Hcash. split.
  - revert tm0 Hcash. induction ops as [|op ops IH]; intros tm0 Hcash i s Hs Hneg.
    + destruct i; discriminate Hs.
    + cbn [Session.states Session.steps] in *.
      destruct (Qlt_le_dec (Session.after tm0 op).(TradeManager.cash) 0)
        as [Hlow|Hok].
      * destruct (overdraft_step tm0 op Hcash Hlow) as (r & Hcall & Hun).
        exists 0%nat, tm0, op, r.
        split; [lia|]. split; [reflexivity|]. auto.
      * destruct i as [|i].
        -- cbn in Hs. injection Hs as <-. lra.
        -- cbn in Hs.
           destruct (IH (Session.after tm0 op) Hok i s Hs Hneg)
             as (j & tm & op' & r & Hj & Hstep & H0 & Hcall & Hlow & Hun).
           exists (S j), tm, op', r.
           split; [lia|]. split; [exact Hstep|]. auto.
  - intro Hall. revert tm0 Hcash.
    induction Hall as [|op ops Hop _ IH]; intros tm0 Hcash.
    + constructor.
    + cbn [Session.states].
      assert (Hok : 0 <= (Session.after tm0 op).(TradeManager.cash)).
      { destruct (Qlt_le_dec (Session.after tm0 op).(TradeManager.cash) 0)
          as [Hlow|Hok]; [|exact Hok].
        destruct (overdraft_step tm0 op Hcash Hlow) as (r & _ & Hun).
        destruct Hop as (date & symbol & price & shares & amount & ->).
        destruct Hun as [Hpartial _]. discriminate Hpartial. }
      constructor; [exact Hok|]. apply IH. exact Hok.
Qed.

Lemma cash_negative_only_unchecked_witness :
  exists j tm op r,
    (j <= 1)%nat
    /\ Session.steps (TradeManager.init 1006 None)
         [Session.Buy 0 "X" 10 (Some 100) None true;
          Session.Sell 1 "X" 4 (Some 1) None None] !! j
       = Some (tm, op)
    /\ 0 <= tm.(TradeManager.cash)
    /\ Session.call tm op = Py.Return (Some r, Session.after tm op)
    /\ (Session.after tm op).(TradeManager.cash) < 0
    /\ Session.unchecked tm op r.
Proof.
  assert (H0 : 0 <= (TradeManager.init 1006 None).(TradeManager.cash))
    by discriminate.
  apply (proj1 (cash_negative_only_unchecked (TradeManager.init 1006 None)
                  [Session.Buy 0 "X" 10 (Some 100) None true;
                   Session.Sell 1 "X" 4 (Some 1) None None] H0)
           1%nat
           (Session.after
              (Session.after (TradeManager.init 1006 None)
                 (Session.Buy 0 "X" 10 (Some 100) None true))
              (Session.Sell 1 "X" 4 (Some 1) None None))).
  - reflexivity.
  - vm_compute. reflexivity.
Defined.


(** X4.  The history only grows: along every sequence of calls each
    state's history extends the starting history, and after a [reset] the
    INIT record stays the first entry. *)
Theorem history_only_grows (tm : TradeManager.t) (now : Z)
    (ops : list Session.Op) :
  Forall
    (fun s => tm.(TradeManager.trade_history)
              `prefix_of` s.(TradeManager.trade_history))
    (Session.states tm ops)
  /\ Forall
       (fun s => head s.(TradeManager.trade_history)
                 = Some (TradeManager.init_record tm now))
       (Session.states (TradeManager.reset tm now) ops).
Proof.
  split; [apply states_prefix|].
  eapply Forall_impl; [apply (states_prefix (TradeManager.reset tm now))|].
  cbn beta. intros s [k Hk]. rewrite Hk. reflexivity.
Qed.

(** ** When [buy] and [sell] raise *)

Lemma requested_none (price : Q) (shares amount : option Q)
    (allow_partial : bool) :
  TradeManager.requested_shares price shares amount allow_partial = None
  <-> shares = None /\ amount = None.
Proof.
  unfold TradeManager.requested_shares.
  destruct shares, amount; split; try discriminate; try tauto;
    intros [? ?]; discriminate.
Qed.

Lemma buy_short_raises (tm : TradeManager.t) (date : Z) (symbol : string)
    (price : Q) (shares amount : option Q) (n : Q) (e : Py.exn) :
  0 < price ->
  TradeManager.requested_shares price shares amount true = Some n ->
  tm.(TradeManager.cash)
  < price * n + snd (TradeCost.calculate tm.(TradeManager.trade_cost) price n) ->
  TradeManager.max_affordable tm price = Py.Raise e ->
  TradeManager.buy tm date symbol price shares amount true = Py.Raise e.
Proof.
  intros Ep Hreq Hshort Hmax. unfold TradeManager.buy.
  apply le_false in Ep. rewrite Ep, Hreq.
  destruct (TradeCost.calculate _ price n) as [[c s] t].
  cbn [snd] in Hshort. apply lt_true in Hshort. rewrite Hshort.
  cbn [negb]. rewrite Hmax. reflexivity.
Qed.

Lemma buy_short_no_partial (tm : TradeManager.t) (date : Z) (symbol : string)
    (price : Q) (shares amount : option Q) (n : Q) :
  0 < price ->
  TradeManager.requested_shares price shares amount false = Some n ->
  tm.(TradeManager.cash)
  < price * n + snd (TradeCost.calculate tm.(TradeManager.trade_cost) price n) ->
  TradeManager.buy tm date symbol price shares amount false
  = Py.Return (None, tm).
Proof.
  intros Ep Hreq Hshort. unfold TradeManager.buy.
  apply le_false in Ep. rewrite Ep, Hreq.
  destruct (TradeCost.calculate _ price n) as [[c s] t].
  cbn [snd] in Hshort. apply lt_true in Hshort. rewrite Hshort.
  reflexivity.
Qed.

Lemma max_affordable_raises (tm : TradeManager.t) (price : Q) (e : Py.exn) :
  TradeManager.max_affordable tm price = Py.Raise e
  <-> e = Py.ZeroDivisionError
      /\ price * (1 + tm.(TradeManager.trade_cost).(TradeCost.commission_rate)
                    + tm.(TradeManager.trade_cost).(TradeCost.slippage_rate))
         == 0.
Proof.
  unfold TradeManager.max_affordable, Py.div.
  destruct (Py.eq _ 0) eqn:Ed; cbn [Py.bind].
  - apply eq_true in Ed. split.
    + intros [= <-]. split; [reflexivity|exact Ed].
    + intros [-> _]. reflexivity.
  - apply eq_false in Ed. split; [discriminate|].
    intros [_ H]. contradiction.
Qed.

(** The ways [buy] raises. *)
Lemma buy_raise_cases (tm : TradeManager.t) (date : Z) (symbol : string)
    (price : Q) (shares amount : option Q) (allow_partial : bool)
    (e : Py.exn) :
  TradeManager.buy tm date symbol price shares amount allow_partial
  = Py.Raise e
  <-> (e = Py.ValueError
       /\ (price <= 0 \/ (shares = None /\ amount = None)))
      \/ (e = Py.ZeroDivisionError
          /\ 0 < price
          /\ allow_partial = true
          /\ price * (1 + tm.(TradeManager.trade_cost).(TradeCost.commission_rate)
                        + tm.(TradeManager.trade_cost).(TradeCost.slippage_rate))
             == 0
          /\ exists n,
               TradeManager.requested_shares price shares amount allow_partial
               = Some n
               /\ tm.(TradeManager.cash)
                  < price * n
                    + snd (TradeCost.calculate tm.(TradeManager.trade_cost)
                             price n)).
Proof.
  destruct (Py.le price 0) eqn:Ep.
  { unfold TradeManager.buy. rewrite Ep. apply le_true in Ep. split.
    - intros [= <-]. left. split; [reflexivity|left; exact Ep].
    - intros [[-> _]|(_ & Hp & _)]; [reflexivity|lra]. }
  destruct (TradeManager.requested_shares price shares amount allow_partial)
    as [n|] eqn:Hreq.
  2:{ unfold TradeManager.buy. rewrite Ep, Hreq.
      apply requested_none in Hreq. split.
      - intros [= <-]. left. split; [reflexivity|right; exact Hreq].
      - intros [[-> _]|(_ & _ & _ & _ & n & Hn & _)]; [reflexivity|].
        destruct Hreq as [-> ->]. discriminate Hn. }
  apply le_false in Ep.
  assert (Hsome : ~ (shares = None /\ amount = None)).
  { intro H. apply (requested_none price shares amount allow_partial) in H.
    congruence. }
  assert (Hval : ~ (e = Py.ValueError
                    /\ (price <= 0 \/ (shares = None /\ amount = None)))).
  { intros [_ [H|H]]; [lra|contradiction]. }
  destruct (Qlt_le_dec tm.(TradeManager.cash)
              (price * n
               + snd (TradeCost.calculate tm.(TradeManager.trade_cost) price n)))
    as [Hshort|Hfull].
  2:{ rewrite (buy_commits tm date symbol price shares amount allow_partial n
                 Ep Hreq Hfull).
      split; [discriminate|].
      intros [H|(_ & _ & _ & _ & n' & Hn' & Hlt)]; [contradiction|].
      assert (n' = n) by congruence. subst n'. lra. }
  destruct allow_partial.
  2:{ rewrite (buy_short_no_partial tm date symbol price shares amount n
                 Ep Hreq Hshort).
      split; [discriminate|].
      intros [H|(_ & _ & H & _)]; [contradiction|discriminate H]. }
  destruct (TradeManager.max_affordable tm price) as [e'|m] eqn:Hmax.
  - rewrite (buy_short_raises tm date symbol price shares amount n e'
               Ep Hreq Hshort Hmax).
    apply max_affordable_raises in Hmax as [-> Hd]. split.
    + intros [= <-]. right. repeat split; try assumption.
      exists n. split; [reflexivity|exact Hshort].
    + intros [H|(-> & _)]; [contradiction|reflexivity].
  - rewrite (buy_short_of_cash tm date symbol price shares amount n m
               Ep Hreq Hshort Hmax).
    assert (Hnz : ~ price * (1 + tm.(TradeManager.trade_cost).(TradeCost.commission_rate)
                               + tm.(TradeManager.trade_cost).(TradeCost.slippage_rate))
                    == 0).
    { intro Hd.
      assert (Hr : TradeManager.max_affordable tm price
                   = Py.Raise Py.ZeroDivisionError)
        by (apply max_affordable_raises; split; [reflexivity|exact Hd]).
      congruence. }
    destruct (Py.eq m 0); (split; [discriminate|]);
      intros [H|(_ & _ & _ & H & _)]; contradiction.
Qed.

(** X5.  With finite numbers within float range and a cost model whose
    rates are not negative, [buy] raises in exactly two cases, both with
    [ValueError]: the price is not positive, or neither [shares] nor
    [amount] is given.  (Outside these provisos the source can raise more:
    [int] raises OverflowError on a quotient that overflowed, and with a
    negative rate the division behind the re-sized lot can raise
    ZeroDivisionError.) *)
Theorem buy_raises_iff (tm : TradeManager.t) (date : Z) (symbol : string)
    (price : Q) (shares amount : option Q) (allow_partial : bool)
    (e : Py.exn) :
  0 <= tm.(TradeManager.trade_cost).(TradeCost.commission_rate) ->
  0 <= tm.(TradeManager.trade_cost).(TradeCost.slippage_rate) ->
  TradeManager.buy_in_range tm price shares amount ->
  (TradeManager.buy tm date symbol price shares amount allow_partial
   = Py.Raise e
   <-> e = Py.ValueError
       /\ (price <= 0 \/ (shares = None /\ amount = None))).
Proof.
  intros Hcr Hsr _. rewrite buy_raise_cases. split.
  - intros [H|(_ & Hp & _ & Hd & _)]; [exact H|].
    exfalso.
    assert (0 < price
                * (1 + tm.(TradeManager.trade_cost).(TradeCost.commission_rate)
                     + tm.(TradeManager.trade_cost).(TradeCost.slippage_rate)))
      by (apply Qmult_lt_0_compat; lra).
    lra.
  - intro H. left. exact H.
Qed.

Lemma buy_raises_iff_witness :
  TradeManager.buy (TradeManager.init 100000 None) 0 "X" 10 None None true
  = Py.Raise Py.ValueError.
Proof.
  apply (buy_raises_iff (TradeManager.init 100000 None) 0 "X" 10 None None
           true Py.ValueError).
  - discriminate.
  - discriminate.
  - repeat split; vm_compute; discriminate.
  - split; [reflexivity|]. right. split; reflexivity.
Defined.

(** [sell] on a symbol with nothing held. *)
Lemma sell_nothing_held (tm : TradeManager.t) (date : Z)
    (symbol : string) (price : Q) (shares amount percent : option Q) :
  0 < price ->
  (forall p, tm.(TradeManager.positions) !! symbol = Some p ->
             p.(Position.shares) == 0) ->
  TradeManager.sell tm date symbol price shares amount percent
  = Py.Return (None, tm).
Proof.
  intros Hp Hnone. unfold TradeManager.sell.
  apply le_false in Hp. rewrite Hp.
  destruct (tm.(TradeManager.positions) !! symbol) as [p|] eqn:Hl;
    [|reflexivity].
  assert (E : Py.eq p.(Position.shares) 0 = true)
    by (apply eq_true, Hnone; reflexivity).
  rewrite E. reflexivity.
Qed.

(** X6.  On a symbol that is not held, or is held with zero shares,
    [sell] at a positive price returns [None] and changes nothing, whatever
    the directives, a [percent] outside [0, 1] included. *)
Theorem sell_unheld_is_noop (tm : TradeManager.t) (date : Z)
    (symbol : string) (price : Q) (shares amount percent : option Q) :
  0 < price ->
  (forall p, tm.(TradeManager.positions) !! symbol = Some p ->
             p.(Position.shares) == 0) ->
  TradeManager.sell tm date symbol price shares amount percent
  = Py.Return (None, tm).
Proof.
  exact (sell_nothing_held tm date symbol price shares amount percent).
Qed.

Lemma sell_unheld_is_noop_witness :
  TradeManager.sell (TradeManager.init 100000 None) 0 "X" 10 None None
    (Some 2)
  = Py.Return (None, TradeManager.init 100000 None).
Proof.
  apply (sell_unheld_is_noop (TradeManager.init 100000 None) 0 "X" 10).
  - reflexivity.
  - intros p Hl. vm_compute in Hl. discriminate Hl.
Defined.

(** The ways [sell] raises. *)
Lemma sell_raise_cases (tm : TradeManager.t) (date : Z) (symbol : string)
    (price : Q) (shares amount percent : option Q) (e : Py.exn) :
  TradeManager.sell tm date symbol price shares amount percent = Py.Raise e
  <-> e = Py.ValueError
      /\ (price <= 0
          \/ exists position pc,
               tm.(TradeManager.positions) !! symbol = Some position
               /\ ~ position.(Position.shares) == 0
               /\ shares = None /\ amount = None /\ percent = Some pc
               /\ (pc < 0 \/ 1 < pc)).
Proof.
  destruct (Py.le price 0) eqn:Ep.
  { unfold TradeManager.sell. rewrite Ep. apply le_true in Ep. split.
    - intros [= <-]. split; [reflexivity|left; exact Ep].
    - intros [-> _]. reflexivity. }
  apply le_false in Ep.
  destruct (tm.(TradeManager.positions) !! symbol) as [position|] eqn:Hl.
  2:{ unfold TradeManager.sell. apply le_false in Ep. rewrite Ep, Hl.
      apply le_false in Ep.
      split; [discriminate|].
      intros [_ [H|(p & pc & H & _)]]; [lra|discriminate H]. }
  destruct (Py.eq position.(Position.shares) 0) eqn:Eh.
  { unfold TradeManager.sell. apply le_false in Ep. rewrite Ep, Hl, Eh.
    apply le_false in Ep. apply eq_true in Eh.
    split; [discriminate|].
    intros [_ [H|(p & pc & [= <-] & H & _)]]; [lra|contradiction]. }
  apply eq_false in Eh.
  rewrite (sell_unfold tm date symbol price shares amount percent position
             Ep Hl Eh).
  unfold TradeManager.sell_size.
  destruct shares as [s|].
  { cbn [Py.bind]. split; [discriminate|].
    intros [_ [H|(p & pc & _ & _ & H & _)]]; [lra|discriminate H]. }
  destruct amount as [a|].
  { cbn [Py.bind]. split; [discriminate|].
    intros [_ [H|(p & pc & _ & _ & _ & H & _)]]; [lra|discriminate H]. }
  destruct percent as [pc|].
  2:{ cbn [Py.bind]. split; [discriminate|].
      intros [_ [H|(p & pc & _ & _ & _ & _ & H & _)]]; [lra|discriminate H]. }
  destruct (Py.le 0 pc) eqn:E0; destruct (Py.le pc 1) eqn:E1;
    cbn [andb negb Py.bind].
  - apply le_true in E0, E1. split; [discriminate|].
    intros [_ [H|(p & pc' & _ & _ & _ & _ & [= <-] & [H|H])]]; lra.
  - apply le_false in E1. split.
    + intros [= <-]. split; [reflexivity|]. right.
      exists position, pc. repeat split; auto.
    + intros [-> _]. reflexivity.
  - apply le_false in E0. split.
    + intros [= <-]. split; [reflexivity|]. right.
      exists position, pc. repeat split; auto.
    + intros [-> _]. reflexivity.
  - apply le_false in E0. split.
    + intros [= <-]. split; [reflexivity|]. right.
      exists position, pc. repeat split; auto.
    + intros [-> _]. reflexivity.
Qed.

(** X7.  With finite numbers within float range, [sell] raises only
    [ValueError], and exactly when the price is not positive, or when the
    symbol is held with a non-zero share count and [percent] is the only
    directive and lies outside [0, 1].  (Outside the range the source's
    [int] raises OverflowError on a quotient [amount / price] that
    overflowed.) *)
Theorem sell_raises_iff (tm : TradeManager.t) (date : Z) (symbol : string)
    (price : Q) (shares amount percent : option Q) (e : Py.exn) :
  TradeManager.sell_in_range tm price shares amount ->
  (TradeManager.sell tm date symbol price shares amount percent = Py.Raise e
   <-> e = Py.ValueError
       /\ (price <= 0
           \/ exists position pc,
                tm.(TradeManager.positions) !! symbol = Some position
                /\ ~ position.(Position.shares) == 0
                /\ shares = None /\ amount = None /\ percent = Some pc
                /\ (pc < 0 \/ 1 < pc))).
Proof.
  intros _. apply sell_raise_cases.
Qed.

Lemma sell_raises_iff_witness :
  TradeManager.sell Examples.holding_default 1 "X" 10 None None (Some 2)
  = Py.Raise Py.ValueError.
Proof.
  apply (sell_raises_iff Examples.holding_default 1 "X" 10 None None (Some 2)
           Py.ValueError).
  - repeat split; vm_compute; discriminate.
  - split; [reflexivity|]. right.
    exists (TradeManager.get_position Examples.holding_default "X"), 2.
    split; [vm_compute; reflexivity|].
    split; [vm_compute; discriminate|].
    repeat split. right. reflexivity.
Defined.

(** ** How much [sell] takes out of a position *)

Lemma remove_shares (p : Position.t) (n : Q) :
  n <= p.(Position.shares) ->
  (0 < n ->
   (fst (Position.remove p n)).(Position.shares) = p.(Position.shares) - n)
  /\ (n <= 0 -> fst (Position.remove p n) = p).
Proof.
  intro Hle. unfold Position.remove. split; intro Hn.
  - assert (E : Py.le n 0 = false) by (apply le_false; exact Hn).
    rewrite E, (min_eq_l n) by exact Hle.
    destruct (Py.eq _ 0); reflexivity.
  - assert (E : Py.le n 0 = true) by (apply le_true; exact Hn).
    rewrite E. reflexivity.
Qed.

(** X8.  [sell] never takes more than is held.  When it returns a
    record the symbol was held, the record's share count is at most the
    holding, the holding afterwards is the holding before less the shares
    sold (unchanged when the count sold is not positive), and no other
    symbol's position is touched. *)
Theorem sell_clamped_to_holding (tm : TradeManager.t) (date : Z)
    (symbol : string) (price : Q) (shares amount percent : option Q)
    (r : TradeRecord.t) (tm' : TradeManager.t) :
  TradeManager.sell tm date symbol price shares amount percent
  = Py.Return (Some r, tm') ->
  exists position position',
    tm.(TradeManager.positions) !! symbol = Some position
    /\ tm'.(TradeManager.positions) !! symbol = Some position'
    /\ r.(TradeRecord.shares) <= position.(Position.shares)
    /\ (0 < r.(TradeRecord.shares) ->
        position'.(Position.shares)
        = position.(Position.shares) - r.(TradeRecord.shares))
    /\ (r.(TradeRecord.shares) <= 0 -> position' = position)
    /\ (forall k, k <> symbol ->
                  tm'.(TradeManager.positions) !! k
                  = tm.(TradeManager.positions) !! k).
Proof.
  intro Hsell.
  destruct (sell_cases tm date symbol price shares amount percent)
    as [[e He]|[Hn|(position & n & Hp & Hl & _ & Hle & Hs)]].
  - rewrite He in Hsell. discriminate Hsell.
  - rewrite Hn in Hsell. discriminate Hsell.
  - rewrite Hs in Hsell.
    assert (Hr : fst (TradeManager.priced_sell tm date symbol price position n)
                 = r) by congruence.
    assert (Htm : snd (TradeManager.priced_sell tm date symbol price position n)
                  = tm') by congruence.
    rewrite priced_sell_record in Hr. rewrite priced_sell_state in Htm.
    subst r tm'. cbn [TradeRecord.shares TradeManager.positions].
    exists position, (fst (Position.remove position n)).
    destruct (remove_shares position n Hle) as [Hpos Hneg].
    split; [exact Hl|]. split; [apply lookup_insert_eq|].
    split; [exact Hle|]. split; [exact Hpos|]. split; [exact Hneg|].
    intros k Hk. apply lookup_insert_ne. congruence.
Qed.

Lemma sell_clamped_to_holding_witness :
  exists position position',
    Examples.holding_default.(TradeManager.positions) !! "X"
    = Some position
    /\ (snd (TradeManager.priced_sell Examples.holding_default 1 "X" 10
               (TradeManager.get_position Examples.holding_default "X") 100))
         .(TradeManager.positions) !! "X"
       = Some position'
    /\ position'.(Position.shares) == 0.
Proof.
  assert (Hsell :
            TradeManager.sell Examples.holding_default 1 "X" 10 (Some 500)
              None None
            = Py.Return
                (Some (fst (TradeManager.priced_sell Examples.holding_default
                              1 "X" 10
                              (TradeManager.get_position
                                 Examples.holding_default "X") 100)),
                 snd (TradeManager.priced_sell Examples.holding_default
                        1 "X" 10
                        (TradeManager.get_position
                           Examples.holding_default "X") 100))).
  { vm_compute. reflexivity. }
  destruct (sell_clamped_to_holding _ _ _ _ _ _ _ _ _ Hsell)
    as (position & position' & Hl & Hl' & _ & Hpos & _).
  exists position, position'. split; [exact Hl|]. split; [exact Hl'|].
  rewrite Hpos by (vm_compute; reflexivity).
  vm_compute in Hl. injection Hl as <-. vm_compute. reflexivity.
Defined.

(** Selling the whole holding. *)
Lemma sell_whole_holding (tm : TradeManager.t) (date : Z)
    (symbol : string) (price : Q) (shares amount percent : option Q)
    (position : Position.t) (s : Q) :
  0 < price ->
  tm.(TradeManager.positions) !! symbol = Some position ->
  0 < position.(Position.shares) ->
  TradeManager.sell_size price position shares amount percent = Py.Return s ->
  position.(Position.shares) <= s ->
  exists r tm' position',
    TradeManager.sell tm date symbol price shares amount percent
    = Py.Return (Some r, tm')
    /\ r.(TradeRecord.shares) == position.(Position.shares)
    /\ tm'.(TradeManager.positions) !! symbol = Some position'
    /\ position'.(Position.shares) == 0
    /\ position'.(Position.avg_price) = 0
    /\ position'.(Position.cost_basis) = 0
    /\ forall date' price' shares' amount' percent',
         0 < price' ->
         TradeManager.sell tm' date' symbol price' shares' amount' percent'
         = Py.Return (None, tm').
Proof.
  intros Hp Hl Hheld Hsize Hs.
  assert (Hne : ~ position.(Position.shares) == 0) by lra.
  rewrite (sell_unfold tm date symbol price shares amount percent position
             Hp Hl Hne), Hsize.
  cbn [Py.bind].
  set (n := Py.min s position.(Position.shares)).
  assert (Hn : n == position.(Position.shares))
    by (apply min_eq_r; exact Hs).
  assert (Hrem : (fst (Position.remove position n)).(Position.shares) == 0
                 /\ (fst (Position.remove position n)).(Position.avg_price) = 0
                 /\ (fst (Position.remove position n)).(Position.cost_basis) = 0).
  { unfold Position.remove.
    assert (E1 : Py.le n 0 = false) by (apply le_false; lra).
    assert (E2 : Py.min n position.(Position.shares) = n)
      by (apply min_eq_l; lra).
    assert (E3 : Py.eq (position.(Position.shares) - n) 0 = true)
      by (apply eq_true; lra).
    rewrite E1, E2, E3. cbn. repeat split. lra. }
  destruct Hrem as (H0 & Havg & Hcb).
  eexists. eexists. exists (fst (Position.remove position n)).
  split; [reflexivity|].
  rewrite priced_sell_record, priced_sell_state.
  cbn [TradeRecord.shares TradeManager.positions].
  split; [exact Hn|]. split; [apply lookup_insert_eq|].
  split; [exact H0|]. split; [exact Havg|]. split; [exact Hcb|].
  intros date' price' shares' amount' percent' Hp'.
  apply sell_nothing_held; [exact Hp'|].
  cbn [TradeManager.positions]. intros p. rewrite lookup_insert_eq.
  intros [= <-]. exact H0.
Qed.

(** X9.  Selling everything empties the position for good.  On a
    holding of more than zero shares, a [sell] at a positive
    price whose directives resolve to the holding or more (no directive at
    all, or an explicit count of at least the holding) records the whole
    holding and leaves the position with zero shares, zero average price and
    zero cost basis; any further [sell] of the symbol at a positive price
    then returns [None] and changes nothing. *)
Theorem sell_everything_empties (tm : TradeManager.t) (date : Z)
    (symbol : string) (price : Q) (shares amount percent : option Q)
    (position : Position.t) (s : Q) :
  0 < price ->
  tm.(TradeManager.positions) !! symbol = Some position ->
  0 < position.(Position.shares) ->
  TradeManager.sell_size price position shares amount percent = Py.Return s ->
  position.(Position.shares) <= s ->
  exists r tm' position',
    TradeManager.sell tm date symbol price shares amount percent
    = Py.Return (Some r, tm')
    /\ r.(TradeRecord.shares) == position.(Position.shares)
    /\ tm'.(TradeManager.positions) !! symbol = Some position'
    /\ position'.(Position.shares) == 0
    /\ position'.(Position.avg_price) = 0
    /\ position'.(Position.cost_basis) = 0
    /\ forall date' price' shares' amount' percent',
         0 < price' ->
         TradeManager.sell tm' date' symbol price' shares' amount' percent'
         = Py.Return (None, tm').
Proof.
  exact (sell_whole_holding tm date symbol price shares amount percent position s).
Qed.

Lemma sell_everything_empties_witness :
  exists r tm' position',
    TradeManager.sell Examples.holding_default 1 "X" 10 None None None
    = Py.Return (Some r, tm')
    /\ r.(TradeRecord.shares) == 100
    /\ tm'.(TradeManager.positions) !! "X" = Some position'
    /\ position'.(Position.shares) == 0.
Proof.
  destruct (sell_everything_empties Examples.holding_default 1 "X" 10
              None None None
              (TradeManager.get_position Examples.holding_default "X") 100)
    as (r & tm' & position' & Hsell & Hr & Hl & H0 & _).
  - reflexivity.
  - vm_compute. reflexivity.
  - vm_compute. reflexivity.
  - vm_compute. reflexivity.
  - vm_compute. discriminate.
  - exists r, tm', position'. split; [exact Hsell|].
    split; [rewrite Hr; vm_compute; reflexivity|]. split; assumption.
Defined.

(** ** Lots and reduced fills of [buy] *)

Lemma buy_shares_of_amount_lot (price amount : Q) (allow_partial : bool) :
  exists k : Z,
    TradeManager.buy_shares_of_amount price amount allow_partial
    = inject_Z (k * 100).
Proof.
  unfold TradeManager.buy_shares_of_amount.
  destruct (_ && _ && _); [exists 1%Z; reflexivity|].
  eexists. reflexivity.
Qed.

(** X10.  A buy sized from an amount always fills whole lots: whenever
    [buy], called with [amount] and no [shares], returns a record, the
    record's share count is an integer multiple of 100, whether the fill is
    the requested one or the reduced one. *)
Theorem buy_from_amount_fills_lots (tm : TradeManager.t) (date : Z)
    (symbol : string) (price amount : Q) (allow_partial : bool)
    (r : TradeRecord.t) (tm' : TradeManager.t) :
  TradeManager.buy tm date symbol price None (Some amount) allow_partial
  = Py.Return (Some r, tm') ->
  exists k : Z, r.(TradeRecord.shares) = inject_Z (k * 100).
Proof.
  intro Hbuy.
  destruct (buy_cases tm date symbol price None (Some amount) allow_partial)
    as [[e He]|[Hn|(n0 & n & Hp & Hreq & Hwhich & Hb)]].
  - rewrite He in Hbuy. discriminate Hbuy.
  - rewrite Hn in Hbuy. discriminate Hbuy.
  - rewrite Hb in Hbuy.
    assert (Hr : fst (TradeManager.priced_buy tm date symbol price n) = r)
      by congruence.
    rewrite <- Hr, priced_buy_shares.
    destruct Hwhich as [[-> _]|(_ & _ & Hmax & _)].
    + cbn [TradeManager.requested_shares] in Hreq. injection Hreq as <-.
      apply buy_shares_of_amount_lot.
    + unfold TradeManager.max_affordable, Py.div in Hmax.
      destruct (Py.eq _ 0); [discriminate Hmax|].
      cbn [Py.bind] in Hmax. injection Hmax as <-. eexists. reflexivity.
Qed.

Lemma buy_from_amount_fills_lots_witness :
  exists k : Z,
    (fst (TradeManager.priced_buy (TradeManager.init 100000 None)
            0 "X" 50 200)).(TradeRecord.shares)
    = inject_Z (k * 100).
Proof.
  apply (buy_from_amount_fills_lots (TradeManager.init 100000 None) 0 "X" 50
           10000 true _
           (snd (TradeManager.priced_buy (TradeManager.init 100000 None)
                   0 "X" 50 200))).
  apply buy_commits; [reflexivity|reflexivity|vm_compute; discriminate].
Defined.


(** ** Valuation snapshots *)

Lemma fold_values_from (c : Q) (values : gmap string Q) :
  map_fold (fun _ v acc => acc + v) c values
  == c + TradeManager.sum_values values.
Proof.
  unfold TradeManager.sum_values.
  transitivity (map_fold (fun (_ : string) v acc => acc + v) (c + 0) values).
  - apply (map_fold_proper Qeq).
    + intros j z x y Hxy. rewrite Hxy. reflexivity.
    + lra.
  - apply (map_fold_comm_acc_strong Qeq
             (fun (_ : string) v acc => acc + v) (fun y => c + y)).
    + intros j z x y Hxy. rewrite Hxy. reflexivity.
    + intros j z y _. lra.
Qed.

(** X12.  [update_portfolio_value] appends one snapshot and changes
    nothing else.  The snapshot values exactly the symbols that are held
    with a positive share count and have a price in [price_dict], each at
    shares times price, and its [total_value] is the cash plus the sum of
    those values. *)
Theorem snapshot_adds_up (tm : TradeManager.t) (date : Z)
    (price_dict : gmap string Q) :
  exists snap,
    (TradeManager.update_portfolio_value tm date price_dict)
      .(TradeManager.daily_portfolio_value)
    = tm.(TradeManager.daily_portfolio_value) ++ [snap]
    /\ (TradeManager.update_portfolio_value tm date price_dict)
         .(TradeManager.cash) = tm.(TradeManager.cash)
    /\ (TradeManager.update_portfolio_value tm date price_dict)
         .(TradeManager.positions) = tm.(TradeManager.positions)
    /\ (TradeManager.update_portfolio_value tm date price_dict)
         .(TradeManager.trade_history) = tm.(TradeManager.trade_history)
    /\ snap.(Snapshot.date) = date
    /\ snap.(Snapshot.cash) = tm.(TradeManager.cash)
    /\ snap.(Snapshot.total_value)
       == tm.(TradeManager.cash)
          + TradeManager.sum_values snap.(Snapshot.positions_value)
    /\ forall k,
         snap.(Snapshot.positions_value) !! k
         = match tm.(TradeManager.positions) !! k, price_dict !! k with
           | Some p, Some price =>
             if Py.lt 0 p.(Position.shares)
             then Some (p.(Position.shares) * price)
             else None
           | _, _ => None
           end.
Proof.
  unfold TradeManager.update_portfolio_value.
  eexists. split; [reflexivity|].
  cbn [TradeManager.cash TradeManager.positions TradeManager.trade_history
       Snapshot.date Snapshot.cash Snapshot.total_value
       Snapshot.positions_value].
  repeat split.
  - apply fold_values_from.
  - intro k. rewrite map_lookup_imap.
    destruct (tm.(TradeManager.positions) !! k) as [p|]; [|reflexivity].
    cbn. destruct (Py.lt 0 p.(Position.shares)).
    + destruct (price_dict !! k); reflexivity.
    + destruct (price_dict !! k); reflexivity.
Qed.

(** ** Average price and profit of a position *)


(** X14.  For a well-formed position, [profit_loss] at a price is the
    market value at that price less the cost basis, and when shares are held
    at a positive average price [profit_loss_percent] is that profit as a
    percentage of the cost basis. *)
Theorem profit_loss_is_value_less_cost (p : Position.t) (current_price : Q) :
  Position.wf p ->
  Position.profit_loss p current_price
  == Position.market_value p current_price - p.(Position.cost_basis)
  /\ (0 < p.(Position.avg_price) ->
      0 < p.(Position.shares) ->
      Position.profit_loss_percent p current_price * p.(Position.cost_basis)
      == 100 * Position.profit_loss p current_price).
Proof.
  intros (Hs & Ha & Hcb & Hzero).
  unfold Position.profit_loss, Position.market_value,
    Position.profit_loss_percent.
  split; [rewrite Hcb; ring|].
  intros Hapos Hspos.
  assert (E1 : Py.eq p.(Position.avg_price) 0 = false)
    by (apply eq_false; lra).
  assert (E2 : Py.eq p.(Position.shares) 0 = false)
    by (apply eq_false; lra).
  rewrite E1, E2, Hcb. cbn [orb]. field. lra.
Qed.

Lemma profit_loss_is_value_less_cost_witness :
  Position.profit_loss (Position.mk "X" 100 10 1000) 12
  == Position.market_value (Position.mk "X" 100 10 1000) 12 - 1000.
Proof.
  destruct (profit_loss_is_value_less_cost (Position.mk "X" 100 10 1000) 12)
    as [H _].
  - unfold Position.wf. cbn. repeat split; discriminate.
  - exact H.
Defined.

(** * Further properties of the round-trip pairing *)

Section PairsSound.

Import Performance.

Variables P Q' : TradeRecord.t -> Prop.

(** The pairs are drawn in order from the two sequences, each record at
    most once, and every pair has its SELL dated strictly later. *)
Lemma two_cursor_pairs_sound (sells buys : list TradeRecord.t) :
  Forall P buys -> Forall Q' sells ->
  Forall
    (fun p =>
       P (fst p) /\ Q' (snd p)
       /\ ((fst p).(TradeRecord.date) < (snd p).(TradeRecord.date))%Z)
    (two_cursor_pairs buys sells)
  /\ map fst (two_cursor_pairs buys sells) `sublist_of` buys
  /\ map snd (two_cursor_pairs buys sells) `sublist_of` sells.
Proof.
  revert buys. induction sells as [|s sells IH]; intros buys Hb Hs.
  - cbn. repeat split; [constructor|apply sublist_nil_l|constructor].
  - destruct buys as [|b buys].
    { cbn. repeat split; [constructor|constructor|apply sublist_nil_l]. }
    cbn [two_cursor_pairs].
    inversion Hs as [|? ? Hs1 Hs2]; subst.
    destruct (b.(TradeRecord.date) <? s.(TradeRecord.date))%Z eqn:Ed.
    + apply Z.ltb_lt in Ed.
      inversion Hb as [|? ? Hb1 Hb2]; subst.
      destruct (IH buys Hb2 Hs2) as (H1 & H2 & H3).
      cbn [map fst snd]. split; [|split].
      * constructor; [|exact H1]. cbn. auto.
      * apply sublist_skip. exact H2.
      * apply sublist_skip. exact H3.
    + destruct (IH (b :: buys) Hb Hs2) as (H1 & H2 & H3).
      split; [exact H1|]. split; [exact H2|].
      apply sublist_cons. exact H3.
Qed.

End PairsSound.

Lemma filter_type_Forall (ty : TradeType) (h : list TradeRecord.t) :
  Forall (fun t => t.(TradeRecord.trade_type) = ty /\ t ∈ h)
         (List.filter (Performance.is_type ty) h).
Proof.
  induction h as [|t h IH]; [constructor|].
  cbn [List.filter].
  assert (IH' : Forall (fun t0 => t0.(TradeRecord.trade_type) = ty
                                  /\ t0 ∈ t :: h)
                       (List.filter (Performance.is_type ty) h)).
  { eapply Forall_impl; [exact IH|]. cbn beta. intros x [H1 H2].
    split; [exact H1|]. apply elem_of_cons. right. exact H2. }
  destruct (Performance.is_type ty t) eqn:E; [|exact IH'].
  constructor; [|exact IH'].
  split; [|apply elem_of_cons; left; reflexivity].
  unfold Performance.is_type in E.
  destruct t.(TradeRecord.trade_type), ty; try discriminate E; reflexivity.
Qed.

(** What the pairs of [calculate] satisfy. *)
Lemma calculate_pairs_facts (trade_history : list TradeRecord.t) :
  exists pairs,
    Performance.calculate_paired_trades trade_history = Some pairs
    /\ Forall
         (fun p =>
            (fst p).(TradeRecord.trade_type) = BUY
            /\ (snd p).(TradeRecord.trade_type) = SELL
            /\ fst p ∈ trade_history
            /\ snd p ∈ trade_history
            /\ ((fst p).(TradeRecord.date) < (snd p).(TradeRecord.date))%Z)
         pairs
    /\ map fst pairs `sublist_of` Performance.buy_trades trade_history
    /\ map snd pairs `sublist_of` Performance.sell_trades trade_history
    /\ (length pairs <= length (Performance.buy_trades trade_history))%nat
    /\ (length pairs <= length (Performance.sell_trades trade_history))%nat.
Proof.
  eexists. split.
  { unfold Performance.calculate_paired_trades. rewrite pair_into_spec.
    reflexivity. }
  cbn [app].
  destruct (two_cursor_pairs_sound _ _
              (Performance.sell_trades trade_history)
              (Performance.buy_trades trade_history)
              (filter_type_Forall BUY trade_history)
              (filter_type_Forall SELL trade_history))
    as (H1 & H2 & H3).
  split; [|split; [exact H2|split; [exact H3|]]].
  - eapply Forall_impl; [exact H1|]. cbn beta. tauto.
  - pose proof (sublist_length _ _ H2) as L2.
    pose proof (sublist_length _ _ H3) as L3.
    rewrite length_map in L2, L3. split; assumption.
Qed.

(** X15.  The pairs [Performance.calculate] reconstructs are sound:
    the loop ends, every pair is a BUY record and a SELL record of the
    history with the SELL dated strictly later, the BUYs of the pairs are a
    subsequence of the history's BUY records and the SELLs a subsequence of
    its SELL records (so no record is paired twice and order is kept), and
    there are at most as many pairs as BUYs and as SELLs. *)
Theorem calculate_pairs_sound (trade_history : list TradeRecord.t) :
  exists pairs,
    Performance.calculate_paired_trades trade_history = Some pairs
    /\ Forall
         (fun p =>
            (fst p).(TradeRecord.trade_type) = BUY
            /\ (snd p).(TradeRecord.trade_type) = SELL
            /\ fst p ∈ trade_history
            /\ snd p ∈ trade_history
            /\ ((fst p).(TradeRecord.date) < (snd p).(TradeRecord.date))%Z)
         pairs
    /\ map fst pairs `sublist_of` Performance.buy_trades trade_history
    /\ map snd pairs `sublist_of` Performance.sell_trades trade_history
    /\ (length pairs <= length (Performance.buy_trades trade_history))%nat
    /\ (length pairs <= length (Performance.sell_trades trade_history))%nat.
Proof.
  exact (calculate_pairs_facts trade_history).
Qed.

Lemma trades_of_Forall (s : string) (h : list TradeRecord.t) :
  Forall (fun t => t.(TradeRecord.symbol) = s /\ t ∈ h)
         (Performance.trades_of s h).
Proof.
  unfold Performance.trades_of.
  induction h as [|t h IH]; [constructor|].
  cbn [List.filter].
  assert (IH' : Forall (fun t0 => t0.(TradeRecord.symbol) = s /\ t0 ∈ t :: h)
                       (List.filter
                          (fun t0 => String.eqb t0.(TradeRecord.symbol) s) h)).
  { eapply Forall_impl; [exact IH|]. cbn beta. intros x [H1 H2].
    split; [exact H1|]. apply elem_of_cons. right. exact H2. }
  destruct (String.eqb t.(TradeRecord.symbol) s) eqn:E; [|exact IH'].
  constructor; [|exact IH'].
  split; [apply String.eqb_eq; exact E|apply elem_of_cons; left; reflexivity].
Qed.

Lemma typed_trades_of_Forall (ty : TradeType) (s : string)
    (h : list TradeRecord.t) :
  Forall
    (fun t => t.(TradeRecord.trade_type) = ty
              /\ t.(TradeRecord.symbol) = s /\ t ∈ h)
    (List.filter (Performance.is_type ty) (Performance.trades_of s h)).
Proof.
  pose proof (filter_type_Forall ty (Performance.trades_of s h)) as H1.
  pose proof (trades_of_Forall s h) as H2.
  rewrite Forall_forall in H2.
  eapply Forall_impl; [exact H1|]. cbn beta. intros t [Ht Hin].
  destruct (H2 t Hin) as [Hs Hh]. auto.
Qed.

(** What the pairs of [calculate_portfolio] satisfy. *)
Lemma calculate_portfolio_pairs_facts (trade_history : list TradeRecord.t) :
  exists pairs,
    Performance.calculate_portfolio_paired_trades trade_history = Some pairs
    /\ Forall
         (fun p =>
            (fst p).(TradeRecord.symbol) = (snd p).(TradeRecord.symbol)
            /\ (fst p).(TradeRecord.symbol) <> ""
            /\ (fst p).(TradeRecord.trade_type) = BUY
            /\ (snd p).(TradeRecord.trade_type) = SELL
            /\ fst p ∈ trade_history
            /\ snd p ∈ trade_history
            /\ ((fst p).(TradeRecord.date) < (snd p).(TradeRecord.date))%Z)
         pairs.
Proof.
  exists (Performance.per_symbol_pairs trade_history).
  split; [apply calculate_portfolio_pairs|].
  unfold Performance.per_symbol_pairs.
  destruct (symbols_of_inv trade_history) as (_ & Hne & _).
  induction (Performance.symbols_of trade_history) as [|s syms IH];
    [constructor|].
  cbn [flat_map]. apply Forall_app. split.
  - destruct (two_cursor_pairs_sound _ _
                (Performance.sell_trades
                   (Performance.trades_of s trade_history))
                (Performance.buy_trades
                   (Performance.trades_of s trade_history))
                (typed_trades_of_Forall BUY s trade_history)
                (typed_trades_of_Forall SELL s trade_history))
      as (H1 & _).
    eapply Forall_impl; [exact H1|]. cbn beta.
    intros p ((Hb1 & Hb2 & Hb3) & (Hs1 & Hs2 & Hs3) & Hd).
    repeat split; try assumption; try congruence.
    rewrite Hb2. intros ->. apply Hne. apply elem_of_cons. left. reflexivity.
  - apply IH. intro H. apply Hne. apply elem_of_cons. right. exact H.
Qed.

(** X16.  The pairs [Performance.calculate_portfolio] reconstructs
    never cross symbols: the loop ends, and every pair is a BUY record and a
    SELL record of the history that carry the same, non-empty symbol, with
    the SELL dated strictly later. *)
Theorem calculate_portfolio_pairs_sound (trade_history : list TradeRecord.t) :
  exists pairs,
    Performance.calculate_portfolio_paired_trades trade_history = Some pairs
    /\ Forall
         (fun p =>
            (fst p).(TradeRecord.symbol) = (snd p).(TradeRecord.symbol)
            /\ (fst p).(TradeRecord.symbol) <> ""
            /\ (fst p).(TradeRecord.trade_type) = BUY
            /\ (snd p).(TradeRecord.trade_type) = SELL
            /\ fst p ∈ trade_history
            /\ snd p ∈ trade_history
            /\ ((fst p).(TradeRecord.date) < (snd p).(TradeRecord.date))%Z)
         pairs.
Proof.
  exact (calculate_portfolio_pairs_facts trade_history).
Qed.

Lemma two_cursor_pairs_aligned (sells buys : list TradeRecord.t) :
  (forall i b s,
      buys !! i = Some b -> sells !! i = Some s ->
      (b.(TradeRecord.date) < s.(TradeRecord.date))%Z) ->
  Performance.two_cursor_pairs buys sells = zip buys sells.
Proof.
  revert buys. induction sells as [|s sells IH]; intros buys Hal.
  - destruct buys; reflexivity.
  - destruct buys as [|b buys]; [reflexivity|].
    cbn [Performance.two_cursor_pairs].
    assert (Hd : (b.(TradeRecord.date) <? s.(TradeRecord.date))%Z = true).
    { apply Z.ltb_lt. apply (Hal 0%nat); reflexivity. }
    rewrite Hd. cbn. f_equal. apply IH.
    intros i b' s' Hb Hs. apply (Hal (S i)); assumption.
Qed.

(** X17.  When the i-th BUY record of a history is dated strictly
    before its i-th SELL record, for every i, [Performance.calculate] pairs
    the i-th BUY with the i-th SELL and leaves out only the surplus of the
    longer sequence. *)
Theorem aligned_history_pairs_in_step (trade_history : list TradeRecord.t) :
  (forall i b s,
      Performance.buy_trades trade_history !! i = Some b ->
      Performance.sell_trades trade_history !! i = Some s ->
      (b.(TradeRecord.date) < s.(TradeRecord.date))%Z) ->
  Performance.calculate_paired_trades trade_history
  = Some (zip (Performance.buy_trades trade_history)
              (Performance.sell_trades trade_history)).
Proof.
  intro Hal. unfold Performance.calculate_paired_trades.
  rewrite pair_into_spec. cbn [app].
  rewrite (two_cursor_pairs_aligned _ _ Hal). reflexivity.
Qed.

Lemma aligned_history_pairs_in_step_witness :
  Performance.calculate_paired_trades
    [TradeManager.init_record (TradeManager.init 100000 None) 0;
     Examples.buy_day0; Examples.sell_day10]
  = Some [(Examples.buy_day0, Examples.sell_day10)].
Proof.
  apply (aligned_history_pairs_in_step
           [TradeManager.init_record (TradeManager.init 100000 None) 0;
            Examples.buy_day0; Examples.sell_day10]).
  intros [|[|i]] b s Hb Hs; cbn in Hb, Hs; try discriminate.
  injection Hb as <-. injection Hs as <-. reflexivity.
Defined.

(** * Properties of the trade statistics *)

Section Statistics.

Import Performance.

Lemma max_ge_l (a b : Q) : a <= Py.max a b.
Proof.
  unfold Py.max. destruct (Py.lt a b) eqn:E; [|lra].
  apply lt_true in E. lra.
Qed.

Lemma max_ge_r (a b : Q) : b <= Py.max a b.
Proof.
  unfold Py.max. destruct (Py.lt a b) eqn:E; [lra|].
  apply lt_false in E. exact E.
Qed.

Lemma max_cases (a b : Q) : Py.max a b = a \/ Py.max a b = b.
Proof. unfold Py.max. destruct (Py.lt a b); auto. Qed.

Lemma count_nonneg (n : nat) : 0 <= count n.
Proof.
  unfold count. change 0 with (inject_Z 0). rewrite <- Zle_Qle. lia.
Qed.

Lemma count_succ (n : nat) : count (n + 1) == count n + 1.
Proof.
  unfold count. rewrite Nat2Z.inj_add, inject_Z_plus. reflexivity.
Qed.

Lemma count_pos (n : nat) : (0 < n)%nat -> 0 < count n.
Proof.
  intro H. unfold count. change 0 with (inject_Z 0). rewrite <- Zlt_Qlt. lia.
Qed.

Lemma count_le (n m : nat) : (n <= m)%nat -> count n <= count m.
Proof. intro H. unfold count. rewrite <- Zle_Qle. lia. Qed.

(** Adding a gain [x > 0] to a running total, maximum and count. *)
Lemma running_gain (k : nat) (total best x : Q) :
  0 < x -> 0 <= best -> best <= total -> total <= count k * best ->
  0 <= Py.max best x
  /\ Py.max best x <= total + x
  /\ total + x <= count (k + 1) * Py.max best x
  /\ 0 < total + x.
Proof.
  intros Hx Hb Hbt Htk.
  pose proof (max_ge_l best x) as Hl.
  pose proof (max_ge_r best x) as Hr.
  pose proof (count_nonneg k) as Hk.
  assert (Hmono : count k * best <= count k * Py.max best x).
  { rewrite !(Qmult_comm (count k)). apply Qmult_le_compat_r; assumption. }
  split; [lra|]. split.
  - destruct (max_cases best x) as [-> | ->]; lra.
  - split; [|lra]. rewrite count_succ. lra.
Qed.

Lemma tally_step_ok (n : nat) (t : Tally) (pair : Pair) :
  tally_ok n t -> tally_ok (n + 1) (tally_step t pair).
Proof.
  intros (Hn & Hp0 & Hp1 & Hp2 & Hp3 & Hl0 & Hl1 & Hl2 & Hl3).
  unfold tally_step.
  destruct (Py.lt 0 (profit_of pair)) eqn:E1.
  - apply lt_true in E1.
    destruct (running_gain t.(winning_trades) _ _ _ E1 Hp0 Hp1 Hp2)
      as (G0 & G1 & G2 & G3).
    unfold tally_ok. cbn. repeat split; try assumption; try lia.
    intros _. exact G3.
  - destruct (Py.lt (profit_of pair) 0) eqn:E2.
    + apply lt_true in E2.
      assert (Habs : 0 < Qabs (profit_of pair)).
      { rewrite Qabs_neg by lra. lra. }
      destruct (running_gain t.(losing_trades) _ _ _ Habs Hl0 Hl1 Hl2)
        as (G0 & G1 & G2 & G3).
      unfold tally_ok. cbn. repeat split; try assumption; try lia.
      intros _. exact G3.
    + unfold tally_ok. cbn. repeat split; try assumption; try lia.
Qed.

Lemma tally_fold_ok (pairs : list Pair) (n : nat) (t : Tally) :
  tally_ok n t ->
  tally_ok (n + length pairs) (fold_left tally_step pairs t).
Proof.
  revert n t. induction pairs as [|p pairs IH]; intros n t Hok.
  - cbn. rewrite Nat.add_0_r. exact Hok.
  - cbn [fold_left length].
    replace (n + S (length pairs))%nat with (n + 1 + length pairs)%nat by lia.
    apply IH. apply tally_step_ok. exact Hok.
Qed.

Lemma tally_ok_pairs (pairs : list Pair) :
  tally_ok (length pairs) (tally pairs).
Proof.
  apply (tally_fold_ok pairs 0).
  unfold tally_ok. cbn. repeat split; try lra; try lia.
Qed.

(** X18.  The statistics loop sorts every paired trade into exactly one
    of winning, losing and break-even, so the three counts add up to
    [total_trades]; the accumulated profit and loss are not negative; and
    [win_rate] lies between 0 and 100. *)
Theorem trade_counts_partition (paired_trades : list Pair) :
  ((tally paired_trades).(winning_trades)
   + (tally paired_trades).(losing_trades)
   + (tally paired_trades).(break_even_trades))%nat
  = length paired_trades
  /\ 0 <= (tally paired_trades).(total_profit)
  /\ 0 <= (tally paired_trades).(total_loss)
  /\ 0 <= win_rate paired_trades
  /\ win_rate paired_trades <= 100.
Proof.
  destruct (tally_ok_pairs paired_trades)
    as (Hn & Hp0 & Hp1 & Hp2 & Hp3 & Hl0 & Hl1 & Hl2 & Hl3).
  split; [exact Hn|]. split; [lra|]. split; [lra|].
  unfold win_rate.
  destruct (0 <? length paired_trades)%nat eqn:E; [|split; lra].
  apply Nat.ltb_lt in E.
  pose proof (count_pos _ E) as HT.
  pose proof (count_nonneg (tally paired_trades).(winning_trades)) as Hw.
  assert (Hle : count (tally paired_trades).(winning_trades)
                <= count (length paired_trades))
    by (apply count_le; lia).
  assert (H0 : 0 <= count (tally paired_trades).(winning_trades)
                    / count (length paired_trades)).
  { apply Qle_shift_div_l; [exact HT|]. lra. }
  assert (H1 : count (tally paired_trades).(winning_trades)
               / count (length paired_trades) <= 1).
  { apply Qle_shift_div_r; [exact HT|]. lra. }
  split; lra.
Qed.

(** X19.  The totals cover the extremes and the averages: [0 <=
    max_profit <= total_profit], [0 <= avg_profit <= total_profit], and the
    same for the losses; a profit was accumulated exactly when some trade
    won and a loss exactly when some trade lost; [profit_factor] is
    [float('inf')] when at least one trade won and none lost, and 0 when
    none won and none lost. *)
Theorem totals_cover_extremes (paired_trades : list Pair) :
  (0 <= (tally paired_trades).(max_profit)
   /\ (tally paired_trades).(max_profit)
      <= (tally paired_trades).(total_profit))
  /\ (0 <= (tally paired_trades).(max_loss)
      /\ (tally paired_trades).(max_loss)
         <= (tally paired_trades).(total_loss))
  /\ (0 <= avg_profit paired_trades
      /\ avg_profit paired_trades <= (tally paired_trades).(total_profit))
  /\ (0 <= avg_loss paired_trades
      /\ avg_loss paired_trades <= (tally paired_trades).(total_loss))
  /\ (0 < (tally paired_trades).(total_profit)
      <-> (0 < (tally paired_trades).(winning_trades))%nat)
  /\ (0 < (tally paired_trades).(total_loss)
      <-> (0 < (tally paired_trades).(losing_trades))%nat)
  /\ ((0 < (tally paired_trades).(winning_trades))%nat ->
      (tally paired_trades).(losing_trades) = 0%nat ->
      profit_factor paired_trades = Infinity)
  /\ ((tally paired_trades).(winning_trades) = 0%nat ->
      (tally paired_trades).(losing_trades) = 0%nat ->
      profit_factor paired_trades = Finite 0).
Proof.
  destruct (tally_ok_pairs paired_trades)
    as (Hn & Hp0 & Hp1 & Hp2 & Hp3 & Hl0 & Hl1 & Hl2 & Hl3).
  set (t := tally paired_trades) in *.
  assert (Hwin : 0 < t.(total_profit) <-> (0 < t.(winning_trades))%nat).
  { split; [|exact Hp3]. intro H.
    destruct t.(winning_trades) as [|w]; [|lia].
    change (count 0) with 0 in Hp2. lra. }
  assert (Hlose : 0 < t.(total_loss) <-> (0 < t.(losing_trades))%nat).
  { split; [|exact Hl3]. intro H.
    destruct t.(losing_trades) as [|w]; [|lia].
    change (count 0) with 0 in Hl2. lra. }
  assert (Havg : forall total n,
             0 <= total ->
             0 <= (if (0 <? n)%nat then total / count n else 0)
             /\ (if (0 <? n)%nat then total / count n else 0) <= total).
  { intros total n Ht.
    destruct (0 <? n)%nat eqn:E; [|split; lra].
    apply Nat.ltb_lt in E.
    pose proof (count_pos n E) as Hc.
    assert (H1 : 1 <= count n)
      by (change 1 with (count 1); apply count_le; lia).
    split.
    - apply Qle_shift_div_l; [exact Hc|]. lra.
    - apply Qle_shift_div_r; [exact Hc|]. nra. }
  split; [split; assumption|]. split; [split; assumption|].
  split; [apply (Havg t.(total_profit) t.(winning_trades)); lra|].
  split; [apply (Havg t.(total_loss) t.(losing_trades)); lra|].
  split; [exact Hwin|]. split; [exact Hlose|].
  unfold profit_factor. fold t. split.
  - intros Hw Hl.
    assert (EL : Py.lt 0 t.(total_loss) = false).
    { apply lt_false.
      destruct (Qlt_le_dec 0 t.(total_loss)) as [H|H]; [|exact H].
      apply Hlose in H. lia. }
    assert (EP : Py.lt 0 t.(total_profit) = true)
      by (apply lt_true, Hwin; exact Hw).
    rewrite EL, EP. reflexivity.
  - intros Hw Hl.
    assert (EL : Py.lt 0 t.(total_loss) = false).
    { apply lt_false.
      destruct (Qlt_le_dec 0 t.(total_loss)) as [H|H]; [|exact H].
      apply Hlose in H. lia. }
    assert (EP : Py.lt 0 t.(total_profit) = false).
    { apply lt_false.
      destruct (Qlt_le_dec 0 t.(total_profit)) as [H|H]; [|exact H].
      apply Hwin in H. lia. }
    rewrite EL, EP. reflexivity.
Qed.

Lemma totals_cover_extremes_witness :
  profit_factor [(Examples.buy_day0, Examples.sell_day10)] = Infinity.
Proof.
  apply (totals_cover_extremes [(Examples.buy_day0, Examples.sell_day10)]).
  - vm_compute. lia.
  - reflexivity.
Defined.

Lemma tally_days (pairs : list Pair) (t : Tally) :
  Forall (fun p => (1 <= holding_days_of p)%Z) pairs ->
  (t.(total_holding_days) + Z.of_nat (length pairs)
   <= (fold_left tally_step pairs t).(total_holding_days))%Z.
Proof.
  revert t. induction pairs as [|p pairs IH]; intros t Hall.
  - cbn. lia.
  - inversion Hall as [|? ? Hp Hrest]; subst. cbn [fold_left length].
    specialize (IH (tally_step t p) Hrest).
    assert (Hstep : (tally_step t p).(total_holding_days)
                    = (t.(total_holding_days) + holding_days_of p)%Z).
    { unfold tally_step. destruct (Py.lt 0 _); [reflexivity|].
      destruct (Py.lt _ 0); reflexivity. }
    rewrite Hstep in IH. lia.
Qed.

(** With dates counted in days, a pair whose SELL is dated after its BUY
    is held for one day at least. *)
Lemma holding_days_lower (trade_history : list TradeRecord.t)
    (pairs : list Pair) :
  calculate_paired_trades trade_history = Some pairs
  \/ calculate_portfolio_paired_trades trade_history = Some pairs ->
  (Z.of_nat (length pairs) <= (tally pairs).(total_holding_days))%Z
  /\ (pairs = [] -> avg_holding_days pairs = 0)
  /\ (pairs <> [] -> 1 <= avg_holding_days pairs).
Proof.
  intro Hpairs.
  assert (Hall : Forall (fun p => (1 <= holding_days_of p)%Z) pairs).
  { destruct Hpairs as [H|H].
    - destruct (calculate_pairs_facts trade_history) as (ps & Hps & Hs & _).
      assert (ps = pairs) by congruence. subst ps.
      eapply Forall_impl; [exact Hs|]. cbn beta. unfold holding_days_of.
      intros p (_ & _ & _ & _ & Hd). lia.
    - destruct (calculate_portfolio_pairs_facts trade_history)
        as (ps & Hps & Hs).
      assert (ps = pairs) by congruence. subst ps.
      eapply Forall_impl; [exact Hs|]. cbn beta. unfold holding_days_of.
      intros p (_ & _ & _ & _ & _ & _ & Hd). lia. }
  pose proof (tally_days pairs (mkTally 0 0 0 0 0 0 0 0) Hall) as Hdays.
  cbn [total_holding_days] in Hdays. fold (tally pairs) in Hdays.
  split; [lia|]. split.
  - intros ->. reflexivity.
  - intro Hne. unfold avg_holding_days.
    assert (Hlen : (0 < length pairs)%nat)
      by (destruct pairs; [contradiction|cbn; lia]).
    assert (E : (0 <? length pairs)%nat = true) by (apply Nat.ltb_lt; exact Hlen).
    rewrite E.
    apply Qle_shift_div_l; [apply count_pos; exact Hlen|].
    unfold count. rewrite Qmult_1_l, <- Zle_Qle. lia.
Qed.

(** X20.  The holding period reported is never negative: for the pairs
    [calculate] or [calculate_portfolio] computes from any history, every
    pair has its SELL dated after its BUY, so [total_holding_days] and
    [avg_holding_days] are not negative, and [avg_holding_days] is 0 when
    there is no pair. *)
Theorem holding_days_not_negative (trade_history : list TradeRecord.t)
    (pairs : list Pair) :
  calculate_paired_trades trade_history = Some pairs
  \/ calculate_portfolio_paired_trades trade_history = Some pairs ->
  Forall (fun p => (0 <= holding_days_of p)%Z) pairs
  /\ (0 <= (tally pairs).(total_holding_days))%Z
  /\ 0 <= avg_holding_days pairs
  /\ (pairs = [] -> avg_holding_days pairs = 0).
Proof.
  intro Hpairs.
  destruct (holding_days_lower trade_history pairs Hpairs)
    as (Hdays & Hnil & Hcons).
  split.
  { destruct Hpairs as [H|H].
    - destruct (calculate_pairs_facts trade_history) as (ps & Hps & Hs & _).
      assert (ps = pairs) by congruence. subst ps.
      eapply Forall_impl; [exact Hs|]. cbn beta. unfold holding_days_of.
      intros p (_ & _ & _ & _ & Hd). lia.
    - destruct (calculate_portfolio_pairs_facts trade_history)
        as (ps & Hps & Hs).
      assert (ps = pairs) by congruence. subst ps.
      eapply Forall_impl; [exact Hs|]. cbn beta. unfold holding_days_of.
      intros p (_ & _ & _ & _ & _ & _ & Hd). lia. }
  split; [lia|]. split; [|exact Hnil].
  destruct pairs as [|p pairs].
  - rewrite Hnil by reflexivity. lra.
  - assert (H1 : 1 <= avg_holding_days (p :: pairs))
      by (apply Hcons; discriminate).
    lra.
Qed.

Lemma holding_days_not_negative_witness :
  0 <= avg_holding_days [(Examples.buy_day0, Examples.sell_day10)].
Proof.
  destruct (holding_days_not_negative
              [TradeManager.init_record (TradeManager.init 100000 None) 0;
               Examples.buy_day0; Examples.sell_day10]
              [(Examples.buy_day0, Examples.sell_day10)])
    as (_ & _ & H & _).
  - left. vm_compute. reflexivity.
  - exact H.
Defined.

End Statistics.


(** * Further properties of the signal loop *)

Section LoopRuns.

Variable symbol : string.
Variables position_size position_pct : option Q.

Lemma bar_call_args (tm : TradeManager.t) (bar : SignalStrategy.Bar)
    (c : SignalStrategy.Call) :
  SignalStrategy.bar_call symbol position_size position_pct tm bar = Some c ->
  match c with
  | SignalStrategy.CallBuy date sym price shares amount =>
    date = bar.(SignalStrategy.bar_date) /\ sym = symbol
    /\ price = bar.(SignalStrategy.close)
    /\ ~ (shares = None /\ amount = None)
  | SignalStrategy.CallSell date sym price shares =>
    date = bar.(SignalStrategy.bar_date) /\ sym = symbol
    /\ price = bar.(SignalStrategy.close)
    /\ shares = (TradeManager.get_position tm symbol).(Position.shares)
    /\ 0 < shares
  end.
Proof.
  unfold SignalStrategy.bar_call.
  destruct (Py.eq bar.(SignalStrategy.signal) 1).
  - destruct position_size, position_pct; intros [= <-];
      repeat split; intros [H1 H2]; discriminate.
  - destruct (Py.eq bar.(SignalStrategy.signal) (-1)); [|discriminate].
    destruct (Py.lt 0 _) eqn:E; [|discriminate].
    intros [= <-]. apply lt_true in E. repeat split. exact E.
Qed.

End LoopRuns.

Section LoopOutcome.

Variable symbol : string.
Variables position_size position_pct : option Q.

Lemma update_fields (tm : TradeManager.t) (date : Z)
    (price_dict : gmap string Q) :
  (TradeManager.update_portfolio_value tm date price_dict)
    .(TradeManager.trade_history) = tm.(TradeManager.trade_history)
  /\ (TradeManager.update_portfolio_value tm date price_dict)
       .(TradeManager.trade_cost) = tm.(TradeManager.trade_cost)
  /\ (TradeManager.update_portfolio_value tm date price_dict)
       .(TradeManager.initial_cash) = tm.(TradeManager.initial_cash)
  /\ (TradeManager.update_portfolio_value tm date price_dict)
       .(TradeManager.positions) = tm.(TradeManager.positions)
  /\ (TradeManager.update_portfolio_value tm date price_dict)
       .(TradeManager.cash) = tm.(TradeManager.cash)
  /\ map Snapshot.date
       (TradeManager.update_portfolio_value tm date price_dict)
         .(TradeManager.daily_portfolio_value)
     = map Snapshot.date tm.(TradeManager.daily_portfolio_value) ++ [date].
Proof.
  unfold TradeManager.update_portfolio_value. cbn.
  repeat split. rewrite map_app. reflexivity.
Qed.

(** The call the loop makes at a bar with a positive close returns. *)
Lemma invoke_returns (tm : TradeManager.t) (bar : SignalStrategy.Bar)
    (c : SignalStrategy.Call) :
  0 < bar.(SignalStrategy.close) ->
  SignalStrategy.divisor_ok tm ->
  SignalStrategy.bar_call symbol position_size position_pct tm bar = Some c ->
  exists o tm1,
    SignalStrategy.invoke tm c = Py.Return (o, tm1)
    /\ SignalStrategy.call_effect symbol tm tm1 bar o.
Proof.
  intros Hclose Hdiv Hcall.
  pose proof (bar_call_args symbol position_size position_pct tm bar c Hcall)
    as Hargs.
  destruct c as [date sym price shares amount|date sym price shares].
  - destruct Hargs as (-> & -> & -> & Hdir). cbn [SignalStrategy.invoke].
    destruct (TradeManager.buy tm _ symbol _ shares amount true)
      as [e|[o tm1]] eqn:Hbuy.
    + exfalso. apply buy_raise_cases in Hbuy.
      destruct Hbuy as [[_ [H|H]]|(_ & _ & _ & Hd & _)];
        [lra|contradiction|].
      apply Hdiv. apply (Qmult_integral_l _ _) in Hd; [exact Hd|]. lra.
    + exists o, tm1. split; [reflexivity|].
      pose proof (call_outcome tm
                    (Session.Buy bar.(SignalStrategy.bar_date) symbol
                       bar.(SignalStrategy.close) shares amount true)
                    o tm1 Hbuy) as Hrec.
      destruct o as [r|]; [|exact Hrec].
      destruct Hrec as (Hh & _ & _ & _ & Hi & Hc & Hd & Ht & Hdt & Hs & Hp & _).
      unfold SignalStrategy.call_effect. rewrite Ht. auto 10.
  - destruct Hargs as (-> & -> & -> & _ & _). cbn [SignalStrategy.invoke].
    destruct (TradeManager.sell tm _ symbol _ (Some shares) None None)
      as [e|[o tm1]] eqn:Hsell.
    + exfalso. apply sell_raise_cases in Hsell.
      destruct Hsell as [_ [H|(p & pc & _ & _ & H & _)]];
        [lra|discriminate H].
    + exists o, tm1. split; [reflexivity|].
      pose proof (call_outcome tm
                    (Session.Sell bar.(SignalStrategy.bar_date) symbol
                       bar.(SignalStrategy.close) (Some shares) None None)
                    o tm1 Hsell) as Hrec.
      destruct o as [r|]; [|exact Hrec].
      destruct Hrec as (Hh & _ & _ & _ & Hi & Hc & Hd & Ht & Hdt & Hs & Hp & _).
      unfold SignalStrategy.call_effect. rewrite Ht. auto 10.
Qed.

Lemma step_returns (cash0 : Q) (tm : TradeManager.t)
    (bar : SignalStrategy.Bar) :
  0 < bar.(SignalStrategy.close) ->
  SignalStrategy.divisor_ok tm ->
  exists row o tm1,
    SignalStrategy.step symbol position_size position_pct cash0 tm bar
    = Py.Return
        (row,
         TradeManager.update_portfolio_value tm1
           bar.(SignalStrategy.bar_date)
           {[ symbol := bar.(SignalStrategy.close) ]})
    /\ SignalStrategy.call_effect symbol tm tm1 bar o.
Proof.
  intros Hclose Hdiv. unfold SignalStrategy.step.
  destruct (SignalStrategy.bar_call symbol position_size position_pct tm bar)
    as [c|] eqn:Hcall.
  - destruct (invoke_returns tm bar c Hclose Hdiv Hcall)
      as (o & tm1 & Hinv & Heff).
    rewrite Hinv. cbn [Py.bind]. eexists. exists o, tm1.
    split; [reflexivity|exact Heff].
  - cbn [Py.bind]. eexists. exists None, tm. split; reflexivity.
Qed.

Lemma call_effect_fields (tm tm1 : TradeManager.t)
    (bar : SignalStrategy.Bar) (o : option TradeRecord.t) :
  SignalStrategy.call_effect symbol tm tm1 bar o ->
  tm1.(TradeManager.trade_cost) = tm.(TradeManager.trade_cost)
  /\ tm1.(TradeManager.initial_cash) = tm.(TradeManager.initial_cash)
  /\ tm1.(TradeManager.daily_portfolio_value)
     = tm.(TradeManager.daily_portfolio_value)
  /\ exists new,
       tm1.(TradeManager.trade_history)
       = tm.(TradeManager.trade_history) ++ new
       /\ (length new <= 1)%nat
       /\ Forall (SignalStrategy.loop_record symbol [bar]) new.
Proof.
  destruct o as [r|]; cbn [SignalStrategy.call_effect].
  - intros (Hh & Hs & Ht & Hd & Hp & Hc & Hi & Hv).
    repeat split; try assumption.
    exists [r]. split; [exact Hh|]. split; [cbn; lia|].
    constructor; [|constructor].
    split; [exact Hs|]. split; [exact Ht|].
    exists bar. split; [apply elem_of_cons; left; reflexivity|]. auto.
  - intros ->. repeat split.
    exists []. rewrite app_nil_r. split; [reflexivity|].
    split; [cbn; lia|constructor].
Qed.

Lemma loop_record_weaken (bars1 bars2 : list SignalStrategy.Bar)
    (r : TradeRecord.t) :
  (forall b, b ∈ bars1 -> b ∈ bars2) ->
  SignalStrategy.loop_record symbol bars1 r ->
  SignalStrategy.loop_record symbol bars2 r.
Proof.
  intros Hsub (Hs & Ht & bar & Hin & Hd & Hp).
  split; [exact Hs|]. split; [exact Ht|].
  exists bar. split; [apply Hsub; exact Hin|]. auto.
Qed.

(** The whole loop over bars with positive closes. *)
Lemma loop_outcome (cash0 : Q) (bars : list SignalStrategy.Bar)
    (tm : TradeManager.t) :
  Forall (fun bar => 0 < bar.(SignalStrategy.close)) bars ->
  SignalStrategy.divisor_ok tm ->
  exists events rows tm' new,
    SignalStrategy.loop symbol position_size position_pct cash0 tm bars
    = (events, Py.Return (rows, tm'))
    /\ length events = length bars
    /\ length rows = length bars
    /\ map Snapshot.date tm'.(TradeManager.daily_portfolio_value)
       = map Snapshot.date tm.(TradeManager.daily_portfolio_value)
         ++ map SignalStrategy.bar_date bars
    /\ tm'.(TradeManager.trade_cost) = tm.(TradeManager.trade_cost)
    /\ tm'.(TradeManager.initial_cash) = tm.(TradeManager.initial_cash)
    /\ tm'.(TradeManager.trade_history)
       = tm.(TradeManager.trade_history) ++ new
    /\ (length new <= length bars)%nat
    /\ Forall (SignalStrategy.loop_record symbol bars) new.
Proof.
  revert tm. induction bars as [|bar bars IH]; intros tm Hall Hdiv.
  - exists [], [], tm, []. cbn. rewrite !app_nil_r.
    repeat split; try lia. constructor.
  - inversion Hall as [|? ? Hclose Hrest]; subst.
    destruct (step_returns cash0 tm bar Hclose Hdiv)
      as (row & o & tm1 & Hstep & Heff).
    destruct (call_effect_fields tm tm1 bar o Heff)
      as (Hc1 & Hi1 & Hv1 & new1 & Hh1 & Hl1 & Hr1).
    set (tm2 := TradeManager.update_portfolio_value tm1
                  bar.(SignalStrategy.bar_date)
                  {[ symbol := bar.(SignalStrategy.close) ]}) in *.
    destruct (update_fields tm1 bar.(SignalStrategy.bar_date)
                {[ symbol := bar.(SignalStrategy.close) ]})
      as (Hh2 & Hc2 & Hi2 & _ & _ & Hv2).
    fold tm2 in Hh2, Hc2, Hi2, Hv2.
    assert (Hdiv2 : SignalStrategy.divisor_ok tm2).
    { unfold SignalStrategy.divisor_ok. rewrite Hc2, Hc1. exact Hdiv. }
    destruct (IH tm2 Hrest Hdiv2)
      as (events & rows & tm' & new & Hloop & He & Hr & Hv & Hc & Hi & Hh
          & Hl & Hrec).
    cbn [SignalStrategy.loop]. rewrite Hstep, Hloop. cbn [Py.bind fst snd].
    eexists. eexists. exists tm', (new1 ++ new).
    split; [reflexivity|].
    split; [cbn; lia|]. split; [cbn; lia|].
    split; [rewrite Hv, Hv2, Hv1, <- app_assoc; reflexivity|].
    split; [congruence|]. split; [congruence|].
    split; [rewrite Hh, Hh2, Hh1, app_assoc; reflexivity|].
    split; [rewrite length_app; cbn; lia|].
    apply Forall_app. split.
    + eapply Forall_impl; [exact Hr1|]. intros r.
      apply loop_record_weaken. intros b Hb.
      apply list_elem_of_singleton in Hb. subst b.
      apply elem_of_cons. left. reflexivity.
    + eapply Forall_impl; [exact Hrec|]. intros r.
      apply loop_record_weaken. intros b Hb.
      apply elem_of_cons. right. exact Hb.
Qed.

End LoopOutcome.

(** X21.  Over bars whose closes are all positive, with a cost model
    whose rates are not negative and with the numbers the buys convert
    within float range at every bar, [run] raises nothing: it reaches
    every bar, returns one row per bar, leaves one snapshot per bar dated as
    the bars are, in order, and changes neither [initial_cash] nor the cost
    model.  (Beyond the range the source's [int] raises OverflowError on a
    quotient that overflowed, as with a close of 1e-320.) *)
Theorem run_completes (symbol : string) (position_size position_pct : option Q)
    (trade_manager : TradeManager.t) (initial_cash : option Q) (now : Z)
    (bars : list SignalStrategy.Bar) :
  Forall (fun bar => 0 < bar.(SignalStrategy.close)) bars ->
  0 <= trade_manager.(TradeManager.trade_cost).(TradeCost.commission_rate) ->
  0 <= trade_manager.(TradeManager.trade_cost).(TradeCost.slippage_rate) ->
  Forall
    (fun ev =>
       SignalStrategy.sizing_in_range position_size position_pct
         ev.(SignalStrategy.ev_before) ev.(SignalStrategy.ev_bar))
    (fst (SignalStrategy.run symbol position_size position_pct trade_manager
            initial_cash now bars)) ->
  exists events rows tm',
    SignalStrategy.run symbol position_size position_pct trade_manager
      initial_cash now bars
    = (events, Py.Return (rows, tm'))
    /\ map SignalStrategy.ev_bar events = bars
    /\ length rows = length bars
    /\ map Snapshot.date tm'.(TradeManager.daily_portfolio_value)
       = match initial_cash with
         | Some _ => []
         | None =>
           map Snapshot.date trade_manager.(TradeManager.daily_portfolio_value)
         end ++ map SignalStrategy.bar_date bars
    /\ tm'.(TradeManager.trade_cost) = trade_manager.(TradeManager.trade_cost)
    /\ tm'.(TradeManager.initial_cash)
       = trade_manager.(TradeManager.initial_cash).
Proof.
  intros Hall Hcr Hsr _.
  assert (Hdiv : SignalStrategy.divisor_ok trade_manager)
    by (unfold SignalStrategy.divisor_ok; lra).
  unfold SignalStrategy.run.
  set (tm := match initial_cash with
             | Some _ => TradeManager.reset trade_manager now
             | None => trade_manager
             end).
  assert (Hc0 : tm.(TradeManager.trade_cost)
                = trade_manager.(TradeManager.trade_cost))
    by (unfold tm; destruct initial_cash; reflexivity).
  assert (Hi0 : tm.(TradeManager.initial_cash)
                = trade_manager.(TradeManager.initial_cash))
    by (unfold tm; destruct initial_cash; reflexivity).
  assert (Hdiv0 : SignalStrategy.divisor_ok tm)
    by (unfold SignalStrategy.divisor_ok; rewrite Hc0; exact Hdiv).
  destruct (loop_outcome symbol position_size position_pct
              tm.(TradeManager.cash) bars tm Hall Hdiv0)
    as (events & rows & tm' & new & Hloop & He & Hr & Hv & Hc & Hi & _).
  exists events, rows, tm'. split; [exact Hloop|].
  split.
  { pose proof (loop_bars symbol position_size position_pct
                  tm.(TradeManager.cash) bars tm) as [Hb _].
    rewrite Hloop in Hb. cbn [fst] in Hb. rewrite Hb, He.
    apply firstn_all. }
  split; [exact Hr|]. split.
  { rewrite Hv. unfold tm. destruct initial_cash; reflexivity. }
  split; congruence.
Qed.

Lemma run_completes_witness :
  exists events rows tm',
    SignalStrategy.run "X" None None (TradeManager.init 100000 None) None 0
      [SignalStrategy.mkBar 1 10 1; SignalStrategy.mkBar 2 11 0;
       SignalStrategy.mkBar 3 12 (-1)]
    = (events, Py.Return (rows, tm'))
    /\ length rows = 3%nat
    /\ map Snapshot.date tm'.(TradeManager.daily_portfolio_value)
       = [1%Z; 2%Z; 3%Z].
Proof.
  destruct (run_completes "X" None None (TradeManager.init 100000 None) None 0
              [SignalStrategy.mkBar 1 10 1; SignalStrategy.mkBar 2 11 0;
               SignalStrategy.mkBar 3 12 (-1)])
    as (events & rows & tm' & Hrun & _ & Hr & Hv & _).
  - repeat constructor.
  - discriminate.
  - discriminate.
  - assert (E : exists l,
               fst (SignalStrategy.run "X" None None
                      (TradeManager.init 100000 None) None 0
                      [SignalStrategy.mkBar 1 10 1;
                       SignalStrategy.mkBar 2 11 0;
                       SignalStrategy.mkBar 3 12 (-1)])
               = l
               /\ Forall
                    (fun ev =>
                       SignalStrategy.sizing_in_range None None
                         ev.(SignalStrategy.ev_before)
                         ev.(SignalStrategy.ev_bar))
                    l).
    { eexists. split; [vm_compute; reflexivity|].
      repeat (apply Forall_cons; split).
      all: try apply Forall_nil.
      all: try exact I.
      all: repeat split; vm_compute; discriminate. }
    destruct E as (l & -> & Hl). exact Hl.
  - exists events, rows, tm'. split; [exact Hrun|]. split; [exact Hr|].
    exact Hv.
Defined.

(** The ways one pass of the loop body raises. *)
Lemma step_raise_cases (symbol : string)
    (position_size position_pct : option Q) (cash0 : Q)
    (tm : TradeManager.t) (bar : SignalStrategy.Bar) (e : Py.exn) :
  SignalStrategy.step symbol position_size position_pct cash0 tm bar
  = Py.Raise e
  <-> (e = Py.ValueError
       /\ bar.(SignalStrategy.close) <= 0
       /\ (bar.(SignalStrategy.signal) == 1
           \/ (bar.(SignalStrategy.signal) == -1
               /\ 0 < (TradeManager.get_position tm symbol).(Position.shares))))
      \/ (e = Py.ZeroDivisionError
          /\ 0 < bar.(SignalStrategy.close)
          /\ bar.(SignalStrategy.signal) == 1
          /\ bar.(SignalStrategy.close)
             * (1 + tm.(TradeManager.trade_cost).(TradeCost.commission_rate)
                  + tm.(TradeManager.trade_cost).(TradeCost.slippage_rate))
             == 0
          /\ exists shares amount n,
               SignalStrategy.bar_call symbol position_size position_pct tm bar
               = Some (SignalStrategy.CallBuy bar.(SignalStrategy.bar_date)
                         symbol bar.(SignalStrategy.close) shares amount)
               /\ TradeManager.requested_shares bar.(SignalStrategy.close)
                    shares amount true
                  = Some n
               /\ tm.(TradeManager.cash)
                  < bar.(SignalStrategy.close) * n
                    + snd (TradeCost.calculate tm.(TradeManager.trade_cost)
                             bar.(SignalStrategy.close) n)).
Proof.
  pose proof (bar_call_rule symbol position_size position_pct tm bar)
    as Hrule.
  cbv zeta in Hrule. destruct Hrule as (Hbuy & Hsell & _).
  unfold SignalStrategy.step.
  destruct (SignalStrategy.bar_call symbol position_size position_pct tm bar)
    as [c|] eqn:Hcall.
  2:{ cbn [Py.bind]. split; [discriminate|].
      intros [(_ & _ & [H|H])|(_ & _ & H & _)].
      - apply Hbuy in H. destruct H as (? & ? & H). discriminate H.
      - apply Hsell in H. discriminate H.
      - apply Hbuy in H. destruct H as (? & ? & H). discriminate H. }
  pose proof (bar_call_args symbol position_size position_pct tm bar c Hcall)
    as Hargs.
  destruct c as [date sym price shares amount|date sym price shares].
  - destruct Hargs as (-> & -> & -> & Hdir).
    assert (Hsig : bar.(SignalStrategy.signal) == 1)
      by (apply Hbuy; eauto).
    cbn [SignalStrategy.invoke].
    destruct (TradeManager.buy tm _ symbol _ shares amount true)
      as [e'|[o tm1]] eqn:Hb; cbn [Py.bind].
    + apply buy_raise_cases in Hb. split.
      * intros [= <-].
        destruct Hb as [(-> & [H|H])|(-> & Hp & _ & Hd & n & Hn & Hlt)];
          [left; auto|contradiction|].
        right. repeat split; try assumption.
        exists shares, amount, n. auto.
      * intros [(-> & Hle & _)|(-> & Hp & _ & _)];
          destruct Hb as [(-> & [H|H])|(-> & Hp' & _)];
          try reflexivity; try contradiction; lra.
    + split; [discriminate|].
      assert (Hnr : forall e0, TradeManager.buy tm bar.(SignalStrategy.bar_date)
                                 symbol bar.(SignalStrategy.close) shares amount
                                 true <> Py.Raise e0) by congruence.
      intros [(-> & Hle & _)|(-> & Hp & _ & Hd & s' & a' & n & Hc' & Hn & Hlt)].
      * exfalso. apply (Hnr Py.ValueError). apply buy_raise_cases. left. auto.
      * exfalso. apply (Hnr Py.ZeroDivisionError). apply buy_raise_cases. right.
        assert (s' = shares /\ a' = amount) as [-> ->]
          by (split; congruence).
        repeat split; try assumption. exists n. auto.
  - destruct Hargs as (-> & -> & -> & -> & Hheld).
    assert (Hsig : bar.(SignalStrategy.signal) == -1)
      by (apply Hsell; reflexivity).
    cbn [SignalStrategy.invoke].
    destruct (TradeManager.sell tm _ symbol _ (Some _) None None)
      as [e'|[o tm1]] eqn:Hs; cbn [Py.bind].
    + apply sell_raise_cases in Hs.
      destruct Hs as [-> [Hle|(p & pc & _ & _ & H & _)]]; [|discriminate H].
      split.
      * intros [= <-]. left. auto.
      * intros [(-> & _)|(_ & Hp & _)]; [reflexivity|lra].
    + split; [discriminate|].
      assert (Hnr : forall e0,
                 TradeManager.sell tm bar.(SignalStrategy.bar_date) symbol
                   bar.(SignalStrategy.close)
                   (Some (TradeManager.get_position tm symbol).(Position.shares))
                   None None <> Py.Raise e0) by congruence.
      intros [(-> & Hle & _)|(_ & _ & H1 & _)].
      * exfalso. apply (Hnr Py.ValueError). apply sell_raise_cases. auto.
      * rewrite Hsig in H1. discriminate H1.
Qed.

(** X22.  With a cost model whose rates are not negative and the numbers
    a buy converts within float range, one pass of the loop body raises
    only [ValueError], and exactly when the close is not positive and the
    bar leads to a call: signal 1, or signal -1 on a positive holding.  A
    bar with any other signal, or an exit signal with nothing held, passes
    whatever its close. *)
Theorem step_raises_iff (symbol : string)
    (position_size position_pct : option Q) (cash0 : Q)
    (tm : TradeManager.t) (bar : SignalStrategy.Bar) (e : Py.exn) :
  0 <= tm.(TradeManager.trade_cost).(TradeCost.commission_rate) ->
  0 <= tm.(TradeManager.trade_cost).(TradeCost.slippage_rate) ->
  SignalStrategy.sizing_in_range position_size position_pct tm bar ->
  (SignalStrategy.step symbol position_size position_pct cash0 tm bar
   = Py.Raise e
   <-> e = Py.ValueError
       /\ bar.(SignalStrategy.close) <= 0
       /\ (bar.(SignalStrategy.signal) == 1
           \/ (bar.(SignalStrategy.signal) == -1
               /\ 0 < (TradeManager.get_position tm symbol)
                        .(Position.shares)))).
Proof.
  intros Hcr Hsr _. rewrite step_raise_cases. split.
  - intros [H|(_ & Hp & _ & Hd & _)]; [exact H|].
    exfalso.
    assert (0 < bar.(SignalStrategy.close)
                * (1 + tm.(TradeManager.trade_cost).(TradeCost.commission_rate)
                     + tm.(TradeManager.trade_cost).(TradeCost.slippage_rate)))
      by (apply Qmult_lt_0_compat; lra).
    lra.
  - intro H. left. exact H.
Qed.

Lemma step_raises_iff_witness :
  SignalStrategy.step "X" None None 0 (TradeManager.init 100000 None)
    (SignalStrategy.mkBar 1 0 1)
  = Py.Raise Py.ValueError.
Proof.
  apply (step_raises_iff "X" None None 0 (TradeManager.init 100000 None)
           (SignalStrategy.mkBar 1 0 1) Py.ValueError).
  - discriminate.
  - discriminate.
  - repeat split; vm_compute; discriminate.
  - split; [reflexivity|]. split; [discriminate|]. left. reflexivity.
Defined.

(** X23.  An exit signal sells out.  At a bar with signal -1, a positive
    close and a positive holding of the strategy's symbol, the loop body
    returns a row marked SELL whose [shares] is the whole holding and whose
    [position] is the holding the bar found; afterwards the holding is zero,
    the cash is the old cash plus the proceeds less the cost of that sale,
    and a further exit signal leads to no call. *)
Theorem exit_signal_sells_out (symbol : string)
    (position_size position_pct : option Q) (cash0 : Q)
    (tm : TradeManager.t) (bar : SignalStrategy.Bar) :
  bar.(SignalStrategy.signal) == -1 ->
  0 < bar.(SignalStrategy.close) ->
  0 < (TradeManager.get_position tm symbol).(Position.shares) ->
  exists row tm',
    SignalStrategy.step symbol position_size position_pct cash0 tm bar
    = Py.Return (row, tm')
    /\ row.(SignalStrategy.row_trade_type) = Some SELL
    /\ row.(SignalStrategy.row_shares)
       == (TradeManager.get_position tm symbol).(Position.shares)
    /\ row.(SignalStrategy.row_position)
       = (TradeManager.get_position tm symbol).(Position.shares)
    /\ row.(SignalStrategy.row_cash) = tm'.(TradeManager.cash)
    /\ tm'.(TradeManager.cash)
       == tm.(TradeManager.cash)
          + (bar.(SignalStrategy.close) * row.(SignalStrategy.row_shares)
             - snd (TradeCost.calculate tm.(TradeManager.trade_cost)
                      bar.(SignalStrategy.close)
                      row.(SignalStrategy.row_shares)))
    /\ (TradeManager.get_position tm' symbol).(Position.shares) == 0
    /\ forall bar',
         bar'.(SignalStrategy.signal) == -1 ->
         SignalStrategy.bar_call symbol position_size position_pct tm' bar'
         = None.
Proof.
  intros Hsig Hclose Hheld.
  pose proof (bar_call_rule symbol position_size position_pct tm bar)
    as Hrule.
  cbv zeta in Hrule. destruct Hrule as (_ & Hsell & _).
  assert (Hcall : SignalStrategy.bar_call symbol position_size position_pct
                    tm bar
                  = Some (SignalStrategy.CallSell bar.(SignalStrategy.bar_date)
                            symbol bar.(SignalStrategy.close)
                            (TradeManager.get_position tm symbol)
                              .(Position.shares)))
    by (apply Hsell; split; assumption).
  unfold SignalStrategy.step. rewrite Hcall. cbn [SignalStrategy.invoke].
  assert (Hl : tm.(TradeManager.positions) !! symbol
               = Some (TradeManager.get_position tm symbol)).
  { unfold TradeManager.get_position in *.
    destruct (tm.(TradeManager.positions) !! symbol); [reflexivity|].
    cbn in Hheld. lra. }
  set (position := TradeManager.get_position tm symbol) in *.
  destruct (sell_whole_holding tm bar.(SignalStrategy.bar_date) symbol
              bar.(SignalStrategy.close) (Some position.(Position.shares))
              None None position position.(Position.shares)
              Hclose Hl Hheld eq_refl (Qle_refl _))
    as (r & tm1 & position' & Hs & Hr & Hl' & H0 & _).
  rewrite Hs. cbn [Py.bind].
  pose proof (call_outcome tm
                (Session.Sell bar.(SignalStrategy.bar_date) symbol
                   bar.(SignalStrategy.close)
                   (Some position.(Position.shares)) None None)
                (Some r) tm1 Hs)
    as (_ & Hcash & Hbal & Hcost & _ & _ & _ & Hty & _ & _ & Hpr & Hchg).
  eexists. eexists. split; [reflexivity|].
  cbn [SignalStrategy.row_trade_type SignalStrategy.row_shares
       SignalStrategy.row_position SignalStrategy.row_cash].
  destruct (update_fields tm1 bar.(SignalStrategy.bar_date)
              {[ symbol := bar.(SignalStrategy.close) ]})
    as (_ & _ & _ & Hpos & Hc & _).
  rewrite Hc.
  split; [rewrite Hty; reflexivity|]. split; [exact Hr|].
  split; [reflexivity|]. split; [exact Hbal|].
  split.
  { rewrite Hcash, Hchg.
    assert (Ht : r.(TradeRecord.total_cost)
                 = snd (TradeCost.calculate tm.(TradeManager.trade_cost)
                          bar.(SignalStrategy.close) r.(TradeRecord.shares))).
    { rewrite <- Hpr. rewrite <- Hcost. reflexivity. }
    rewrite Ht. reflexivity. }
  assert (Hg : (TradeManager.get_position
                  (TradeManager.update_portfolio_value tm1
                     bar.(SignalStrategy.bar_date)
                     {[ symbol := bar.(SignalStrategy.close) ]}) symbol)
               = position').
  { unfold TradeManager.get_position. rewrite Hpos, Hl'. reflexivity. }
  split; [rewrite Hg; exact H0|].
  intros bar' Hsig'. unfold SignalStrategy.bar_call. rewrite Hg.
  assert (E1 : Py.eq bar'.(SignalStrategy.signal) 1 = false)
    by (apply eq_false; rewrite Hsig'; discriminate).
  assert (E2 : Py.lt 0 position'.(Position.shares) = false)
    by (apply lt_false; lra).
  rewrite E1, E2. destruct (Py.eq _ (-1)); reflexivity.
Qed.

Lemma exit_signal_sells_out_witness :
  exists row tm',
    SignalStrategy.step "X" None None 0 Examples.holding_default
      (SignalStrategy.mkBar 1 10 (-1))
    = Py.Return (row, tm')
    /\ row.(SignalStrategy.row_trade_type) = Some SELL
    /\ row.(SignalStrategy.row_shares) == 100
    /\ (TradeManager.get_position tm' "X").(Position.shares) == 0.
Proof.
  destruct (exit_signal_sells_out "X" None None 0 Examples.holding_default
              (SignalStrategy.mkBar 1 10 (-1)))
    as (row & tm' & Hstep & Hty & Hsh & _ & _ & _ & H0 & _).
  - reflexivity.
  - reflexivity.
  - vm_compute. reflexivity.
  - exists row, tm'. split; [exact Hstep|]. split; [exact Hty|].
    split; [rewrite Hsh; vm_compute; reflexivity|exact H0].
Defined.

(** X24.  Whatever [run] adds to the history is the strategy's own.  Over
    bars with positive closes the history after the run is the history the
    loop started from (after the reset, when [initial_cash] is given)
    followed by at most one record per bar, each of them a BUY or a SELL of
    the strategy's symbol, dated and priced as one of the bars. *)
Theorem run_records_own_symbol (symbol : string)
    (position_size position_pct : option Q)
    (trade_manager : TradeManager.t) (initial_cash : option Q) (now : Z)
    (bars : list SignalStrategy.Bar) :
  Forall (fun bar => 0 < bar.(SignalStrategy.close)) bars ->
  SignalStrategy.divisor_ok trade_manager ->
  exists events rows tm' new,
    SignalStrategy.run symbol position_size position_pct trade_manager
      initial_cash now bars
    = (events, Py.Return (rows, tm'))
    /\ tm'.(TradeManager.trade_history)
       = match initial_cash with
         | Some _ => [TradeManager.init_record trade_manager now]
         | None => trade_manager.(TradeManager.trade_history)
         end ++ new
    /\ (length new <= length bars)%nat
    /\ Forall
         (fun r =>
            r.(TradeRecord.symbol) = symbol
            /\ (r.(TradeRecord.trade_type) = BUY
                \/ r.(TradeRecord.trade_type) = SELL)
            /\ exists bar,
                 bar ∈ bars
                 /\ r.(TradeRecord.date) = bar.(SignalStrategy.bar_date)
                 /\ r.(TradeRecord.price) = bar.(SignalStrategy.close))
         new.
Proof.
  intros Hall Hdiv. unfold SignalStrategy.run.
  set (tm := match initial_cash with
             | Some _ => TradeManager.reset trade_manager now
             | None => trade_manager
             end).
  assert (Hdiv0 : SignalStrategy.divisor_ok tm)
    by (unfold tm; destruct initial_cash; exact Hdiv).
  destruct (loop_outcome symbol position_size position_pct
              tm.(TradeManager.cash) bars tm Hall Hdiv0)
    as (events & rows & tm' & new & Hloop & _ & _ & _ & _ & _ & Hh & Hl & Hrec).
  exists events, rows, tm', new. split; [exact Hloop|].
  split; [rewrite Hh; unfold tm; destruct initial_cash; reflexivity|].
  split; [exact Hl|exact Hrec].
Qed.

Lemma run_records_own_symbol_witness :
  exists events rows tm' new,
    SignalStrategy.run "X" None None (TradeManager.init 100000 None) (Some 1) 0
      [SignalStrategy.mkBar 1 10 1; SignalStrategy.mkBar 2 11 0;
       SignalStrategy.mkBar 3 12 (-1)]
    = (events, Py.Return (rows, tm'))
    /\ tm'.(TradeManager.trade_history)
       = [TradeManager.init_record (TradeManager.init 100000 None) 0] ++ new
    /\ Forall (fun r => r.(TradeRecord.symbol) = "X") new.
Proof.
  destruct (run_records_own_symbol "X" None None
              (TradeManager.init 100000 None) (Some 1) 0
              [SignalStrategy.mkBar 1 10 1; SignalStrategy.mkBar 2 11 0;
               SignalStrategy.mkBar 3 12 (-1)])
    as (events & rows & tm' & new & Hrun & Hh & _ & Hrec).
  - repeat constructor.
  - vm_compute. discriminate.
  - exists events, rows, tm', new. split; [exact Hrun|]. split; [exact Hh|].
    eapply Forall_impl; [exact Hrec|]. intros r [Hs _]. exact Hs.
Defined.

(** X25.  After [Backtest.run] with [initial_cash] given, on bars with
    positive closes and a strategy symbol that is not the empty string, the
    history is the INIT record of that cash followed by the loop's own
    records, and [Performance.calculate] and
    [Performance.calculate_portfolio] reconstruct the same round trips from
    it: pairs of a BUY and a later SELL of the strategy's symbol, both
    among the records the loop appended. *)
Theorem backtest_run_round_trips (symbol : string)
    (position_size position_pct : option Q)
    (trade_manager : TradeManager.t) (initial_cash : Q) (now : Z)
    (bars : list SignalStrategy.Bar) :
  symbol <> "" ->
  Forall (fun bar => 0 < bar.(SignalStrategy.close)) bars ->
  SignalStrategy.divisor_ok trade_manager ->
  exists events rows tm' new pairs,
    Backtest.run symbol position_size position_pct trade_manager
      (Some initial_cash) now bars
    = (events, Py.Return (rows, tm'))
    /\ tm'.(TradeManager.initial_cash) = initial_cash
    /\ tm'.(TradeManager.trade_history)
       = TradeRecord.mk now "" INIT 0 0 0 0 0 initial_cash initial_cash :: new
    /\ Performance.calculate_paired_trades tm'.(TradeManager.trade_history)
       = Some pairs
    /\ Performance.calculate_portfolio_paired_trades
         tm'.(TradeManager.trade_history)
       = Some pairs
    /\ Forall
         (fun p =>
            fst p ∈ new /\ snd p ∈ new
            /\ (fst p).(TradeRecord.trade_type) = BUY
            /\ (snd p).(TradeRecord.trade_type) = SELL
            /\ (fst p).(TradeRecord.symbol) = symbol
            /\ (snd p).(TradeRecord.symbol) = symbol
            /\ ((fst p).(TradeRecord.date) < (snd p).(TradeRecord.date))%Z)
         pairs.
Proof.
  intros Hne Hall Hdiv. unfold Backtest.run, SignalStrategy.run.
  set (tm := TradeManager.reset
               (Backtest.set_initial_cash trade_manager initial_cash) now).
  assert (Hdiv0 : SignalStrategy.divisor_ok tm) by exact Hdiv.
  destruct (loop_outcome symbol position_size position_pct
              tm.(TradeManager.cash) bars tm Hall Hdiv0)
    as (events & rows & tm' & new & Hloop & _ & _ & _ & _ & Hi & Hh & _ & Hrec).
  change (tm.(TradeManager.trade_history))
    with [TradeRecord.mk now "" INIT 0 0 0 0 0 initial_cash initial_cash]
    in Hh.
  cbn [app] in Hh.
  assert (Hone : Performance.one_symbol symbol
                   tm'.(TradeManager.trade_history)).
  { rewrite Hh. constructor.
    - cbn. intros [H|H]; discriminate H.
    - eapply Forall_impl; [exact Hrec|]. intros r [Hs _] _. exact Hs. }
  destruct (calculate_pairs_facts tm'.(TradeManager.trade_history))
    as (pairs & Hcalc & Hpairs & _).
  exists events, rows, tm', new, pairs.
  split; [exact Hloop|]. split; [exact Hi|]. split; [exact Hh|].
  split; [exact Hcalc|].
  split.
  { rewrite <- (calculate_pairs_one_symbol symbol
                  tm'.(TradeManager.trade_history) Hne Hone).
    exact Hcalc. }
  assert (Hin : forall r, r ∈ tm'.(TradeManager.trade_history) ->
                          r.(TradeRecord.trade_type) <> INIT ->
                          r ∈ new /\ r.(TradeRecord.symbol) = symbol).
  { intros r Hr Hty. rewrite Hh in Hr. apply elem_of_cons in Hr.
    destruct Hr as [->|Hr]; [contradiction Hty; reflexivity|].
    split; [exact Hr|].
    rewrite Forall_forall in Hrec. apply (Hrec r Hr). }
  eapply Forall_impl; [exact Hpairs|].
  intros [b s]. cbn [fst snd]. intros (Hb & Hs & Hbin & Hsin & Hlt).
  destruct (Hin b Hbin) as [Hb1 Hb2]; [congruence|].
  destruct (Hin s Hsin) as [Hs1 Hs2]; [congruence|].
  auto 10.
Qed.

Lemma backtest_run_round_trips_witness :
  exists events rows tm' new pairs,
    Backtest.run "X" None None (TradeManager.init 100000 None) (Some 50000) 0
      [SignalStrategy.mkBar 1 10 1; SignalStrategy.mkBar 2 11 0;
       SignalStrategy.mkBar 3 12 (-1)]
    = (events, Py.Return (rows, tm'))
    /\ tm'.(TradeManager.trade_history)
       = TradeRecord.mk 0 "" INIT 0 0 0 0 0 50000 50000 :: new
    /\ Performance.calculate_paired_trades tm'.(TradeManager.trade_history)
       = Some pairs
    /\ Performance.calculate_portfolio_paired_trades
         tm'.(TradeManager.trade_history)
       = Some pairs.
Proof.
  destruct (backtest_run_round_trips "X" None None
              (TradeManager.init 100000 None) 50000 0
              [SignalStrategy.mkBar 1 10 1; SignalStrategy.mkBar 2 11 0;
               SignalStrategy.mkBar 3 12 (-1)])
    as (events & rows & tm' & new & pairs & Hrun & _ & Hh & Hc & Hp & _).
  - discriminate.
  - repeat constructor.
  - vm_compute. discriminate.
  - exists events, rows, tm', new, pairs. auto.
Defined.

(** * Properties of the combined signal *)

Section Combined.

Import MultiSignalStrategy.

Lemma weighted_from (l : list (Q * Q)) (a : Q) :
  fold_left (fun acc sw => acc + fst sw * snd sw) l a
  == a + fold_left (fun acc sw => acc + fst sw * snd sw) l 0.
Proof.
  revert a. induction l as [|x l IH]; intro a; cbn [fold_left].
  - lra.
  - rewrite (IH (a + fst x * snd x)), (IH (0 + fst x * snd x)). lra.
Qed.

Lemma weighted_cons (s w : Q) (signals weights : list Q) :
  weighted (s :: signals) (w :: weights) == s * w + weighted signals weights.
Proof.
  unfold weighted. cbn [zip zip_with fold_left fst snd].
  rewrite weighted_from. lra.
Qed.

Lemma weighted_opp (signals weights : list Q) :
  weighted (map Qopp signals) weights == - weighted signals weights.
Proof.
  revert weights. induction signals as [|s signals IH]; intros [|w weights];
    try reflexivity.
  cbn [map]. rewrite !weighted_cons, IH. lra.
Qed.

Lemma weighted_repeat (signals : list Q) (v w : Q) :
  Forall (fun s => s == v) signals ->
  weighted signals (repeat w (length signals))
  == inject_Z (Z.of_nat (length signals)) * (v * w).
Proof.
  induction 1 as [|s signals Hs _ IH].
  - reflexivity.
  - cbn [length repeat]. rewrite weighted_cons, IH, Hs.
    rewrite Nat2Z.inj_succ. unfold Z.succ. rewrite inject_Z_plus.
    change (inject_Z 1) with 1. lra.
Qed.

Lemma weighted_zeros (n : nat) (weights : list Q) :
  weighted (repeat 0 n) weights == 0.
Proof.
  revert weights. induction n as [|n IH]; intros [|w weights];
    try reflexivity.
  cbn [repeat]. rewrite weighted_cons, IH. lra.
Qed.

Lemma weighted_lone (i n : nat) (v w : Q) :
  (i < n)%nat ->
  weighted (<[i := v]> (repeat 0 n)) (repeat w n) == v * w.
Proof.
  revert i. induction n as [|n IH]; intros i Hi; [lia|].
  destruct i as [|i]; cbn [repeat].
  - cbn [insert list_insert]. rewrite weighted_cons, weighted_zeros. lra.
  - change (<[S i := v]> (0 :: repeat 0 n)) with (0 :: <[i := v]> (repeat 0 n)).
    rewrite weighted_cons, IH by lia. lra.
Qed.

Lemma threshold_cases (x : Q) :
  (1 # 2 < x /\ threshold x = 1)
  \/ (x < - (1 # 2) /\ threshold x = -1)
  \/ (- (1 # 2) <= x <= 1 # 2 /\ threshold x = 0).
Proof.
  unfold threshold.
  destruct (Py.lt (1 # 2) x) eqn:E1; destruct (Py.lt x (- (1 # 2))) eqn:E2;
    try apply lt_true in E1; try apply lt_true in E2;
    try apply lt_false in E1; try apply lt_false in E2.
  - lra.
  - left. auto.
  - right. left. auto.
  - right. right. auto.
Qed.

Lemma threshold_proper (x y : Q) : x == y -> threshold x = threshold y.
Proof.
  intro H.
  destruct (threshold_cases x) as [[H1 ->]|[[H1 ->]|[H1 ->]]];
    destruct (threshold_cases y) as [[H2 ->]|[[H2 ->]|[H2 ->]]];
    try reflexivity; lra.
Qed.

End Combined.

(** The outcomes of [init_weights]. *)
Lemma init_weights_facts (n : nat) (weights : option (list Q)) :
  (forall e,
      MultiSignalStrategy.init_weights n weights = Py.Raise e
      <-> (e = Py.ValueError
           /\ exists l, weights = Some l /\ length l <> n)
          \/ (e = Py.ZeroDivisionError /\ weights = None /\ n = 0%nat))
  /\ (forall l,
         MultiSignalStrategy.init_weights n weights = Py.Return l
         <-> (weights = Some l /\ length l = n)
             \/ (weights = None /\ n <> 0%nat
                 /\ l = repeat (1 / inject_Z (Z.of_nat n)) n)).
Proof.
  unfold MultiSignalStrategy.init_weights.
  destruct weights as [ws|].
  - destruct (length ws =? n)%nat eqn:E; cbn [negb].
    + apply Nat.eqb_eq in E. split.
      * intro e. split; [discriminate|].
        intros [(_ & l & [= <-] & H)|(_ & H & _)];
          [contradiction|discriminate H].
      * intro l. split.
        -- intros [= <-]. left. auto.
        -- intros [([= <-] & _)|(H & _)]; [reflexivity|discriminate H].
    + apply Nat.eqb_neq in E. split.
      * intro e. split.
        -- intros [= <-]. left. split; [reflexivity|]. exists ws. auto.
        -- intros [(-> & _)|(_ & H & _)]; [reflexivity|discriminate H].
      * intro l. split; [discriminate|].
        intros [([= <-] & H)|(H & _)]; [contradiction|discriminate H].
  - unfold Py.div.
    destruct (Py.eq (inject_Z (Z.of_nat n)) 0) eqn:E; cbn [Py.bind].
    + apply eq_true in E.
      assert (Hn : n = 0%nat).
      { destruct n; [reflexivity|]. exfalso.
        pose proof (count_pos (S n)) as Hp. unfold Performance.count in Hp.
        assert (0 < inject_Z (Z.of_nat (S n))) by (apply Hp; lia). lra. }
      split.
      * intro e. split.
        -- intros [= <-]. right. auto.
        -- intros [(_ & l & H & _)|(-> & _)]; [discriminate H|reflexivity].
      * intro l. split; [discriminate|].
        intros [(H & _)|(_ & H & _)]; [discriminate H|contradiction].
    + apply eq_false in E.
      assert (Hn : n <> 0%nat) by (intros ->; apply E; reflexivity).
      split.
      * intro e. split; [discriminate|].
        intros [(_ & l & H & _)|(_ & _ & H)]; [discriminate H|contradiction].
      * intro l. split.
        -- intros [= <-]. right. auto.
        -- intros [(H & _)|(_ & _ & ->)]; [discriminate H|reflexivity].
Qed.

(** X26.  The weights of a combined signal.  [__init__] raises
    [ValueError] exactly when a weights list is given whose length differs
    from the number of generators, and [ZeroDivisionError] exactly when no
    weights are given and there is no generator.  Otherwise there is one
    weight per generator: the list given, or, by default, [1 / n] for each
    of the [n] generators. *)
Theorem init_weights_cases (n : nat) (weights : option (list Q)) :
  (forall e,
      MultiSignalStrategy.init_weights n weights = Py.Raise e
      <-> (e = Py.ValueError
           /\ exists l, weights = Some l /\ length l <> n)
          \/ (e = Py.ZeroDivisionError /\ weights = None /\ n = 0%nat))
  /\ (forall l,
         MultiSignalStrategy.init_weights n weights = Py.Return l
         <-> (weights = Some l /\ length l = n)
             \/ (weights = None /\ n <> 0%nat
                 /\ l = repeat (1 / inject_Z (Z.of_nat n)) n)).
Proof.
  exact (init_weights_facts n weights).
Qed.

(** X27.  The combined signal of a row is -1, 0 or 1, and negating
    every generator's signal negates it.  Under the default weights of [n]
    generators a unanimous row (every generator at the same value [v]) has
    the weighted sum [v], so unanimous 1, 0 and -1 come out as 1, 0 and -1;
    and with two generators or more, a single generator at 1 or -1 while all
    others are at 0 comes out as 0. *)
Theorem combined_signal_vote (n : nat) (weights : list Q) :
  MultiSignalStrategy.init_weights n None = Py.Return weights ->
  (forall signals any_weights,
      let out :=
        MultiSignalStrategy.threshold
          (MultiSignalStrategy.weighted signals any_weights) in
      (out = 1 \/ out = 0 \/ out = -1)
      /\ MultiSignalStrategy.threshold
           (MultiSignalStrategy.weighted (map Qopp signals) any_weights)
         == - out)
  /\ (forall signals v,
         length signals = n ->
         Forall (fun s => s == v) signals ->
         MultiSignalStrategy.weighted signals weights == v
         /\ (v == 1 \/ v == 0 \/ v == -1 ->
             MultiSignalStrategy.threshold
               (MultiSignalStrategy.weighted signals weights) == v))
  /\ (forall i v,
         (2 <= n)%nat -> (i < n)%nat -> -1 <= v <= 1 ->
         MultiSignalStrategy.threshold
           (MultiSignalStrategy.weighted (<[i := v]> (repeat 0 n)) weights)
         = 0).
Proof.
  intro Hinit.
  apply (proj2 (init_weights_facts n None)) in Hinit.
  destruct Hinit as [(H & _)|(_ & Hn & ->)]; [discriminate H|].
  assert (Hpos : 0 < inject_Z (Z.of_nat n))
    by (apply (count_pos n); lia).
  split; [|split].
  - intros signals any_weights. cbv zeta. split.
    + destruct (threshold_cases
                  (MultiSignalStrategy.weighted signals any_weights))
        as [[_ ->]|[[_ ->]|[_ ->]]]; auto.
    + rewrite (threshold_proper _ _ (weighted_opp signals any_weights)).
      destruct (threshold_cases
                  (MultiSignalStrategy.weighted signals any_weights))
        as [[H1 ->]|[[H1 ->]|[H1 ->]]];
        destruct (threshold_cases
                    (- MultiSignalStrategy.weighted signals any_weights))
        as [[H2 ->]|[[H2 ->]|[H2 ->]]];
        try reflexivity; lra.
  - intros signals v Hlen Hall.
    assert (Hw : MultiSignalStrategy.weighted signals
                   (repeat (1 / inject_Z (Z.of_nat n)) n) == v).
    { rewrite <- Hlen at 2. rewrite (weighted_repeat signals v _ Hall), Hlen.
      field. lra. }
    split; [exact Hw|]. intro Hv.
    rewrite (threshold_proper _ _ Hw).
    destruct (threshold_cases v) as [[H1 ->]|[[H1 ->]|[H1 ->]]];
      destruct Hv as [Hv|[Hv|Hv]]; rewrite Hv in *; try reflexivity; lra.
  - intros i v Hn2 Hi Hv.
    assert (Hw : MultiSignalStrategy.weighted (<[i := v]> (repeat 0 n))
                   (repeat (1 / inject_Z (Z.of_nat n)) n)
                 == v * (1 / inject_Z (Z.of_nat n)))
      by (apply weighted_lone; exact Hi).
    rewrite (threshold_proper _ _ Hw).
    assert (H2 : 2 <= inject_Z (Z.of_nat n)).
    { change 2 with (inject_Z 2). rewrite <- Zle_Qle. lia. }
    assert (Hinv : 0 < 1 / inject_Z (Z.of_nat n) <= 1 # 2).
    { split.
      - apply Qlt_shift_div_l; lra.
      - apply Qle_shift_div_r; lra. }
    set (w := 1 / inject_Z (Z.of_nat n)) in *.
    assert (Hb : - (1 # 2) <= v * w <= 1 # 2) by nra.
    destruct (threshold_cases (v * w)) as [[H1 _]|[[H1 _]|[_ ->]]];
      [lra|lra|reflexivity].
Qed.

Lemma combined_signal_vote_witness :
  MultiSignalStrategy.threshold
    (MultiSignalStrategy.weighted (<[1%nat := 1]> (repeat 0 3))
       (repeat (1 / inject_Z (Z.of_nat 3)) 3))
  = 0.
Proof.
  apply (combined_signal_vote 3 (repeat (1 / inject_Z (Z.of_nat 3)) 3)).
  - reflexivity.
  - lia.
  - lia.
  - split; discriminate.
Defined.

(** * Properties of the drawdown *)

Section Drawdown.

Import Performance.

(** The drawdown column, with the running peak threaded through. *)
Lemma drawdown_from (peak : Q) (values : list Q) :
  zip_with (fun value peak => (value - peak) / peak * 100)
           values (cummax_from peak values)
  = match values with
    | [] => []
    | value :: values' =>
      (value - Py.max peak value) / Py.max peak value * 100
      :: zip_with (fun value peak => (value - peak) / peak * 100)
                  values' (cummax_from (Py.max peak value) values')
    end.
Proof. destruct values; reflexivity. Qed.

Lemma drawdown_entry (value peak : Q) :
  0 < value -> value <= peak ->
  -100 <= (value - peak) / peak * 100 <= 0
  /\ ((value - peak) / peak * 100 == 0 <-> value == peak).
Proof.
  intros Hv Hp.
  assert (Hq : (value - peak) / peak * 100 == value / peak * 100 - 100)
    by (field; lra).
  assert (H0 : 0 < value / peak) by (apply Qlt_shift_div_l; lra).
  assert (H1 : value / peak <= 1) by (apply Qle_shift_div_r; lra).
  split; [rewrite Hq; lra|].
  rewrite Hq. split; intro H.
  - assert (E : value / peak == 1) by lra.
    rewrite <- (Qmult_div_r value peak) by lra. rewrite E. lra.
  - assert (E : value / peak == 1) by (rewrite H; field; lra).
    rewrite E. lra.
Qed.

Lemma drawdown_from_bounds (values : list Q) (peak : Q) :
  0 < peak ->
  Forall (fun v => 0 < v) values ->
  Forall (fun d => -100 <= d <= 0)
    (zip_with (fun value peak => (value - peak) / peak * 100)
              values (cummax_from peak values)).
Proof.
  intros Hp Hall. revert peak Hp.
  induction Hall as [|v values Hv _ IH]; intros peak Hp.
  - constructor.
  - rewrite drawdown_from. constructor.
    + apply drawdown_entry; [exact Hv|apply max_ge_r].
    + apply IH. pose proof (max_ge_l peak v). lra.
Qed.

Lemma drawdown_from_zero (values : list Q) (peak : Q) :
  0 < peak ->
  Forall (fun v => 0 < v) values ->
  Forall (fun d => d == 0)
    (zip_with (fun value peak => (value - peak) / peak * 100)
              values (cummax_from peak values))
  <-> StronglySorted Qle (peak :: values).
Proof.
  intros Hp Hall. revert peak Hp.
  induction Hall as [|v values Hv Hpos IH]; intros peak Hp.
  - split; intros _; repeat constructor.
  - rewrite drawdown_from.
    assert (Hm : 0 < Py.max peak v)
      by (pose proof (max_ge_l peak v); lra).
    pose proof (drawdown_entry v (Py.max peak v) Hv (max_ge_r peak v))
      as [_ Hz].
    specialize (IH (Py.max peak v) Hm). split.
    + intro H. inversion H as [|d ds Hd Hds]; subst.
      apply Hz in Hd. apply IH in Hds.
      apply StronglySorted_inv in Hds as [Hs Hf].
      assert (Hpv : peak <= v) by (pose proof (max_ge_l peak v); lra).
      constructor.
      * constructor; [exact Hs|].
        eapply Forall_impl; [exact Hf|]. intros x Hx. cbn beta in *. lra.
      * constructor; [exact Hpv|].
        eapply Forall_impl; [exact Hf|]. intros x Hx. cbn beta in *. lra.
    + intro H. apply StronglySorted_inv in H as [Hs Hf].
      inversion Hf as [|? ? Hpv Hf']; subst.
      apply StronglySorted_inv in Hs as [Hs Hfv].
      assert (Hmv : Py.max peak v == v) by (apply max_eq_r; exact Hpv).
      constructor.
      * apply Hz. rewrite Hmv. reflexivity.
      * apply IH. constructor; [exact Hs|].
        eapply Forall_impl; [exact Hfv|]. intros x Hx. cbn beta in *. lra.
Qed.

Lemma series_min_from (xs : list Q) (x : Q) :
  fold_left Py.min xs x ∈ x :: xs
  /\ Forall (fun y => fold_left Py.min xs x <= y) (x :: xs).
Proof.
  revert x. induction xs as [|y xs IH]; intro x; cbn [fold_left].
  - split; [apply elem_of_cons; left; reflexivity|].
    constructor; [lra|constructor].
  - destruct (IH (Py.min x y)) as [Hin Hle].
    inversion Hle as [|? ? Hm Hrest]; subst.
    assert (Hx : Py.min x y <= x).
    { unfold Py.min. destruct (Py.lt y x) eqn:E; [|lra].
      apply lt_true in E. lra. }
    pose proof (min_le_r x y) as Hy.
    split.
    + apply elem_of_cons in Hin. destruct Hin as [Hin|Hin].
      * rewrite Hin. unfold Py.min. destruct (Py.lt y x).
        -- apply elem_of_cons. right. apply elem_of_cons. left. reflexivity.
        -- apply elem_of_cons. left. reflexivity.
      * apply elem_of_cons. right. apply elem_of_cons. right. exact Hin.
    + constructor; [lra|]. constructor; [lra|exact Hrest].
Qed.

End Drawdown.

(** X28.  On a column of positive portfolio values the drawdown column
    has one entry per value, each between -100 and 0, the first one 0;
    [max_drawdown] is the least entry, so it lies between -100 and 0 too;
    and it is 0 exactly when no value is below an earlier one. *)
Theorem drawdown_bounds (value : Q) (values : list Q) :
  Forall (fun v => 0 < v) (value :: values) ->
  length (Performance.drawdown (value :: values)) = S (length values)
  /\ Forall (fun d => -100 <= d <= 0)
       (Performance.drawdown (value :: values))
  /\ (exists d, head (Performance.drawdown (value :: values)) = Some d
                /\ d == 0)
  /\ exists m,
       Performance.max_drawdown (value :: values) = Some m
       /\ m ∈ Performance.drawdown (value :: values)
       /\ Forall (fun d => m <= d) (Performance.drawdown (value :: values))
       /\ -100 <= m <= 0
       /\ (m == 0 <-> StronglySorted Qle (value :: values)).
Proof.
  intro Hall. inversion Hall as [|? ? Hv Hrest]; subst.
  unfold Performance.max_drawdown, Performance.drawdown.
  cbn [Performance.cummax zip_with].
  set (ds := zip_with (fun value peak => (value - peak) / peak * 100)
                      values (Performance.cummax_from value values)).
  assert (Hlen : length ds = length values).
  { unfold ds. clear. revert value.
    induction values as [|v values IH]; intro value; [reflexivity|].
    cbn [Performance.cummax_from zip_with length]. rewrite IH. reflexivity. }
  assert (Hb : Forall (fun d => -100 <= d <= 0) ds)
    by (apply drawdown_from_bounds; assumption).
  assert (H0 : (value - value) / value * 100 == 0) by (field; lra).
  assert (Hb' : Forall (fun d => -100 <= d <= 0)
                  ((value - value) / value * 100 :: ds))
    by (constructor; [lra|exact Hb]).
  split; [cbn [length]; rewrite Hlen; reflexivity|].
  split; [exact Hb'|]. split; [eexists; split; [reflexivity|exact H0]|].
  cbn [Performance.series_min].
  destruct (series_min_from ds ((value - value) / value * 100))
    as [Hin Hle].
  eexists. split; [reflexivity|]. split; [exact Hin|]. split; [exact Hle|].
  split; [rewrite Forall_forall in Hb'; apply (Hb' _ Hin)|].
  rewrite <- (drawdown_from_zero values value Hv Hrest). fold ds.
  split.
  - intro Hm. rewrite Forall_forall in Hle, Hb. apply Forall_forall.
    intros d Hd.
    assert (H1 : fold_left Py.min ds ((value - value) / value * 100) <= d)
      by (apply Hle; apply elem_of_cons; right; exact Hd).
    pose proof (Hb d Hd). lra.
  - intro Hz. apply elem_of_cons in Hin. destruct Hin as [Hin|Hin].
    + rewrite Hin. exact H0.
    + rewrite Forall_forall in Hz. apply (Hz _ Hin).
Qed.

Lemma drawdown_bounds_witness :
  exists m,
    Performance.max_drawdown [100; 120; 90; 130] = Some m
    /\ -100 <= m <= 0
    /\ ~ m == 0.
Proof.
  destruct (drawdown_bounds 100 [120; 90; 130])
    as (_ & _ & _ & m & Hm & _ & _ & Hb & Hz).
  - repeat constructor.
  - exists m. split; [exact Hm|]. split; [exact Hb|].
    intro H. apply Hz in H.
    apply StronglySorted_inv in H as [H _].
    apply StronglySorted_inv in H as [_ H].
    inversion H as [|? ? H1 _]; subst. vm_compute in H1. apply H1. reflexivity.
Defined.

(** * Properties of the portfolio run *)

Lemma elem_of_bool_filter {A : Type} (f : A -> bool) (l : list A) (x : A) :
  x ∈ List.filter f l <-> f x = true /\ x ∈ l.
Proof.
  rewrite !list_elem_of_In, filter_In. tauto.
Qed.

Section PortfolioRun.

Variable strategies : list PortfolioStrategy.Child.
Variable pct : gmap string Q.
Variable now : Z.

Lemma equal_share_returns :
  strategies <> [] ->
  exists share, PortfolioStrategy.equal_share strategies = Py.Return share.
Proof.
  intro Hne. unfold PortfolioStrategy.equal_share, Py.div.
  destruct (Py.eq _ 0) eqn:E; [|eexists; reflexivity].
  exfalso. apply eq_true in E.
  assert (0 < inject_Z (Z.of_nat (length strategies))).
  { apply (count_pos (length strategies)).
    destruct strategies; [contradiction|cbn; lia]. }
  lra.
Qed.

Lemma run_each_outcome (jobs : list (PortfolioStrategy.Child
                                     * list SignalStrategy.Bar))
    (tm : TradeManager.t) :
  strategies <> [] ->
  Forall (fun job => Forall (fun bar => 0 < bar.(SignalStrategy.close))
                            (snd job)) jobs ->
  SignalStrategy.divisor_ok tm ->
  exists results tm' news,
    PortfolioStrategy.run_each strategies pct now jobs tm
    = Py.Return (results, tm')
    /\ map fst results = map (fun job => (fst job).(PortfolioStrategy.key)) jobs
    /\ Forall2 (fun job result => length (snd result) = length (snd job))
               jobs results
    /\ tm'.(TradeManager.trade_history)
       = tm.(TradeManager.trade_history) ++ concat news
    /\ Forall2 (fun job new => Forall (PortfolioStrategy.own_record job) new)
               jobs news
    /\ tm'.(TradeManager.initial_cash) = tm.(TradeManager.initial_cash).
Proof.
  intros Hne Hall. revert tm.
  induction Hall as [|[c data] jobs Hdata _ IH]; intros tm Hdiv.
  - exists [], tm, []. cbn. rewrite app_nil_r. repeat split; constructor.
  - cbn [PortfolioStrategy.run_each].
    destruct (equal_share_returns Hne) as [share ->]. cbn [Py.bind].
    unfold SignalStrategy.run.
    destruct (loop_outcome c.(PortfolioStrategy.child_symbol) None
                (Some (default share (pct !! c.(PortfolioStrategy.key))))
                tm.(TradeManager.cash) data tm Hdata Hdiv)
      as (events & rows & tm1 & new & Hloop & _ & Hr & _ & Hc & Hi & Hh & _
          & Hrec).
    rewrite Hloop. cbn [snd fst Py.bind].
    assert (Hdiv1 : SignalStrategy.divisor_ok tm1)
      by (unfold SignalStrategy.divisor_ok; rewrite Hc; exact Hdiv).
    destruct (IH tm1 Hdiv1)
      as (results & tm' & news & Hrun & Hk & Hlen & Hh' & Hrec' & Hi').
    rewrite Hrun. cbn [Py.bind fst snd].
    eexists. exists tm', (new :: news). split; [reflexivity|].
    split; [cbn [map fst]; rewrite Hk; reflexivity|].
    split; [constructor; [exact Hr|exact Hlen]|].
    split; [rewrite Hh', Hh; cbn [concat]; rewrite app_assoc; reflexivity|].
    split; [constructor; [exact Hrec|exact Hrec']|].
    congruence.
Qed.

End PortfolioRun.

(** X29.  A portfolio run works through its strategies one after the
    other.  [Backtest.run_portfolio] raises [ValueError] when a strategy's
    key has no frame in [data_dict].  Otherwise, with [initial_cash] given,
    a cost model whose [1 + commission_rate + slippage_rate] is not zero and
    positive closes throughout, it returns one frame per strategy, in dict
    order and with one row per bar of the date range; the history is the
    INIT record followed, strategy by strategy in dict order, by that
    strategy's own records: BUYs and SELLs of its symbol, dated inside the
    date range and priced at a bar of its frame. *)
Theorem portfolio_run_in_sequence
    (strategies : list PortfolioStrategy.Child)
    (data_dict : gmap string (list SignalStrategy.Bar))
    (start_date end_date : option Z)
    (trade_manager : TradeManager.t) (initial_cash : Q)
    (position_pct : PortfolioStrategy.PositionPct) (now : Z) :
  ((exists c, c ∈ strategies
              /\ data_dict !! c.(PortfolioStrategy.key) = None) ->
   Backtest.run_portfolio strategies data_dict start_date end_date
     trade_manager (Some initial_cash) position_pct now
   = Py.Raise Py.ValueError)
  /\ ((forall c, c ∈ strategies ->
                 is_Some (data_dict !! c.(PortfolioStrategy.key))) ->
      map_Forall
        (fun _ data =>
           Forall (fun bar => 0 < bar.(SignalStrategy.close)) data)
        data_dict ->
      SignalStrategy.divisor_ok trade_manager ->
      exists results tm' news,
        Backtest.run_portfolio strategies data_dict start_date end_date
          trade_manager (Some initial_cash) position_pct now
        = Py.Return (results, tm')
        /\ map fst results = map PortfolioStrategy.key strategies
        /\ Forall2
             (fun c result =>
                exists data,
                  data_dict !! c.(PortfolioStrategy.key) = Some data
                  /\ length (snd result)
                     = length (List.filter
                                 (Backtest.in_range start_date end_date) data))
             strategies results
        /\ tm'.(TradeManager.initial_cash) = initial_cash
        /\ tm'.(TradeManager.trade_history)
           = TradeRecord.mk now "" INIT 0 0 0 0 0 initial_cash initial_cash
             :: concat news
        /\ Forall2
             (fun c new =>
                Forall
                  (fun r =>
                     r.(TradeRecord.symbol) = c.(PortfolioStrategy.child_symbol)
                     /\ (r.(TradeRecord.trade_type) = BUY
                         \/ r.(TradeRecord.trade_type) = SELL)
                     /\ Backtest.in_range start_date end_date
                          (SignalStrategy.mkBar r.(TradeRecord.date)
                             r.(TradeRecord.price) 0)
                        = true
                     /\ exists data bar,
                          data_dict !! c.(PortfolioStrategy.key) = Some data
                          /\ bar ∈ data
                          /\ r.(TradeRecord.date)
                             = bar.(SignalStrategy.bar_date)
                          /\ r.(TradeRecord.price)
                             = bar.(SignalStrategy.close))
                  new)
             strategies news).
Proof.
  unfold Backtest.run_portfolio, PortfolioStrategy.run.
  set (filtered := List.filter (Backtest.in_range start_date end_date)
                   <$> data_dict).
  set (tm := TradeManager.reset
               (Backtest.set_initial_cash trade_manager initial_cash) now).
  split.
  - intros (c & Hin & Hnone).
    assert (Hjobs : PortfolioStrategy.jobs_of strategies filtered = None).
    { unfold PortfolioStrategy.jobs_of. apply mapM_None.
      apply Exists_exists. exists c. split; [exact Hin|].
      unfold filtered. rewrite lookup_fmap, Hnone. reflexivity. }
    rewrite Hjobs. reflexivity.
  - intros Hpresent Hpos Hdiv.
    destruct (PortfolioStrategy.jobs_of strategies filtered) as [jobs|]
      eqn:Hjobs.
    2:{ exfalso. unfold PortfolioStrategy.jobs_of in Hjobs.
        apply mapM_None in Hjobs. apply Exists_exists in Hjobs.
        destruct Hjobs as (c & Hin & Hnone).
        destruct (Hpresent c Hin) as [data Hdata].
        unfold filtered in Hnone. rewrite lookup_fmap, Hdata in Hnone.
        discriminate Hnone. }
    unfold PortfolioStrategy.jobs_of in Hjobs. apply mapM_Some in Hjobs.
    assert (Hjob : Forall2
                     (fun c job =>
                        fst job = c
                        /\ exists data,
                             data_dict !! c.(PortfolioStrategy.key) = Some data
                             /\ snd job
                                = List.filter
                                    (Backtest.in_range start_date end_date)
                                    data)
                     strategies jobs).
    { eapply Forall2_impl; [exact Hjobs|]. intros c job Hc.
      unfold filtered in Hc. rewrite lookup_fmap in Hc.
      destruct (data_dict !! c.(PortfolioStrategy.key)) as [data|];
        [|discriminate Hc].
      cbn in Hc. injection Hc as <-. split; [reflexivity|].
      exists data. auto. }
    destruct strategies as [|c0 strategies'] eqn:Hs.
    { inversion Hjob; subst.
      assert (Hpct : exists pct,
                 PortfolioStrategy.position_pct_dict [] position_pct
                 = Py.Return pct)
        by (destruct position_pct; eexists; reflexivity).
      destruct Hpct as [pct ->]. cbn [Py.bind PortfolioStrategy.run_each].
      exists [], tm, []. repeat split; constructor. }
    rewrite <- Hs in *.
    assert (Hne : strategies <> []) by (rewrite Hs; discriminate).
    assert (Hpct : exists pct,
               PortfolioStrategy.position_pct_dict strategies position_pct
               = Py.Return pct).
    { destruct position_pct; cbn [PortfolioStrategy.position_pct_dict];
        try (eexists; reflexivity).
      destruct (equal_share_returns strategies Hne) as [share Hshare].
      rewrite Hs. rewrite <- Hs. rewrite Hshare. eexists. reflexivity. }
    destruct Hpct as [pct ->]. cbn [Py.bind].
    assert (Hallpos : Forall
                        (fun job =>
                           Forall (fun bar => 0 < bar.(SignalStrategy.close))
                                  (snd job)) jobs).
    { apply Forall_forall. intros job Hin.
      apply list_elem_of_lookup in Hin as [i Hi].
      destruct (Forall2_lookup_r _ _ _ _ _ Hjob Hi)
        as (c & _ & _ & data & Hdata & ->).
      apply Forall_forall. intros bar Hbar.
      apply elem_of_bool_filter in Hbar as [_ Hbar].
      pose proof (Hpos _ _ Hdata) as Hd. cbn beta in Hd.
      rewrite Forall_forall in Hd. apply Hd. exact Hbar. }
    destruct (run_each_outcome strategies pct now jobs tm Hne Hallpos Hdiv)
      as (results & tm' & news & Hrun & Hk & Hlen & Hh & Hrec & Hi).
    exists results, tm', news. split; [exact Hrun|].
    split.
    { rewrite Hk. clear -Hjob.
      induction Hjob as [|c job cs js [Hc _] _ IH]; [reflexivity|].
      cbn [map]. rewrite IH, Hc. reflexivity. }
    split.
    { clear -Hjob Hlen. revert results Hlen.
      induction Hjob as [|c job cs js (Hc & data & Hd & Hf) _ IH];
        intros results Hlen; inversion Hlen; subst; constructor.
      - exists data. split; [exact Hd|]. rewrite <- Hf. assumption.
      - apply IH. assumption. }
    split; [exact Hi|]. split; [exact Hh|].
    clear -Hjob Hrec. revert news Hrec.
    induction Hjob as [|c job cs js (Hc & data & Hd & Hf) _ IH];
      intros news Hrec; inversion Hrec as [|? new ? news' Hnew Hrest]; subst;
      constructor.
    + eapply Forall_impl; [exact Hnew|]. intros r (Hsym & Hty & bar & Hin & Hdt & Hpr).
      rewrite Hf in Hin. apply elem_of_bool_filter in Hin as [Hrange Hin].
      split; [exact Hsym|]. split; [exact Hty|]. split.
      * unfold Backtest.in_range in *. cbn [SignalStrategy.bar_date].
        rewrite Hdt. exact Hrange.
      * exists data, bar. auto.
    + apply IH. exact Hrest.
Qed.

Lemma portfolio_run_in_sequence_witness :
  exists results tm' news,
    Backtest.run_portfolio [PortfolioStrategy.mkChild "X" "X"]
      {[ "X" := [SignalStrategy.mkBar 1 10 1; SignalStrategy.mkBar 2 11 0;
                 SignalStrategy.mkBar 3 12 (-1)] ]}
      (Some 2%Z) None (TradeManager.init 100000 None) (Some 50000)
      PortfolioStrategy.PctNone 0
    = Py.Return (results, tm')
    /\ map fst results = ["X"]
    /\ tm'.(TradeManager.trade_history)
       = TradeRecord.mk 0 "" INIT 0 0 0 0 0 50000 50000 :: concat news.
Proof.
  destruct (proj2 (portfolio_run_in_sequence
                     [PortfolioStrategy.mkChild "X" "X"]
                     {[ "X" := [SignalStrategy.mkBar 1 10 1;
                                SignalStrategy.mkBar 2 11 0;
                                SignalStrategy.mkBar 3 12 (-1)] ]}
                     (Some 2%Z) None (TradeManager.init 100000 None) 50000
                     PortfolioStrategy.PctNone 0))
    as (results & tm' & news & Hrun & Hk & _ & _ & Hh & _).
  - intros c Hc. apply list_elem_of_singleton in Hc. subst c.
    eexists. vm_compute. reflexivity.
  - apply map_Forall_singleton. repeat constructor.
  - vm_compute. discriminate.
  - exists results, tm', news. auto.
Defined.
